(** * Linux SystemScan: the collection and orchestration layer of
      [scanner/scan.py], embedded as executable Rocq functions.

    The scanner talks to hypervisor hosts, guests and hubs; everything it
    learns from them arrives as parsed JSON or as command output.  The
    embedding keeps that shape: Python values are a [pyval] tree, the
    records the scanner builds are Python dicts, and the run threads one
    store holding the error log, the log of remote calls and the
    aggregated result list.  Console output is left out.  [main] returns
    what it hands to the database; [main_db] runs the same collection
    between the statements the scanner sends to the database server, which
    are kept as a log and answered by the server as it sees fit.  A Python
    [float] is an IEEE 754 double, a [spec_float]. *)

From Stdlib Require Import String Ascii List ZArith Bool Lia SpecFloat DecimalString
  Permutation.
Import ListNotations.
Set Warnings "-register-all".
Local Open Scope string_scope.
Local Open Scope Z_scope.

(** ** Text

    A [str] is a Stdlib string; one character is one code point below 256. *)

Module Str.

(** [str.isspace] on the code points below 256. *)
Definition is_space (c : ascii) : bool :=
  let n := nat_of_ascii c in
  (Nat.leb 9 n && Nat.leb n 13) || (Nat.leb 28 n && Nat.leb n 32)
  || Nat.eqb n 133 || Nat.eqb n 160.

Fixpoint lstrip (s : string) : string :=
  match s with
  | EmptyString => EmptyString
  | String c t => if is_space c then lstrip t else s
  end.

Fixpoint rstrip (s : string) : string :=
  match s with
  | EmptyString => EmptyString
  | String c t =>
      match rstrip t with
      | EmptyString => if is_space c then EmptyString else String c EmptyString
      | r => String c r
      end
  end.

(** [s.strip()] *)
Definition strip (s : string) : string := rstrip (lstrip s).

(** [s.split(sep)] for a one-character separator. *)
Fixpoint split (sep : ascii) (s : string) : list string :=
  match s with
  | EmptyString => [EmptyString]
  | String c t =>
      if Ascii.eqb c sep then EmptyString :: split sep t
      else match split sep t with
           | h :: r => String c h :: r
           | [] => [String c EmptyString]
           end
  end.

(** [s.startswith(p)] *)
Definition startswith (s p : string) : bool := String.prefix p s.

(** [sub in s] *)
Fixpoint contains (sub s : string) : bool :=
  String.prefix sub s ||
  match s with
  | EmptyString => false
  | String _ t => contains sub t
  end.

(** [s.replace(old, new)] for a non-empty [old]: occurrences are replaced
    left to right without overlap; [skip] counts the characters of a
    match that are still to be dropped. *)
Fixpoint replace_from (old new s : string) (skip : nat) : string :=
  match s with
  | EmptyString => EmptyString
  | String c t =>
      match skip with
      | S k => replace_from old new t k
      | O => if String.prefix old s
             then new ++ replace_from old new t (Nat.pred (String.length old))
             else String c (replace_from old new t O)
      end
  end.

Definition replace (s old new : string) : string := replace_from old new s O.

(** [sep.join(parts)] *)
Definition join (sep : string) (parts : list string) : string :=
  String.concat sep parts.

Definition nl : ascii := ascii_of_nat 10.
Definition dq : ascii := ascii_of_nat 34.

(** [s] between double quotes. *)
Definition quoted (s : string) : string :=
  String dq (s ++ String dq EmptyString).

End Str.

(** ** Python values *)

(** What [json.loads] and [resp.json()] produce, and what the scanner's own
    dicts hold.  A float is carried as its IEEE-754 value; a dict keeps its
    items in insertion order. *)
Inductive pyval : Type :=
| PNone
| PBool (b : bool)
| PInt (n : Z)
| PFloat (f : spec_float)
| PStr (s : string)
| PList (items : list pyval)
| PDict (items : list (string * pyval)).

Definition pydict : Type := list (string * pyval).

(** [bool(v)] *)
Definition truthy (v : pyval) : bool :=
  match v with
  | PNone => false
  | PBool b => b
  | PInt n => negb (n =? 0)
  | PFloat f => match f with S754_zero _ => false | _ => true end
  | PStr s => negb (String.eqb s "")
  | PList l => match l with [] => false | _ => true end
  | PDict d => match d with [] => false | _ => true end
  end.

(** [v == 'text'] for a string literal. *)
Definition eq_str (v : pyval) (text : string) : bool :=
  match v with
  | PStr s => String.eqb s text
  | _ => false
  end.

Fixpoint lookup (k : string) (d : pydict) : option pyval :=
  match d with
  | [] => None
  | (k', v) :: r => if String.eqb k k' then Some v else lookup k r
  end.

(** [isinstance(v, dict)], [isinstance(v, list)] *)
Definition is_dict (v : pyval) : bool :=
  match v with PDict _ => true | _ => false end.
Definition is_list (v : pyval) : bool :=
  match v with PList _ => true | _ => false end.

(** ** Exceptions *)

Inductive exn_class : Type :=
| JSONDecodeError | AttributeError | KeyError | TypeError | IndexError
| OtherError (name : string).

(** Every modelled exception derives from [Exception]; [exn_str] is
    [str(e)]. *)
Record exn : Type := mkExn { exn_cls : exn_class; exn_str : string }.

Definition is_json_decode_error (e : exn) : bool :=
  match exn_cls e with JSONDecodeError => true | _ => false end.

(** ** The Python runtime

    Library behaviour the scanner relies on but does not define. *)
Record Runtime : Type := mkRuntime {
  (** [json.loads]: the value, or the exception the decoder raises, a
      [json.JSONDecodeError] on a text that is no JSON and whatever else
      it may raise (a [ValueError] on an integer literal that is too
      long, a [RecursionError] on a deep nesting). *)
  json_loads : string -> exn + pyval;
  (** [str(v)] of a value that is not a [str]. *)
  py_repr : pyval -> string;
  (** [traceback.format_exc()] while the exception is being handled. *)
  format_exc : exn -> string;
  (** The text the interpreter attaches to an exception of the given class
      raised on the given object for the given attribute or key. *)
  interp_msg : exn_class -> pyval -> string -> string
}.

(** ** Remote calls and the world answering them *)

Inductive Call : Type :=
| HttpPost (url username password : string) (timeout : Z)
| HttpGetCookie (url : string) (ticket : pyval) (timeout : Z)
| HttpGetBearer (url token : string) (timeout : Z)
| SshExec (ip : string) (port : Z) (username password : string)
          (timeout : Z) (command : string)
| Subprocess (argv : list string) (timeout : Z).

(** The world answers a call knowing the calls made before it, so the same
    request may be answered differently at different moments of a run.
    An HTTP answer is the outcome of the request, [raise_for_status()] and
    [resp.json()] together; an SSH answer is the decoded standard output. *)
Record World : Type := mkWorld {
  http_json : list Call -> Call -> exn + pyval;
  ssh_stdout : list Call -> Call -> exn + string;
  subprocess_run : list Call -> Call -> exn + (Z * string);
  gethostname : string
}.

(** ** Records the scan produces *)

Record ScanError : Type := mkScanError {
  err_scan_id : Z;
  err_host_ip : string;
  err_component : string;
  err_message : string;
  err_detail : string
}.

(** The [result] dict of one host (or hub) scan. *)
Record HostResult : Type := mkHostResult {
  host : option pydict;
  vms : list pydict;
  lxcs : list pydict;
  docker : list pydict;
  storage : list pydict;
  network : list pydict
}.

Definition empty_result : HostResult := mkHostResult None [] [] [] [] [].

(** ** The store and the monad *)

Record Store : Type := mkStore {
  errors_list : list ScanError;
  calls : list Call;
  all_results : list HostResult
}.

Inductive outcome (A : Type) : Type :=
| Ok (a : A)
| Raise (e : exn).
Arguments Ok {A} a.
Arguments Raise {A} e.

Definition M (A : Type) : Type := Store -> outcome A * Store.

Definition ret {A} (a : A) : M A := fun s => (Ok a, s).

Definition raise {A} (e : exn) : M A := fun s => (Raise e, s).

Definition bind {A B} (m : M A) (k : A -> M B) : M B :=
  fun s =>
    match m s with
    | (Ok a, s') => k a s'
    | (Raise e, s') => (Raise e, s')
    end.

Declare Scope scan_scope.
Delimit Scope scan_scope with scan.
Notation "x <- m ;; k" := (bind m (fun x => k))
  (at level 61, m at next level, right associativity) : scan_scope.
Notation "m ;;; k" := (bind m (fun _ => k))
  (at level 61, right associativity) : scan_scope.
Local Open Scope scan_scope.

(** [try: m  except Exception as e: h e] *)
Definition try_except {A} (m : M A) (h : exn -> M A) : M A :=
  fun s =>
    match m s with
    | (Ok a, s') => (Ok a, s')
    | (Raise e, s') => h e s'
    end.

(** [try: m  except json.JSONDecodeError: h] *)
Definition try_except_json {A} (m : M A) (h : M A) : M A :=
  fun s =>
    match m s with
    | (Ok a, s') => (Ok a, s')
    | (Raise e, s') =>
        if is_json_decode_error e then h s' else (Raise e, s')
    end.

(** [errors_list.append(e)] *)
Definition append_error (e : ScanError) : M unit :=
  fun s => (Ok tt, mkStore (errors_list s ++ [e]) (calls s) (all_results s)).

(** [all_results.append(r)] *)
Definition append_result (r : HostResult) : M unit :=
  fun s => (Ok tt, mkStore (errors_list s) (calls s) (all_results s ++ [r])).

Definition lift {A} (r : exn + A) : M A :=
  match r with
  | inl e => raise e
  | inr a => ret a
  end.

Definition log_call (c : Call) (s : Store) : Store :=
  mkStore (errors_list s) (calls s ++ [c]) (all_results s).

(** A loop whose body may [return]: the first [Some] ends it. *)
Fixpoint for_first {A B} (body : A -> M (option B)) (l : list A) : M (option B) :=
  match l with
  | [] => ret None
  | x :: r =>
      o <- body x ;;
      match o with
      | Some b => ret (Some b)
      | None => for_first body r
      end
  end.

(** A loop that folds an accumulator through its body. *)
Fixpoint for_fold {A S} (body : S -> A -> M S) (acc : S) (l : list A) : M S :=
  match l with
  | [] => ret acc
  | x :: r => acc' <- body acc x ;; for_fold body acc' r
  end.

(** ** Numbers as dict keys

    [True == 1 == 1.0] in Python, and a dict treats equal keys as one key. *)
Inductive num : Type :=
| NNan
| NInf (neg : bool)
| NDyadic (m e : Z).

Definition num_of (v : pyval) : option num :=
  match v with
  | PBool b => Some (NDyadic (if b then 1 else 0) 0)
  | PInt n => Some (NDyadic n 0)
  | PFloat (S754_zero _) => Some (NDyadic 0 0)
  | PFloat (S754_infinity s) => Some (NInf s)
  | PFloat S754_nan => Some NNan
  | PFloat (S754_finite s m e) =>
      Some (NDyadic (if s then Z.neg m else Z.pos m) e)
  | _ => None
  end.

Definition num_eqb (a b : num) : bool :=
  match a, b with
  | NInf s, NInf t => Bool.eqb s t
  | NDyadic m1 e1, NDyadic m2 e2 =>
      let e := Z.min e1 e2 in
      (m1 * 2 ^ (e1 - e) =? m2 * 2 ^ (e2 - e))
  | _, _ => false
  end.

(** [a is b or a == b], as a dict compares a key it holds with a key it
    is given.  Every NaN that reaches the scanner comes out of the JSON
    decoder, which returns one and the same object for it, so a dict
    finds a NaN key again although [nan == nan] is false. *)
Definition key_eqb (a b : pyval) : bool :=
  match a, b with
  | PNone, PNone => true
  | PStr s, PStr t => String.eqb s t
  | PFloat S754_nan, PFloat S754_nan => true
  | _, _ =>
      match num_of a, num_of b with
      | Some x, Some y => num_eqb x y
      | _, _ => false
      end
  end.

Definition hashable (v : pyval) : bool :=
  match v with PList _ | PDict _ => false | _ => true end.

(** [d[k] = v] on an insertion-ordered dict whose keys are Python values:
    an equal key keeps its place and takes the new value. *)
Fixpoint dict_set {V} (k : pyval) (v : V) (d : list (pyval * V)) : list (pyval * V) :=
  match d with
  | [] => [(k, v)]
  | (k', v') :: r =>
      if key_eqb k' k then (k', v) :: r else (k', v') :: dict_set k v r
  end.

Definition opt_default {A} (d : A) (o : option A) : A :=
  match o with Some a => a | None => d end.

(** ** Configuration, as the ConfigProvider supplies it *)

(** One entry of [config['proxmox_hosts']]. *)
Record HostCfg : Type := mkHostCfg {
  h_ip : string;
  h_port : option Z;
  h_user : string;
  h_password : string
}.

(** [config['ssh_credentials']] *)
Record SshConfig : Type := mkSshConfig {
  ssh_username : string;
  ssh_alt_username : option string;
  ssh_password : string;
  ssh_port : option Z;
  ssh_timeout : option Z
}.

(** One entry of [config['homeassistant']]. *)
Record HaCfg : Type := mkHaCfg {
  ha_ip : string;
  ha_port : option Z;
  ha_token : string;
  ha_protocol : option string
}.

(** [scan_options], with the two keys [main] adds to it. *)
Record ScanOptions : Type := mkScanOptions {
  scan_network : option bool;
  scan_docker : option bool;
  ssh_into_guests : option bool;
  max_old_scans : option Z;
  skip_docker_scan : list string;
  guest_labels : list (string * string)
}.

Record Config : Type := mkConfig {
  proxmox_hosts : list HostCfg;
  ssh_credentials : SshConfig;
  cfg_scan_options : ScanOptions;
  cfg_skip_docker_scan : list string;
  cfg_guest_labels : list (string * string);
  homeassistant : list HaCfg
}.

(** ** Constant command lines *)

Definition docker_check_cmd : string :=
  "which docker 2>/dev/null && docker info --format '{{.ServerVersion}}' 2>/dev/null || echo 'NO_DOCKER'".

(** ["key":"{{.Field}}"] *)
Definition fmt_field (kf : string * string) : string :=
  Str.quoted (fst kf) ++ ":" ++ Str.quoted ("{{." ++ snd kf ++ "}}").

Definition docker_ps_format : string :=
  "{" ++ Str.join ","
    (map fmt_field
       [("id", "ID"); ("name", "Names"); ("image", "Image");
        ("status", "Status"); ("state", "State"); ("ports", "Ports");
        ("created", "CreatedAt"); ("networks", "Networks");
        ("mounts", "Mounts")]) ++ "}".

Definition docker_ps_cmd : string :=
  "docker ps -a --format '" ++ docker_ps_format ++ "' 2>/dev/null".

(** [traceback.format_exc()] when no exception is being handled. *)
Definition no_traceback : string := "NoneType: None" ++ String Str.nl EmptyString.

Section Scanner.

Variable py : Runtime.
Variable world : World.

(** *** Operations of the interpreter on values *)

(** [str(v)], also what an f-string does to [{v}]. *)
Definition py_str (v : pyval) : string :=
  match v with
  | PStr s => s
  | _ => py_repr py v
  end.

Definition interp_exn (c : exn_class) (v : pyval) (name : string) : exn :=
  mkExn c (interp_msg py c v name).

(** [v.get(k, default)] *)
Definition py_get (v : pyval) (k : string) (default : pyval) : exn + pyval :=
  match v with
  | PDict d => inr (opt_default default (lookup k d))
  | _ => inl (interp_exn AttributeError v "get")
  end.

(** [v.get(k, default)] once [v] is known to have answered a [.get]. *)
Definition get_default (v : pyval) (k : string) (default : pyval) : pyval :=
  match v with
  | PDict d => opt_default default (lookup k d)
  | _ => default
  end.

(** [v[k]] for a string key. *)
Definition py_getitem (v : pyval) (k : string) : exn + pyval :=
  match v with
  | PDict d =>
      match lookup k d with
      | Some x => inr x
      | None => inl (interp_exn KeyError v k)
      end
  | _ => inl (interp_exn TypeError v k)
  end.

Definition chars (s : string) : list pyval :=
  map (fun c => PStr (String c EmptyString)) (list_ascii_of_string s).

(** [for x in v] *)
Definition py_iter (v : pyval) : exn + list pyval :=
  match v with
  | PList l => inr l
  | PDict d => inr (map (fun kv => PStr (fst kv)) d)
  | PStr s => inr (chars s)
  | _ => inl (interp_exn TypeError v "__iter__")
  end.

(** [v.items()] *)
Definition py_items (v : pyval) : exn + pydict :=
  match v with
  | PDict d => inr d
  | _ => inl (interp_exn AttributeError v "items")
  end.

(** [v.startswith(p)] *)
Definition py_startswith (v : pyval) (p : string) : exn + bool :=
  match v with
  | PStr s => inr (Str.startswith s p)
  | _ => inl (interp_exn AttributeError v "startswith")
  end.

(** [v.split('/')[0]] *)
Definition py_split_first (v : pyval) (sep : ascii) : exn + string :=
  match v with
  | PStr s => inr (hd EmptyString (Str.split sep s))
  | _ => inl (interp_exn AttributeError v "split")
  end.

(** [needle in v] for a string literal [needle]. *)
Definition py_in (needle : string) (v : pyval) : exn + bool :=
  match v with
  | PStr s => inr (Str.contains needle s)
  | PList l => inr (existsb (fun x => eq_str x needle) l)
  | PDict d => inr (existsb (fun kv => String.eqb (fst kv) needle) d)
  | _ => inl (interp_exn TypeError v "__contains__")
  end.

(** [l[i]] on a list of strings. *)
Definition str_index (l : list string) (i : nat) : exn + string :=
  match nth_error l i with
  | Some s => inr s
  | None => inl (interp_exn IndexError PNone "list index out of range")
  end.

(** *** The wire *)

Definition http_call (c : Call) : M pyval :=
  fun s =>
    match http_json world (calls s) c with
    | inl e => (Raise e, log_call c s)
    | inr v => (Ok v, log_call c s)
    end.

Definition ssh_call (c : Call) : M string :=
  fun s =>
    match ssh_stdout world (calls s) c with
    | inl e => (Raise e, log_call c s)
    | inr v => (Ok v, log_call c s)
    end.

Definition subprocess_call (c : Call) : M (Z * string) :=
  fun s =>
    match subprocess_run world (calls s) c with
    | inl e => (Raise e, log_call c s)
    | inr v => (Ok v, log_call c s)
    end.

(** *** [proxmox_api], [proxmox_authenticate], [ssh_exec] *)

Definition api_url (host_ip : string) (port : Z) (endpoint : string) : string :=
  "https://" ++ host_ip ++ ":" ++ py_str (PInt port) ++ "/api2/json" ++ endpoint.

Definition proxmox_api (host_ip : string) (port : Z) (ticket : pyval)
    (endpoint : string) : M pyval :=
  resp <- http_call (HttpGetCookie (api_url host_ip port endpoint) ticket 15) ;;
  lift (py_get resp "data" (PDict [])).

Definition proxmox_authenticate (host_ip : string) (port : Z)
    (user password : string) : M (pyval * pyval) :=
  resp <- http_call (HttpPost (api_url host_ip port "/access/ticket")
                              user password 15) ;;
  data <- lift (py_getitem resp "data") ;;
  ticket <- lift (py_getitem data "ticket") ;;
  csrf <- lift (py_getitem data "CSRFPreventionToken") ;;
  ret (ticket, csrf).

Definition ssh_exec (ip username password command : string)
    (port timeout : Z) : M string :=
  out <- ssh_call (SshExec ip port username password timeout command) ;;
  ret (Str.strip out).

(** *** [try_ssh_exec] *)

Definition users_to_try (ssh_config : SshConfig) : list string :=
  ssh_username ssh_config ::
  match ssh_alt_username ssh_config with
  | Some alt_user =>
      if negb (String.eqb alt_user "")
         && negb (String.eqb alt_user (ssh_username ssh_config))
      then [alt_user] else []
  | None => []
  end.

(** The [for user in users_to_try] loop: [inl] is the output the loop
    returned, [inr] the [last_error] it ended with. *)
Fixpoint ssh_attempts (ip : string) (ssh_config : SshConfig) (command : string)
    (users : list string) (last_error : option exn) : M (string + option exn) :=
  match users with
  | [] => ret (inr last_error)
  | user :: rest =>
      r <- try_except
             (out <- ssh_exec ip user (ssh_password ssh_config) command
                       (opt_default 22 (ssh_port ssh_config))
                       (opt_default 10 (ssh_timeout ssh_config)) ;;
              ret (inl out))
             (fun e => ret (inr e)) ;;
      match r with
      | inl out => ret (inl out)
      | inr e => ssh_attempts ip ssh_config command rest (Some e)
      end
  end.

(** [str(last_error)] *)
Definition str_last_error (last_error : option exn) : string :=
  match last_error with
  | Some e => exn_str e
  | None => "None"
  end.

Definition ssh_failure (scan_id : Z) (ip component : string)
    (users : list string) (last_error : option exn) : ScanError :=
  mkScanError scan_id ip component
    ("SSH to " ++ ip ++ " failed (tried: " ++ Str.join ", " users ++ "): "
     ++ str_last_error last_error)
    no_traceback.

Definition try_ssh_exec (ip : string) (ssh_config : SshConfig)
    (command : string) (scan_id : Z) (component : string) : M (option string) :=
  r <- ssh_attempts ip ssh_config command (users_to_try ssh_config) None ;;
  match r with
  | inl out => ret (Some out)
  | inr last_error =>
      append_error (ssh_failure scan_id ip component
                      (users_to_try ssh_config) last_error) ;;;
      ret None
  end.

(** *** [get_guest_ip_from_proxmox] *)

(** The inner loop over [iface.get('ip-addresses', [])]. *)
Definition agent_address (addr : pyval) : M (option string) :=
  t <- lift (py_get addr "ip-address-type" PNone) ;;
  if eq_str t "ipv4" then
    a <- lift (py_getitem addr "ip-address") ;;
    loopback <- lift (py_startswith a "127.") ;;
    if negb loopback then ret (Some (py_str a)) else ret None
  else ret None.

Definition agent_iface (iface : pyval) : M (option string) :=
  name <- lift (py_get iface "name" PNone) ;;
  if eq_str name "lo" then ret None
  else
    addrs <- lift (py_get iface "ip-addresses" (PList [])) ;;
    items <- lift (py_iter addrs) ;;
    for_first agent_address items.

(** One comma-separated part of a [netN] value. *)
Definition config_part (p : string) : M (option string) :=
  if Str.startswith (Str.strip p) "ip=" then
    rhs <- lift (str_index (Str.split "="%char (Str.strip p)) 1) ;;
    let ip_val := hd EmptyString (Str.split "/"%char rhs) in
    if negb (String.eqb ip_val "") && negb (String.eqb ip_val "dhcp")
    then ret (Some ip_val) else ret None
  else ret None.

Definition config_entry (kv : string * pyval) : M (option string) :=
  let (key, val) := kv in
  if Str.startswith key "net" && Str.contains "ip=" (py_str val)
  then for_first config_part (Str.split ","%char (py_str val))
  else ret None.

Definition live_iface (iface : pyval) : M (option string) :=
  name <- lift (py_get iface "name" PNone) ;;
  if eq_str name "lo" then ret None
  else
    inet <- lift (py_get iface "inet" (PStr "")) ;;
    if truthy inet then
      loopback <- lift (py_startswith inet "127.") ;;
      if negb loopback
      then first <- lift (py_split_first inet "/"%char) ;; ret (Some first)
      else ret None
    else ret None.

Definition guest_endpoint (node_name : pyval) (kind : string) (vmid : pyval)
    (leaf : string) : string :=
  "/nodes/" ++ py_str node_name ++ "/" ++ kind ++ "/" ++ py_str vmid ++ leaf.

Definition get_guest_ip_from_proxmox (host_ip : string) (port : Z)
    (ticket node_name : pyval) (vmtype : string) (vmid : pyval)
    : M (option string) :=
  try_except
    (if String.eqb vmtype "qemu" then
       data <- proxmox_api host_ip port ticket
                 (guest_endpoint node_name "qemu" vmid
                    "/agent/network-get-interfaces") ;;
       match data with
       | PDict d =>
           match lookup "result" d with
           | Some result =>
               ifaces <- lift (py_iter result) ;;
               for_first agent_iface ifaces
           | None => ret None
           end
       | _ => ret None
       end
     else
       data <- proxmox_api host_ip port ticket
                 (guest_endpoint node_name "lxc" vmid "/config") ;;
       items <- lift (py_items data) ;;
       declared <- for_first config_entry items ;;
       match declared with
       | Some ip_val => ret (Some ip_val)
       | None =>
           try_except
             (ifaces <- proxmox_api host_ip port ticket
                          (guest_endpoint node_name "lxc" vmid "/interfaces") ;;
              match ifaces with
              | PList l => for_first live_iface l
              | _ => ret None
              end)
             (fun _ => ret None)
       end)
    (fun _ => ret None).

(** *** [scan_docker_on_host] *)

(** [not v] for an optional string. *)
Definition falsy (o : option string) : bool :=
  match o with
  | Some s => String.eqb s ""
  | None => true
  end.

(** [o or d] *)
Definition str_or (o : option string) (d : string) : string :=
  match o with
  | Some s => if String.eqb s "" then d else s
  | None => d
  end.

(** [json.loads(line)] *)
Definition loads (line : string) : exn + pyval := json_loads py line.

(** The dict built from one parsed listing line. *)
Definition container_record (ip hostname : string) (c : pyval) : M pydict :=
  cid <- lift (py_get c "id" (PStr "")) ;;
  ret [("host_ip", PStr ip);
       ("host_name", PStr hostname);
       ("container_id", cid);
       ("name", get_default c "name" (PStr ""));
       ("image", get_default c "image" (PStr ""));
       ("status", get_default c "status" (PStr ""));
       ("state", get_default c "state" (PStr ""));
       ("ports", get_default c "ports" (PStr ""));
       ("created_at", get_default c "created" (PStr ""));
       ("networks", get_default c "networks" (PStr ""));
       ("mounts", get_default c "mounts" (PStr ""))].

Definition parse_failure (scan_id : Z) (ip line : string) : ScanError :=
  mkScanError scan_id ip "Docker-Parse"
    ("Failed to parse Docker JSON from " ++ ip) line.

(** The body of [for line in docker_output.strip().split('\n')]. *)
Definition docker_line (ip hostname : string) (scan_id : Z)
    (containers : list pydict) (raw : string) : M (list pydict) :=
  let line := Str.strip raw in
  if String.eqb line "" then ret containers
  else
    try_except_json
      (c <- lift (loads line) ;;
       r <- container_record ip hostname c ;;
       ret (containers ++ [r])%list)
      (append_error (parse_failure scan_id ip line) ;;; ret containers).

Definition scan_docker_on_host (ip : string) (ssh_config : SshConfig)
    (scan_id : Z) : M (list pydict) :=
  docker_check <- try_ssh_exec ip ssh_config docker_check_cmd scan_id "Docker" ;;
  if falsy docker_check
     || Str.contains "NO_DOCKER" (opt_default EmptyString docker_check)
  then ret []
  else
    docker_output <- try_ssh_exec ip ssh_config docker_ps_cmd scan_id "Docker" ;;
    if falsy docker_output then ret []
    else
      h <- try_ssh_exec ip ssh_config "hostname" scan_id "Docker" ;;
      let hostname := str_or h ip in
      for_fold (docker_line ip hostname scan_id) []
        (Str.split Str.nl (Str.strip (opt_default EmptyString docker_output))).

(** *** [scan_homeassistant] *)

Record HaResult : Type := mkHaResult {
  ha_docker : list pydict;
  ha_info : pyval
}.

Definition ha_failure (scan_id : Z) (ip component what : string) (e : exn)
    : ScanError :=
  mkScanError scan_id ip component
    ("HA API " ++ what ++ " failed on " ++ ip ++ ": " ++ exn_str e)
    (format_exc py e).

(** [v.replace(old, '')] *)
Definition py_remove (v : pyval) (old : string) : exn + pyval :=
  match v with
  | PStr s => inr (PStr (Str.replace s old ""))
  | _ => inl (interp_exn AttributeError v "replace")
  end.

(** [[s for s in states if s['entity_id'].startswith('update.')]] *)
Definition ha_is_update (acc : list pyval) (s : pyval) : M (list pyval) :=
  entity_id <- lift (py_getitem s "entity_id") ;;
  keep <- lift (py_startswith entity_id "update.") ;;
  ret (if keep then (acc ++ [s])%list else acc).

(** The body of [for u in updates]. *)
Definition ha_update (ip : string) (ha_name : pyval) (acc : list pydict)
    (u : pyval) : M (list pydict) :=
  attrs <- lift (py_get u "attributes" (PDict [])) ;;
  title <- lift (py_get attrs "title" PNone) ;;
  entity_id <- lift (py_getitem u "entity_id") ;;
  if negb (truthy title) then ret acc
  else
    firmware <- lift (py_in "_firmware" entity_id) ;;
    if firmware then ret acc
    else
      update <- lift (py_in "_update" entity_id) ;;
      if negb update then ret acc
      else
        let installed_ver := get_default attrs "installed_version" (PStr "?") in
        let latest_ver := get_default attrs "latest_version" (PStr "?") in
        state <- lift (py_getitem u "state") ;;
        let has_update := eq_str state "on" in
        let state_str :=
          if eq_str state "unavailable" then "unavailable"
          else if has_update then "update_available" else "running" in
        let status_detail :=
          "v" ++ py_str installed_ver
          ++ (if has_update && truthy latest_ver
              then " -> " ++ py_str latest_ver else "") in
        stem <- lift (py_remove entity_id "update.") ;;
        stem' <- lift (py_remove stem "_update") ;;
        ret (acc ++
             [[("host_ip", PStr ip);
               ("host_name", PStr (py_str ha_name ++ " (HAOS)"));
               ("container_id", entity_id);
               ("name", title);
               ("image", PStr ("ha-addon/" ++ py_str stem'));
               ("status", PStr status_detail);
               ("state", PStr state_str);
               ("ports", PStr "");
               ("created_at", PStr "");
               ("networks", PStr "hassio");
               ("mounts", PStr "")]])%list.

Definition ha_base_url (ha_cfg : HaCfg) : string :=
  opt_default "http" (ha_protocol ha_cfg) ++ "://" ++ ha_ip ha_cfg ++ ":"
  ++ py_str (PInt (opt_default 8123 (ha_port ha_cfg))).

Definition scan_homeassistant (ha_cfg : HaCfg) (scan_id : Z) : M HaResult :=
  let ip := ha_ip ha_cfg in
  let base_url := ha_base_url ha_cfg in
  cfg <- try_except
           (v <- http_call (HttpGetBearer (base_url ++ "/api/config")
                              (ha_token ha_cfg) 15) ;;
            ret (Some v))
           (fun e =>
              append_error (ha_failure scan_id ip "HomeAssistant-API" "config" e) ;;;
              ret None) ;;
  match cfg with
  | None => ret (mkHaResult [] PNone)
  | Some ha_config =>
      st <- try_except
              (v <- http_call (HttpGetBearer (base_url ++ "/api/states")
                                 (ha_token ha_cfg) 30) ;;
               ret (Some v))
              (fun e =>
                 append_error
                   (ha_failure scan_id ip "HomeAssistant-States" "states" e) ;;;
                 ret None) ;;
      match st with
      | None => ret (mkHaResult [] PNone)
      | Some states =>
          ha_name <- lift (py_get ha_config "location_name"
                             (PStr "Home Assistant")) ;;
          entities <- lift (py_iter states) ;;
          updates <- for_fold ha_is_update [] entities ;;
          found <- for_fold (ha_update ip ha_name) [] updates ;;
          ret (mkHaResult found PNone)
      end
  end.
(** *** [scan_proxmox_host] *)

Definition api_failure (scan_id : Z) (ip component what : string) (e : exn)
    : ScanError :=
  mkScanError scan_id ip component (what ++ ip ++ ": " ++ exn_str e)
    (format_exc py e).

(** [1 if v else 0] *)
Definition flag (v : pyval) : pyval := PInt (if truthy v then 1 else 0).

Definition opt_str (o : option string) : pyval :=
  match o with
  | Some s => PStr s
  | None => PNone
  end.

Definition host_record (ip : string) (node_name version_data node : pyval)
    : M pydict :=
  pve_version <- lift (py_get version_data "version" (PStr "unknown")) ;;
  ret [("ip_address", PStr ip);
       ("hostname", node_name);
       ("pve_version", pve_version);
       ("node_name", node_name);
       ("status", get_default node "status" (PStr "unknown"));
       ("uptime_seconds", get_default node "uptime" (PInt 0));
       ("cpu_count", get_default node "maxcpu" (PInt 0));
       ("cpu_usage", get_default node "cpu" (PInt 0));
       ("mem_total", get_default node "maxmem" (PInt 0));
       ("mem_used", get_default node "mem" (PInt 0));
       ("disk_total", get_default node "maxdisk" (PInt 0));
       ("disk_used", get_default node "disk" (PInt 0))].

(** The counters a VM record and a container-guest record share. *)
Definition guest_counters (res : pyval) (guest_ip : option string) : pydict :=
  [("cpu_count", get_default res "maxcpu" (PInt 0));
   ("cpu_usage", get_default res "cpu" (PInt 0));
   ("mem_total", get_default res "maxmem" (PInt 0));
   ("mem_used", get_default res "mem" (PInt 0));
   ("disk_total", get_default res "maxdisk" (PInt 0));
   ("disk_used", get_default res "disk" (PInt 0));
   ("disk_read", get_default res "diskread" (PInt 0));
   ("disk_write", get_default res "diskwrite" (PInt 0));
   ("net_in", get_default res "netin" (PInt 0));
   ("net_out", get_default res "netout" (PInt 0));
   ("uptime_seconds", get_default res "uptime" (PInt 0));
   ("ip_address", opt_str guest_ip)].

Definition vm_record (ip : string) (node_name res : pyval)
    (vm_ip : option string) : pydict :=
  ([("host_ip", PStr ip);
   ("node_name", node_name);
   ("vmid", get_default res "vmid" (PInt 0));
   ("name", get_default res "name" (PStr ""));
   ("status", get_default res "status" (PStr ""));
   ("tags", get_default res "tags" (PStr ""));
   ("is_template", flag (get_default res "template" (PInt 0)))]
  ++ guest_counters res vm_ip)%list.

Definition lxc_record (ip : string) (node_name res : pyval)
    (lxc_ip : option string) : pydict :=
  ([("host_ip", PStr ip);
   ("node_name", node_name);
   ("vmid", get_default res "vmid" (PInt 0));
   ("name", get_default res "name" (PStr ""));
   ("status", get_default res "status" (PStr ""))]
  ++ guest_counters res lxc_ip)%list.

Definition storage_record (ip : string) (node_name res : pyval) : pydict :=
  [("host_ip", PStr ip);
   ("node_name", node_name);
   ("storage_name", get_default res "storage" (PStr ""));
   ("storage_type", get_default res "plugintype" (PStr ""));
   ("content", get_default res "content" (PStr ""));
   ("total_bytes", get_default res "maxdisk" (PInt 0));
   ("used_bytes", get_default res "disk" (PInt 0));
   ("shared", flag (get_default res "shared" (PInt 0)));
   ("status", get_default res "status" (PStr ""))].

(** What the resource loop has built so far; [guest_ips] is the
    [vmid -> ip] dict. *)
Record Resources : Type := mkResources {
  r_vms : list pydict;
  r_lxcs : list pydict;
  r_storage : list pydict;
  guest_ips : list (pyval * string)
}.

(** [if guest_ip and res.get('status') == 'running': guest_ips[vmid] = guest_ip] *)
Definition track_running (res : pyval) (guest_ip : option string)
    (table : list (pyval * string)) : exn + list (pyval * string) :=
  match guest_ip with
  | Some a =>
      if negb (String.eqb a "")
         && eq_str (get_default res "status" PNone) "running"
      then
        let vmid := get_default res "vmid" PNone in
        if hashable vmid then inr (dict_set vmid a table)
        else inl (interp_exn TypeError vmid "__hash__")
      else inr table
  | None => inr table
  end.

(** The body of [for res in resources]. *)
Definition process_resource (ip : string) (port : Z) (ticket node_name : pyval)
    (acc : Resources) (res : pyval) : M Resources :=
  res_type <- lift (py_get res "type" (PStr "")) ;;
  if eq_str res_type "qemu" then
    vm_ip <- get_guest_ip_from_proxmox ip port ticket node_name "qemu"
               (get_default res "vmid" PNone) ;;
    table <- lift (track_running res vm_ip (guest_ips acc)) ;;
    ret (mkResources (r_vms acc ++ [vm_record ip node_name res vm_ip])%list
           (r_lxcs acc) (r_storage acc) table)
  else if eq_str res_type "lxc" then
    lxc_ip <- get_guest_ip_from_proxmox ip port ticket node_name "lxc"
                (get_default res "vmid" PNone) ;;
    table <- lift (track_running res lxc_ip (guest_ips acc)) ;;
    ret (mkResources (r_vms acc)
           (r_lxcs acc ++ [lxc_record ip node_name res lxc_ip])%list
           (r_storage acc) table)
  else if eq_str res_type "storage" then
    ret (mkResources (r_vms acc) (r_lxcs acc)
           (r_storage acc ++ [storage_record ip node_name res])%list
           (guest_ips acc))
  else ret acc.

Definition network_record (ip : string) (node_name iface name : pyval) : pydict :=
  [("host_ip", PStr ip);
   ("host_name", node_name);
   ("interface_name", name);
   ("ip_address",
    get_default iface "address" (get_default iface "cidr" (PStr "")));
   ("type", get_default iface "type" (PStr ""));
   ("active", flag (get_default iface "active" (PInt 0)));
   ("bridge_ports", get_default iface "bridge_ports" (PStr ""))].

(** [for iface in net_data: result['network'].append(...)]: the entries
    appended before an exception stay in [result['network']]. *)
Fixpoint network_loop (ip : string) (node_name : pyval) (acc : list pydict)
    (l : list pyval) : list pydict * option exn :=
  match l with
  | [] => (acc, None)
  | iface :: r =>
      match py_get iface "iface" (PStr "") with
      | inl e => (acc, Some e)
      | inr name =>
          network_loop ip node_name
            (acc ++ [network_record ip node_name iface name])%list r
      end
  end.

(** The network step: the [try] around the fetch and the loop. *)
Definition scan_host_network (ip : string) (port : Z) (ticket node_name : pyval)
    (scan_id : Z) : M (list pydict) :=
  let failed e :=
    append_error (api_failure scan_id ip "Network"
                    "Failed to get network info from " e) in
  fetched <- try_except
               (net_data <- proxmox_api ip port ticket
                              ("/nodes/" ++ py_str node_name ++ "/network") ;;
                ret (inr net_data))
               (fun e => ret (inl e)) ;;
  match fetched with
  | inl e => failed e ;;; ret []
  | inr (PList l) =>
      match network_loop ip node_name [] l with
      | (entries, None) => ret entries
      | (entries, Some e) => failed e ;;; ret entries
      end
  | inr _ => ret []
  end.

(** The body of [for vmid, guest_ip in guest_ips.items()]. *)
Definition scan_guest_docker (ssh_config : SshConfig) (scan_id : Z)
    (skip_ips : list string) (found : list pydict) (entry : pyval * string)
    : M (list pydict) :=
  let guest_ip := snd entry in
  if existsb (String.eqb guest_ip) skip_ips then ret found
  else
    guest_docker <- scan_docker_on_host guest_ip ssh_config scan_id ;;
    ret (found ++ guest_docker)%list.

(** The container step: the host itself, then its running guests. *)
Definition scan_host_docker (ip : string) (ssh_config : SshConfig) (scan_id : Z)
    (scan_options : ScanOptions) (table : list (pyval * string))
    : M (list pydict) :=
  if opt_default true (scan_docker scan_options) then
    docker_containers <- scan_docker_on_host ip ssh_config scan_id ;;
    if opt_default true (ssh_into_guests scan_options) then
      for_fold (scan_guest_docker ssh_config scan_id
                  (skip_docker_scan scan_options))
        docker_containers table
    else ret docker_containers
  else ret [].

(** Everything after a successful authentication and version fetch. *)
Definition scan_authenticated (ip : string) (port : Z) (ticket version_data : pyval)
    (ssh_config : SshConfig) (scan_id : Z) (scan_options : ScanOptions)
    : M HostResult :=
  fetched <- try_except
               (nodes <- proxmox_api ip port ticket "/nodes" ;; ret (Some nodes))
               (fun e =>
                  append_error (api_failure scan_id ip "Proxmox-Nodes"
                                  "Failed to get nodes from " e) ;;;
                  ret None) ;;
  match fetched with
  | None => ret empty_result
  | Some nodes =>
      if negb (truthy nodes) then ret empty_result
      else
        let node := match nodes with
                    | PList l => hd PNone l
                    | _ => nodes
                    end in
        node_name <- lift (py_get node "node" (PStr "unknown")) ;;
        host0 <- host_record ip node_name version_data node ;;
        kernel <- try_ssh_exec ip ssh_config "uname -r" scan_id "Proxmox-SSH" ;;
        let host1 :=
          if falsy kernel then host0
          else (host0 ++ [("kernel_version", opt_str kernel)])%list in
        resources <- try_except
                       (proxmox_api ip port ticket "/cluster/resources")
                       (fun e =>
                          append_error
                            (api_failure scan_id ip "Proxmox-Resources"
                               "Failed to get resources from " e) ;;;
                          ret (PList [])) ;;
        items <- lift (py_iter resources) ;;
        res <- for_fold (process_resource ip port ticket node_name)
                 (mkResources [] [] [] []) items ;;
        net <- (if opt_default true (scan_network scan_options)
                then scan_host_network ip port ticket node_name scan_id
                else ret []) ;;
        dock <- scan_host_docker ip ssh_config scan_id scan_options
                  (guest_ips res) ;;
        ret (mkHostResult (Some host1) (r_vms res) (r_lxcs res) dock
               (r_storage res) net)
  end.

Definition scan_proxmox_host (host_cfg : HostCfg) (ssh_config : SshConfig)
    (scan_id : Z) (scan_options : ScanOptions) : M HostResult :=
  let ip := h_ip host_cfg in
  let port := opt_default 8006 (h_port host_cfg) in
  auth <- try_except
            (tc <- proxmox_authenticate ip port (h_user host_cfg)
                     (h_password host_cfg) ;;
             ret (Some tc))
            (fun e =>
               append_error (api_failure scan_id ip "Proxmox-Auth"
                               "Authentication failed for " e) ;;;
               ret None) ;;
  match auth with
  | None => ret empty_result
  | Some (ticket, _) =>
      version_data <- try_except (proxmox_api ip port ticket "/version")
                        (fun _ => ret (PDict [])) ;;
      scan_authenticated ip port ticket version_data ssh_config scan_id
        scan_options
  end.
(** *** [main] *)

Fixpoint for_each {A} (body : A -> M unit) (l : list A) : M unit :=
  match l with
  | [] => ret tt
  | x :: r => body x ;;; for_each body r
  end.

(** [scan_options] after [main] has copied the skip list and the labels
    into it. *)
Definition effective_options (config : Config) : ScanOptions :=
  let o := cfg_scan_options config in
  mkScanOptions (scan_network o) (scan_docker o) (ssh_into_guests o)
    (max_old_scans o) (cfg_skip_docker_scan config) (cfg_guest_labels config).

(** The body of [for host_cfg in config['proxmox_hosts']]. *)
Definition scan_one_host (config : Config) (scan_id : Z) (host_cfg : HostCfg)
    : M unit :=
  try_except
    (result <- scan_proxmox_host host_cfg (ssh_credentials config) scan_id
                 (effective_options config) ;;
     append_result result)
    (fun e =>
       append_error
         (mkScanError scan_id (h_ip host_cfg) "Proxmox-Scan"
            ("Fatal error scanning " ++ h_ip host_cfg ++ ": " ++ exn_str e)
            (format_exc py e))).

Definition docker_only (found : list pydict) : HostResult :=
  mkHostResult None [] [] found [] [].

(** The body of [for ha_cfg in config.get('homeassistant', [])]. *)
Definition scan_one_hub (scan_id : Z) (ha_cfg : HaCfg) : M unit :=
  try_except
    (ha_result <- scan_homeassistant ha_cfg scan_id ;;
     append_result (docker_only (ha_docker ha_result)))
    (fun e =>
       append_error
         (mkScanError scan_id (ha_ip ha_cfg) "HomeAssistant"
            ("HA scan failed: " ++ exn_str e) (format_exc py e))).

Definition local_ip : string := "192.168.178.89".

(** The body of the loop over the local listing. *)
Definition local_line (hostname raw : string) : M unit :=
  if negb (String.eqb (Str.strip raw) "") then
    try_except_json
      (c <- lift (loads (Str.strip raw)) ;;
       r <- container_record local_ip hostname c ;;
       append_result (docker_only [r]))
      (ret tt)
  else ret tt.

Definition scan_local_docker (scan_id : Z) : M unit :=
  try_except
    (docker_check <- subprocess_call
                       (Subprocess ["docker"; "info"; "--format";
                                    "{{.ServerVersion}}"] 10) ;;
     if fst docker_check =? 0 then
       docker_ps <- subprocess_call
                      (Subprocess ["docker"; "ps"; "-a"; "--format";
                                   docker_ps_format] 10) ;;
       if negb (String.eqb (Str.strip (snd docker_ps)) "") then
         for_each (local_line (gethostname world))
           (Str.split Str.nl (Str.strip (snd docker_ps)))
       else ret tt
     else ret tt)
    (fun e =>
       append_error
         (mkScanError scan_id "127.0.0.1" "Docker-Local"
            ("Local Docker scan failed: " ++ exn_str e) (format_exc py e))).

(** The collection part of [main], between creating the scan run and
    saving to the database. *)
Definition run_scan (config : Config) (scan_id : Z) : M unit :=
  for_each (scan_one_host config scan_id) (proxmox_hosts config) ;;;
  for_each (scan_one_hub scan_id) (homeassistant config) ;;;
  scan_local_docker scan_id.

(** What [main] hands to the database for one run. *)
Record RunSummary : Type := mkRunSummary {
  run_id : Z;
  dataset : list HostResult;
  error_log : list ScanError;
  hosts_scanned : nat;
  vms_found : nat;
  lxc_found : nat;
  docker_found : nat;
  errors_count : nat;
  duration_seconds : Z;
  exit_code : Z
}.

(** The counters of [save_to_database]: one per record inserted. *)
Definition total {A} (f : HostResult -> list A) (rs : list HostResult) : nat :=
  fold_left (fun n r => (n + List.length (f r))%nat) rs 0%nat.

(** [sum(1 for r in all_results if r.get('host'))] *)
Definition count_hosts (rs : list HostResult) : nat :=
  List.length (filter (fun r => match host r with Some _ => true | None => false end) rs).

(** [main], given the run identifier the database issued and the measured
    [int(time.time() - start_time)]. *)
Definition main (config : Config) (scan_id elapsed : Z) : RunSummary :=
  let s := snd (run_scan config scan_id (mkStore [] [] [])) in
  mkRunSummary scan_id (all_results s) (errors_list s)
    (count_hosts (all_results s))
    (total vms (all_results s)) (total lxcs (all_results s))
    (total docker (all_results s))
    (List.length (errors_list s)) elapsed
    (match errors_list s with [] => 0 | _ => 1 end).

End Scanner.

(** ** The database

    The scanner writes through one MySQL connection with autocommit on, so
    every statement handed to [cursor.execute] takes effect at once.  A
    statement is kept as what its text names, together with the
    parameters bound to its [%s] placeholders; the server answers a
    statement knowing the statements it has executed before. *)

Inductive Sql : Type :=
| InsertRun
| InsertInto (table : string) (columns : list string) (placeholders : nat)
| UpdateRun (columns : list string)
| SelectOldRuns
| DeleteRuns (placeholders : nat).

Record Stmt : Type := mkStmt { stmt_sql : Sql; stmt_params : list pyval }.

(** What the cursor holds after a statement: [cursor.lastrowid] and
    [cursor.fetchall()]. *)
Record Reply : Type := mkReply {
  lastrowid : Z;
  fetched : list (list pyval)
}.

Record Database : Type := mkDatabase {
  db_execute : list Stmt -> Stmt -> exn + Reply
}.

(** Programs over the log of executed statements. *)
Definition D (A : Type) : Type := list Stmt -> outcome A * list Stmt.

Definition db_ret {A} (a : A) : D A := fun log => (Ok a, log).

Definition db_raise {A} (e : exn) : D A := fun log => (Raise e, log).

Definition db_bind {A B} (m : D A) (k : A -> D B) : D B :=
  fun log =>
    match m log with
    | (Ok a, log') => k a log'
    | (Raise e, log') => (Raise e, log')
    end.

Declare Scope db_scope.
Delimit Scope db_scope with db.
Notation "x <- m ;; k" := (db_bind m (fun x => k))
  (at level 61, m at next level, right associativity) : db_scope.
Notation "m ;;; k" := (db_bind m (fun _ => k))
  (at level 61, right associativity) : db_scope.

Definition db_lift {A} (r : exn + A) : D A :=
  match r with
  | inl e => db_raise e
  | inr a => db_ret a
  end.

Fixpoint db_for_fold {A S} (body : S -> A -> D S) (acc : S) (l : list A) : D S :=
  match l with
  | [] => db_ret acc
  | x :: r => db_bind (body acc x) (fun acc' => db_for_fold body acc' r)
  end.

Fixpoint db_for_each {A} (body : A -> D unit) (l : list A) : D unit :=
  match l with
  | [] => db_ret tt
  | x :: r => db_bind (body x) (fun _ => db_for_each body r)
  end.

(** One member of a parameter tuple: [d['key']] or [d.get('key', default)]. *)
Inductive Field : Type :=
| Item (key : string)
| Get (key : string) (default : pyval).

(** An [INSERT] of [save_to_database]: the table, the column list of the
    statement text, the number of [%s] in its [VALUES], and the members of
    the tuple that follow [scan_id]. *)
Record Insert : Type := mkInsert {
  ins_table : string;
  ins_columns : list string;
  ins_placeholders : nat;
  ins_fields : list Field
}.

Definition insert_host : Insert :=
  mkInsert "proxmox_hosts"
    ["scan_id"; "ip_address"; "hostname"; "pve_version"; "node_name";
     "status"; "uptime_seconds"; "cpu_count"; "cpu_usage"; "mem_total";
     "mem_used"; "disk_total"; "disk_used"; "kernel_version"]
    14
    [Item "ip_address"; Item "hostname"; Item "pve_version";
     Item "node_name"; Item "status"; Item "uptime_seconds";
     Item "cpu_count"; Item "cpu_usage"; Item "mem_total"; Item "mem_used";
     Item "disk_total"; Item "disk_used"; Get "kernel_version" (PStr "")].

Definition insert_vm : Insert :=
  mkInsert "virtual_machines"
    ["scan_id"; "host_ip"; "node_name"; "vmid"; "name"; "status"; "tags";
     "is_template"; "cpu_count"; "cpu_usage"; "mem_total"; "mem_used";
     "disk_total"; "disk_used"; "disk_read"; "disk_write"; "net_in";
     "net_out"; "uptime_seconds"; "ip_address"]
    20
    [Item "host_ip"; Item "node_name"; Item "vmid"; Item "name";
     Item "status"; Item "tags"; Item "is_template"; Item "cpu_count";
     Item "cpu_usage"; Item "mem_total"; Item "mem_used"; Item "disk_total";
     Item "disk_used"; Item "disk_read"; Item "disk_write"; Item "net_in";
     Item "net_out"; Item "uptime_seconds"; Get "ip_address" PNone].

Definition insert_lxc : Insert :=
  mkInsert "lxc_containers"
    ["scan_id"; "host_ip"; "node_name"; "vmid"; "name"; "status";
     "cpu_count"; "cpu_usage"; "mem_total"; "mem_used"; "disk_total";
     "disk_used"; "disk_read"; "disk_write"; "net_in"; "net_out";
     "uptime_seconds"; "ip_address"]
    18
    [Item "host_ip"; Item "node_name"; Item "vmid"; Item "name";
     Item "status"; Item "cpu_count"; Item "cpu_usage"; Item "mem_total";
     Item "mem_used"; Item "disk_total"; Item "disk_used"; Item "disk_read";
     Item "disk_write"; Item "net_in"; Item "net_out";
     Item "uptime_seconds"; Get "ip_address" PNone].

Definition insert_docker : Insert :=
  mkInsert "docker_containers"
    ["scan_id"; "host_ip"; "host_name"; "container_id"; "name"; "image";
     "status"; "state"; "ports"; "created_at"; "networks"; "mounts"]
    12
    [Item "host_ip"; Item "host_name"; Item "container_id"; Item "name";
     Item "image"; Item "status"; Item "state"; Item "ports";
     Item "created_at"; Item "networks"; Get "mounts" (PStr "")].

Definition insert_storage : Insert :=
  mkInsert "storage_info"
    ["scan_id"; "host_ip"; "node_name"; "storage_name"; "storage_type";
     "content"; "total_bytes"; "used_bytes"; "shared"; "status"]
    10
    [Item "host_ip"; Item "node_name"; Item "storage_name";
     Item "storage_type"; Item "content"; Item "total_bytes";
     Item "used_bytes"; Item "shared"; Item "status"].

Definition insert_network : Insert :=
  mkInsert "network_info"
    ["scan_id"; "host_ip"; "host_name"; "interface_name"; "ip_address";
     "type"; "active"; "bridge_ports"]
    8
    [Item "host_ip"; Item "host_name"; Item "interface_name";
     Item "ip_address"; Item "type"; Item "active";
     Get "bridge_ports" (PStr "")].

(** The [INSERT INTO scan_errors] of one logged error.  An error is a
    record here, so each of its members is present. *)
Definition error_row (err : ScanError) : Stmt :=
  mkStmt
    (InsertInto "scan_errors"
       ["scan_id"; "host_ip"; "component"; "error_message"; "error_detail"] 5)
    [PInt (err_scan_id err); PStr (err_host_ip err);
     PStr (err_component err); PStr (err_message err);
     PStr (err_detail err)].

(** The [UPDATE scan_runs] that closes a run. *)
Definition update_run (hosts_scanned total_vms total_lxcs total_docker
    errors : nat) (duration scan_id : Z) : Stmt :=
  mkStmt
    (UpdateRun ["hosts_scanned"; "vms_found"; "lxc_found"; "docker_found";
                "errors_count"; "duration_seconds"])
    [PInt (Z.of_nat hosts_scanned); PInt (Z.of_nat total_vms);
     PInt (Z.of_nat total_lxcs); PInt (Z.of_nat total_docker);
     PInt (Z.of_nat errors); PInt duration; PInt scan_id].

(** [if r.get('host')], and [if host:] in [save_to_database]. *)
Definition has_host (r : HostResult) : bool :=
  match host r with
  | Some h => truthy (PDict h)
  | None => false
  end.

Section Storage.

Variable py : Runtime.
Variable world : World.
Variable db : Database.

Local Open Scope db_scope.

(** [cursor.execute(sql, params)] *)
Definition execute (st : Stmt) : D Reply :=
  fun log =>
    match db_execute db log st with
    | inl e => (Raise e, (log ++ [st])%list)
    | inr r => (Ok r, (log ++ [st])%list)
    end.

Definition read_field (d : pydict) (f : Field) : exn + pyval :=
  match f with
  | Item k => py_getitem py (PDict d) k
  | Get k default => inr (opt_default default (lookup k d))
  end.

(** The members of a parameter tuple, evaluated left to right. *)
Fixpoint read_fields (d : pydict) (fs : list Field) : exn + list pyval :=
  match fs with
  | [] => inr []
  | f :: r =>
      match read_field d f with
      | inl e => inl e
      | inr v =>
          match read_fields d r with
          | inl e => inl e
          | inr vs => inr (v :: vs)
          end
      end
  end.

(** *** [save_to_database] *)

Definition insert_row (ins : Insert) (scan_id : Z) (d : pydict) : D unit :=
  ps <- db_lift (read_fields d (ins_fields ins)) ;;
  execute (mkStmt (InsertInto (ins_table ins) (ins_columns ins)
                     (ins_placeholders ins))
             (PInt scan_id :: ps)) ;;;
  db_ret tt.

(** The body of a loop that counts what it inserts. *)
Definition insert_counted (ins : Insert) (scan_id : Z) (n : nat) (d : pydict)
    : D nat :=
  insert_row ins scan_id d ;;; db_ret (S n).

(** The body of [for result in all_results]. *)
Definition save_result (scan_id : Z) (totals : nat * nat * nat)
    (result : HostResult) : D (nat * nat * nat) :=
  let '(total_vms, total_lxcs, total_docker) := totals in
  match host result with
  | Some h =>
      if truthy (PDict h) then insert_row insert_host scan_id h
      else db_ret tt
  | None => db_ret tt
  end ;;;
  total_vms <- db_for_fold (insert_counted insert_vm scan_id) total_vms
                 (vms result) ;;
  total_lxcs <- db_for_fold (insert_counted insert_lxc scan_id) total_lxcs
                  (lxcs result) ;;
  total_docker <- db_for_fold (insert_counted insert_docker scan_id)
                    total_docker (docker result) ;;
  db_for_each (insert_row insert_storage scan_id) (storage result) ;;;
  db_for_each (insert_row insert_network scan_id) (network result) ;;;
  db_ret (total_vms, total_lxcs, total_docker).

Definition save_to_database (scan_id : Z) (all_results : list HostResult)
    (errors_list : list ScanError) : D (nat * nat * nat) :=
  totals <- db_for_fold (save_result scan_id) (0, 0, 0)%nat all_results ;;
  db_for_each (fun err => execute (error_row err) ;;; db_ret tt)
    errors_list ;;;
  db_ret totals.

(** *** [cleanup_old_scans] *)

(** [[row[0] for row in cursor.fetchall()]] *)
Fixpoint first_column (rows : list (list pyval)) : exn + list pyval :=
  match rows with
  | [] => inr []
  | row :: r =>
      match row with
      | [] => inl (interp_exn py IndexError (PList [])
                     "tuple index out of range")
      | id :: _ =>
          match first_column r with
          | inl e => inl e
          | inr ids => inr (id :: ids)
          end
      end
  end.

Definition cleanup_old_scans (max_scans : Z) : D unit :=
  reply <- execute (mkStmt SelectOldRuns [PInt max_scans]) ;;
  old_ids <- db_lift (first_column (fetched reply)) ;;
  match old_ids with
  | [] => db_ret tt
  | _ =>
      execute (mkStmt (DeleteRuns (List.length old_ids)) old_ids) ;;;
      db_ret tt
  end.

(** *** [main], with its statements *)

(** The part of [main] after the collection: the rows are saved, the run
    is closed and old runs are removed; the value is the exit code.
    [elapsed] is the measured [int(time.time() - start_time)]. *)
Definition save_and_close (config : Config) (elapsed scan_id : Z) (s : Store)
    : D Z :=
  totals <- save_to_database scan_id (all_results s) (errors_list s) ;;
  let '(total_vms, total_lxcs, total_docker) := totals in
  let hosts_scanned := List.length (filter has_host (all_results s)) in
  execute (update_run hosts_scanned total_vms total_lxcs total_docker
             (List.length (errors_list s)) elapsed scan_id) ;;;
  cleanup_old_scans
    (opt_default 50 (max_old_scans (effective_options config))) ;;;
  db_ret (match errors_list s with [] => 0 | _ => 1 end).

(** The run is created, the collection of [run_scan] happens, and its
    results and errors are saved. *)
Definition main_db (config : Config) (elapsed : Z) : D Z :=
  created <- execute (mkStmt InsertRun []) ;;
  let scan_id := lastrowid created in
  match run_scan py world config scan_id (mkStore [] [] []) with
  | (Raise e, _) => db_raise e
  | (Ok _, s) => save_and_close config elapsed scan_id s
  end.

End Storage.

(** ** Sizes, human-readable: [format_bytes]

    A Python [float] is an IEEE 754 double, here a [spec_float] with 53
    bits of precision.  The comparison of a number with [1024] is exact,
    the division rounds as the double division does, and the text is the
    exact value of the double rounded to one decimal, a tie to the even
    digit. *)

Definition float_1024 : spec_float :=
  S754_finite false 4503599627370496 (-42).

Definition overflow (what : string) : exn :=
  mkExn (OtherError "OverflowError") what.

(** [float(n)] *)
Definition float_of_int (n : Z) : exn + spec_float :=
  match binary_normalize 53 1024 n 0 false with
  | S754_infinity _ => inl (overflow "int too large to convert to float")
  | f => inr f
  end.

(** [n / 1024] between integers: the quotient, rounded once. *)
Definition int_div_1024 (n : Z) : exn + spec_float :=
  match binary_normalize 53 1024 n (-10) false with
  | S754_infinity _ =>
      inl (overflow "integer division result too large for a float")
  | f => inr f
  end.

(** [num / den] rounded to the nearest integer, a tie to the even one;
    [den] is positive. *)
Definition round_half_even (num den : Z) : Z :=
  let q := num / den in
  match 2 * (num mod den) ?= den with
  | Lt => q
  | Eq => if Z.even q then q else q + 1
  | Gt => q + 1
  end.

(** A number of tenths, written with one decimal. *)
Definition one_decimal (tenths : Z) : string :=
  NilZero.string_of_int (Z.to_int (tenths / 10)) ++ "."
  ++ NilZero.string_of_int (Z.to_int (tenths mod 10)).

Definition minus (s : bool) : string := if s then "-" else "".

(** The tenths of [m * 2^e], rounded. *)
Definition tenths (m : positive) (e : Z) : Z :=
  if 0 <=? e then 10 * Z.pos m * 2 ^ e
  else round_half_even (10 * Z.pos m) (2 ^ (- e)).

(** [f"{x:.1f}"] of a float *)
Definition float_1f (f : spec_float) : string :=
  match f with
  | S754_zero s => minus s ++ "0.0"
  | S754_infinity s => minus s ++ "inf"
  | S754_nan => "nan"
  | S754_finite s m e => minus s ++ one_decimal (tenths m e)
  end.

(** [x < 1024] of a float *)
Definition float_lt_1024 (f : spec_float) : bool :=
  match f with
  | S754_zero _ => true
  | S754_infinity s => s
  | S754_nan => false
  | S754_finite true _ _ => true
  | S754_finite false m e =>
      if 0 <=? e then Z.pos m * 2 ^ e <? 1024
      else Z.pos m <? 1024 * 2 ^ (- e)
  end.

Section Sizes.

Variable py : Runtime.

(** [b < 1024] *)
Definition lt_1024 (b : pyval) : exn + bool :=
  match b with
  | PBool _ => inr true
  | PInt n => inr (n <? 1024)
  | PFloat f => inr (float_lt_1024 f)
  | _ => inl (interp_exn py TypeError b "<")
  end.

(** [f"{b:.1f}"] *)
Definition format_1f (b : pyval) : exn + string :=
  match b with
  | PBool t => inr (if t then "1.0" else "0.0")
  | PInt n =>
      match float_of_int n with
      | inl e => inl e
      | inr f => inr (float_1f f)
      end
  | PFloat f => inr (float_1f f)
  | _ => inl (interp_exn py TypeError b "__format__")
  end.

(** [b /= 1024] *)
Definition div_1024 (b : pyval) : exn + pyval :=
  match b with
  | PBool t =>
      match int_div_1024 (if t then 1 else 0) with
      | inl e => inl e
      | inr f => inr (PFloat f)
      end
  | PInt n =>
      match int_div_1024 n with
      | inl e => inl e
      | inr f => inr (PFloat f)
      end
  | PFloat f => inr (PFloat (SFdiv 53 1024 f float_1024))
  | _ => inl (interp_exn py TypeError b "/=")
  end.

(** [for unit in units: ...], then the [return] after the loop. *)
Fixpoint format_loop (units : list string) (b : pyval) : exn + string :=
  match units with
  | [] =>
      match format_1f b with
      | inl e => inl e
      | inr text => inr (text ++ " PB")
      end
  | unit :: rest =>
      match lt_1024 b with
      | inl e => inl e
      | inr true =>
          match format_1f b with
          | inl e => inl e
          | inr text => inr (text ++ " " ++ unit)
          end
      | inr false =>
          match div_1024 b with
          | inl e => inl e
          | inr b' => format_loop rest b'
          end
      end
  end.

Definition format_bytes (b : pyval) : exn + string :=
  format_loop ["B"; "KB"; "MB"; "GB"; "TB"] b.

End Sizes.

(** ** A concrete runtime and concrete worlds for the examples

    The general results below hold for every [Runtime] and every [World].
    The examples run the scanner on explicit answers, for which they need
    an explicit decoder; this one agrees with [json.loads] on texts built
    from objects, arrays, integers, the three literals and strings without
    escapes, as long as the nesting stays below the interpreter's
    recursion limit: an integer literal of more than 4300 digits is the
    decoder's [ValueError], and every other text is reported as
    malformed. *)

Module Json.

Local Open Scope char_scope.

Definition is_ws (c : ascii) : bool :=
  Ascii.eqb c " " || Ascii.eqb c (ascii_of_nat 9)
  || Ascii.eqb c (ascii_of_nat 10) || Ascii.eqb c (ascii_of_nat 13).

Fixpoint skip_ws (s : list ascii) : list ascii :=
  match s with
  | c :: t => if is_ws c then skip_ws t else s
  | [] => []
  end.

Definition digit (c : ascii) : option Z :=
  let n := nat_of_ascii c in
  if Nat.leb 48 n && Nat.leb n 57 then Some (Z.of_nat (n - 48)) else None.

(** The digits at the head of [s]: their value, how many, and the rest. *)
Fixpoint digits (s : list ascii) (acc : Z) (n : nat) : Z * nat * list ascii :=
  match s with
  | c :: t =>
      match digit c with
      | Some d => digits t (10 * acc + d) (S n)
      | None => (acc, n, s)
      end
  | [] => (acc, n, [])
  end.

(** What the decoder makes of a text: a value, a [JSONDecodeError], or
    the [ValueError] of an integer literal of more than 4300 digits. *)
Inductive parsed (A : Type) : Type :=
| Parsed (a : A)
| Malformed
| TooLong (length : nat).

Arguments Parsed {A} a.
Arguments Malformed {A}.
Arguments TooLong {A} length.

Definition and_then {A B} (p : parsed A) (k : A -> parsed B) : parsed B :=
  match p with
  | Parsed a => k a
  | Malformed => Malformed
  | TooLong n => TooLong n
  end.

(** An integer literal: no leading zero, no fraction, no exponent, and
    at most 4300 digits. *)
Definition integer (s : list ascii) : parsed (Z * list ascii) :=
  match s with
  | [] => Malformed
  | c :: t =>
      let '(v, n, rest) := digits s 0 0%nat in
      if Nat.eqb n 0 then Malformed
      else if Ascii.eqb c "0" && negb (Nat.eqb n 1) then Malformed
      else match rest with
           | "." :: _ | "e" :: _ | "E" :: _ => Malformed
           | _ => if Nat.ltb 4300 n then TooLong n else Parsed (v, rest)
           end
  end.

(** The characters up to the closing quote; escapes and control
    characters are outside the fragment. *)
Fixpoint string_body (s : list ascii) : option (string * list ascii) :=
  match s with
  | [] => None
  | c :: t =>
      if Ascii.eqb c Str.dq then Some (EmptyString, t)
      else if Ascii.eqb c "\" || Nat.ltb (nat_of_ascii c) 32 then None
      else match string_body t with
           | Some (r, rest) => Some (String c r, rest)
           | None => None
           end
  end.

(** A repeated key keeps its first place and takes the last value. *)
Fixpoint set_item (k : string) (v : pyval) (d : pydict) : pydict :=
  match d with
  | [] => [(k, v)]
  | (k', v') :: r =>
      if String.eqb k' k then (k', v) :: r else (k', v') :: set_item k v r
  end.

Fixpoint value (fuel : nat) (s : list ascii) : parsed (pyval * list ascii) :=
  match fuel with
  | O => Malformed
  | S f =>
      match skip_ws s with
      | "{" :: t =>
          match skip_ws t with
          | "}" :: t' => Parsed (PDict [], t')
          | _ => members f t []
          end
      | "[" :: t =>
          match skip_ws t with
          | "]" :: t' => Parsed (PList [], t')
          | _ => elements f t []
          end
      | "n" :: "u" :: "l" :: "l" :: t => Parsed (PNone, t)
      | "t" :: "r" :: "u" :: "e" :: t => Parsed (PBool true, t)
      | "f" :: "a" :: "l" :: "s" :: "e" :: t => Parsed (PBool false, t)
      | "-" :: t =>
          and_then (integer t) (fun '(v, rest) => Parsed (PInt (- v), rest))
      | c :: t =>
          if Ascii.eqb c Str.dq then
            match string_body t with
            | Some (str, rest) => Parsed (PStr str, rest)
            | None => Malformed
            end
          else
            and_then (integer (c :: t))
              (fun '(v, rest) => Parsed (PInt v, rest))
      | [] => Malformed
      end
  end
with members (fuel : nat) (s : list ascii) (acc : pydict)
    : parsed (pyval * list ascii) :=
  match fuel with
  | O => Malformed
  | S f =>
      match skip_ws s with
      | c :: t =>
          if Ascii.eqb c Str.dq then
            match string_body t with
            | Some (k, t1) =>
                match skip_ws t1 with
                | ":" :: t2 =>
                    match value f t2 with
                    | Parsed (v, t3) =>
                        match skip_ws t3 with
                        | "," :: t4 => members f t4 (set_item k v acc)
                        | "}" :: t4 => Parsed (PDict (set_item k v acc), t4)
                        | _ => Malformed
                        end
                    | Malformed => Malformed
                    | TooLong n => TooLong n
                    end
                | _ => Malformed
                end
            | None => Malformed
            end
          else Malformed
      | [] => Malformed
      end
  end
with elements (fuel : nat) (s : list ascii) (acc : list pyval)
    : parsed (pyval * list ascii) :=
  match fuel with
  | O => Malformed
  | S f =>
      match value f s with
      | Parsed (v, t) =>
          match skip_ws t with
          | "," :: t' => elements f t' (acc ++ [v])
          | "]" :: t' => Parsed (PList (acc ++ [v]), t')
          | _ => Malformed
          end
      | Malformed => Malformed
      | TooLong n => TooLong n
      end
  end.

Definition decode (text : string) : parsed pyval :=
  let s := list_ascii_of_string text in
  match value (2 * List.length s + 2) s with
  | Parsed (v, rest) =>
      match skip_ws rest with
      | [] => Parsed v
      | _ => Malformed
      end
  | Malformed => Malformed
  | TooLong n => TooLong n
  end.

End Json.

Module Demo.

(** [type(v).__name__] *)
Definition type_name (v : pyval) : string :=
  match v with
  | PNone => "NoneType"
  | PBool _ => "bool"
  | PInt _ => "int"
  | PFloat _ => "float"
  | PStr _ => "str"
  | PList _ => "list"
  | PDict _ => "dict"
  end.

(** [repr] of [None], the booleans and the integers; the examples never
    print another value, which is rendered as its type name. *)
Definition repr (v : pyval) : string :=
  match v with
  | PNone => "None"
  | PBool true => "True"
  | PBool false => "False"
  | PInt n => DecimalString.NilZero.string_of_int (Z.to_int n)
  | _ => "<" ++ type_name v ++ ">"
  end.

Definition message (c : exn_class) (v : pyval) (name : string) : string :=
  match c with
  | AttributeError =>
      "'" ++ type_name v ++ "' object has no attribute '" ++ name ++ "'"
  | KeyError => "'" ++ name ++ "'"
  | TypeError => "'" ++ type_name v ++ "' object does not support " ++ name
  | IndexError => name
  | JSONDecodeError => "Expecting value: line 1 column 1 (char 0)"
  | OtherError n => n
  end.

Definition class_name (c : exn_class) : string :=
  match c with
  | JSONDecodeError => "json.decoder.JSONDecodeError"
  | AttributeError => "AttributeError"
  | KeyError => "KeyError"
  | TypeError => "TypeError"
  | IndexError => "IndexError"
  | OtherError n => n
  end.

(** [json.loads] on the texts of the fragment. *)
Definition json_text (text : string) : exn + pyval :=
  match Json.decode text with
  | Json.Parsed v => inr v
  | Json.Malformed =>
      inl (mkExn JSONDecodeError (message JSONDecodeError (PStr text) ""))
  | Json.TooLong n =>
      inl (mkExn (OtherError "ValueError")
             ("Exceeds the limit (4300 digits) for integer string conversion: "
              ++ "value has "
              ++ DecimalString.NilZero.string_of_uint (Nat.to_uint n)
              ++ " digits; use sys.set_int_max_str_digits() to increase "
              ++ "the limit"))
  end.

Definition py : Runtime :=
  mkRuntime json_text repr
    (fun e => "Traceback (most recent call last): "
              ++ class_name (exn_cls e) ++ ": " ++ exn_str e)
    message.

Definition unreachable : exn :=
  mkExn (OtherError "ConnectionError") "connection refused".

Definition rejected : exn :=
  mkExn (OtherError "AuthenticationException") "Authentication failed.".

Definition call_url (c : Call) : string :=
  match c with
  | HttpPost url _ _ _ => url
  | HttpGetCookie url _ _ => url
  | HttpGetBearer url _ _ => url
  | _ => EmptyString
  end.

Fixpoint assoc {A} (k : string) (l : list (string * A)) : option A :=
  match l with
  | [] => None
  | (k', a) :: r => if String.eqb k k' then Some a else assoc k r
  end.

(** The key under which a world lists an SSH answer. *)
Definition ssh_key (ip user command : string) : string :=
  user ++ "@" ++ ip ++ ": " ++ command.

(** A world that answers by table lookup, whatever happened before: HTTP
    by URL, SSH by user, address and command; what is not listed is
    unreachable, and there is no local container engine. *)
Definition table_world (http : list (string * (exn + pyval)))
    (ssh : list (string * (exn + string))) : World :=
  mkWorld
    (fun _ c => opt_default (inl unreachable) (assoc (call_url c) http))
    (fun _ c =>
       match c with
       | SshExec ip _ user _ _ command =>
           opt_default (inl unreachable) (assoc (ssh_key ip user command) ssh)
       | _ => inl unreachable
       end)
    (fun _ _ => inl (mkExn (OtherError "FileNotFoundError")
                       "[Errno 2] No such file or directory: 'docker'"))
    "scanner".

Definition data (v : pyval) : exn + pyval := inr (PDict [("data", v)]).

Definition ssh_config : SshConfig :=
  mkSshConfig "root" (Some "admin") "secret" None None.

Definition init : Store := mkStore [] [] [].

(** *** A small estate: one host, one stopped VM, two running containers *)

Definition host : HostCfg := mkHostCfg "10.0.0.1" None "root@pam" "secret".

Definition url (endpoint : string) : string :=
  api_url py "10.0.0.1" 8006 endpoint.

Definition ticket_answer : exn + pyval :=
  data (PDict [("ticket", PStr "PVE:root@pam:ticket");
               ("CSRFPreventionToken", PStr "csrf")]).

Definition version_answer : exn + pyval :=
  data (PDict [("version", PStr "8.1.4")]).

Definition node : pyval :=
  PDict [("node", PStr "pve"); ("status", PStr "online");
         ("uptime", PInt 86400); ("maxcpu", PInt 8);
         ("maxmem", PInt 34359738368); ("mem", PInt 8589934592)].

Definition resources : pyval :=
  PList
    [PDict [("type", PStr "qemu"); ("vmid", PInt 100);
            ("name", PStr "builder"); ("status", PStr "stopped")];
     PDict [("type", PStr "lxc"); ("vmid", PInt 101);
            ("name", PStr "web"); ("status", PStr "running")];
     PDict [("type", PStr "lxc"); ("vmid", PInt 102);
            ("name", PStr "vault"); ("status", PStr "running")];
     PDict [("type", PStr "storage"); ("storage", PStr "local");
            ("plugintype", PStr "dir"); ("shared", PInt 0)]].

Definition agent_answer : exn + pyval :=
  data (PDict
          [("result",
            PList
              [PDict [("name", PStr "lo");
                      ("ip-addresses",
                       PList [PDict [("ip-address-type", PStr "ipv4");
                                     ("ip-address", PStr "127.0.0.1")]])];
               PDict [("name", PStr "ens18");
                      ("ip-addresses",
                       PList [PDict [("ip-address-type", PStr "ipv6");
                                     ("ip-address", PStr "fe80::1")];
                              PDict [("ip-address-type", PStr "ipv4");
                                     ("ip-address", PStr "10.0.0.4")]])]])]).

Definition static_config : pydict :=
  [("hostname", PStr "web");
   ("net0", PStr "name=eth0,bridge=vmbr0,ip=10.0.0.5/24,gw=10.0.0.1")].

Definition dhcp_config : pydict :=
  [("hostname", PStr "vault"); ("net0", PStr "name=eth0,bridge=vmbr0,ip=dhcp")].

Definition live_interfaces : list pyval :=
  [PDict [("name", PStr "lo"); ("inet", PStr "127.0.0.1/8")];
   PDict [("name", PStr "eth0"); ("inet", PStr "10.0.0.6/24")]].

Definition estate_http : list (string * (exn + pyval)) :=
  [(url "/access/ticket", ticket_answer);
   (url "/version", version_answer);
   (url "/nodes", data (PList [node]));
   (url "/cluster/resources", data resources);
   (url "/nodes/pve/qemu/100/agent/network-get-interfaces", agent_answer);
   (url "/nodes/pve/lxc/101/config", data (PDict static_config));
   (url "/nodes/pve/lxc/102/config", data (PDict dhcp_config));
   (url "/nodes/pve/lxc/102/interfaces", data (PList live_interfaces));
   (url "/nodes/pve/network",
    data (PList [PDict [("iface", PStr "vmbr0"); ("address", PStr "10.0.0.1");
                        ("type", PStr "bridge"); ("active", PInt 1)]]))].

Definition line_end : string := String Str.nl EmptyString.

Definition estate_ssh : list (string * (exn + string)) :=
  [(ssh_key "10.0.0.1" "root" "uname -r", inr ("6.8.12-4-pve" ++ line_end));
   (ssh_key "10.0.0.1" "root" docker_check_cmd, inr ("NO_DOCKER" ++ line_end));
   (ssh_key "10.0.0.5" "root" docker_check_cmd, inr ("NO_DOCKER" ++ line_end))].

Definition estate : World := table_world estate_http estate_ssh.

(** The host answers nothing at all. *)
Definition world_down : World := table_world [] [].

(** The host authenticates, then its topology fetch fails. *)
Definition world_nodes_down : World :=
  table_world [(url "/access/ticket", ticket_answer);
               (url "/version", version_answer)] [].

(** The host authenticates and reports no nodes. *)
Definition world_no_nodes : World :=
  table_world [(url "/access/ticket", ticket_answer);
               (url "/version", version_answer);
               (url "/nodes", data (PList []))] [].

(** Guest scanning as configured by default, with one address skipped. *)
Definition options : ScanOptions :=
  mkScanOptions None None None None ["10.0.0.6"] [("10.0.0.6", "no SSH")].


(** *** A machine with a container engine *)

Definition json_object (fields : list (string * string)) : string :=
  "{" ++ Str.join ","
    (map (fun kv => Str.quoted (fst kv) ++ ":" ++ Str.quoted (snd kv)) fields)
  ++ "}".

Definition line_a1 : string :=
  json_object [("id", "a1"); ("name", "web"); ("image", "nginx:1.25");
               ("state", "running")].

Definition line_b2 : string :=
  json_object [("id", "b2"); ("name", "db"); ("image", "postgres:16");
               ("state", "exited")].

Definition engine_world (listing : string) : World :=
  table_world []
    [(ssh_key "10.0.0.9" "root" docker_check_cmd,
      inr ("/usr/bin/docker" ++ line_end ++ "24.0.7" ++ line_end));
     (ssh_key "10.0.0.9" "root" docker_ps_cmd, inr listing);
     (ssh_key "10.0.0.9" "root" "hostname", inr ("box" ++ line_end))].

(** The listing of the description: two objects around a line that is not
    JSON. *)
Definition listing_mixed : string :=
  line_a1 ++ line_end ++ "not-json" ++ line_end ++ line_b2 ++ line_end.

(** A listing with a line that is JSON but not an object. *)
Definition listing_number : string :=
  line_a1 ++ line_end ++ "123" ++ line_end ++ line_b2 ++ line_end.

(** A listing with a line that is an integer of 4301 digits. *)
Definition long_number : string :=
  string_of_list_ascii (List.repeat "1"%char 4301).

Definition listing_long_number : string :=
  line_a1 ++ line_end ++ long_number ++ line_end ++ line_b2 ++ line_end.

Definition too_long : exn :=
  Eval vm_compute in
    match json_text long_number with
    | inl e => e
    | inr _ => mkExn (OtherError "ValueError") ""
    end.

(** Only the alternate user may log in. *)
Definition world_alt_only : World :=
  table_world []
    [(ssh_key "10.0.0.9" "admin" "uname -r",
      inr ("  6.8.12-4-pve " ++ line_end))].

(** Primary and alternate user are the same account. *)
Definition ssh_same_user : SshConfig :=
  mkSshConfig "root" (Some "root") "secret" None None.

(** *** A hub *)

Definition hub : HaCfg := mkHaCfg "10.0.0.20" None "token" None.

Definition entity (id state : string) (attributes : pydict) : pyval :=
  PDict [("entity_id", PStr id); ("state", PStr state);
         ("attributes", PDict attributes)].

Definition hub_states : list pyval :=
  [entity "sensor.outdoor_temperature" "21.5" [];
   entity "update.device_firmware" "on"
     [("title", PStr "Device"); ("installed_version", PStr "3.0");
      ("latest_version", PStr "3.1")];
   entity "update.addon_foo_update" "on"
     [("title", PStr "Foo"); ("installed_version", PStr "1.0");
      ("latest_version", PStr "1.1")];
   entity "update.home_assistant_core_update" "off"
     [("title", PStr "Home Assistant Core");
      ("installed_version", PStr "2024.6.1");
      ("latest_version", PStr "2024.6.1")]].

(** An entity that is [on] and reports an empty latest version. *)
Definition hub_states_no_latest : list pyval :=
  [entity "update.addon_bar_update" "on"
     [("title", PStr "Bar"); ("installed_version", PStr "1.0");
      ("latest_version", PStr "")]].

Definition hub_world (states : list pyval) : World :=
  table_world
    [("http://10.0.0.20:8123/api/config",
      inr (PDict [("location_name", PStr "Home")]));
     ("http://10.0.0.20:8123/api/states", inr (PList states))]
    [].

(** The hypervisor answers a configuration request with a list. *)
Definition world_garbled : World :=
  table_world [(url "/nodes/pve/lxc/101/config", inr (PList []))] [].

Definition ticket : pyval := PStr "PVE:root@pam:ticket".

(** What the scan of the estate returns and leaves in the store, with
    guest scanning on and with SSH into guests switched off. *)
Definition estate_run : outcome HostResult * Store :=
  Eval vm_compute in scan_proxmox_host py estate host ssh_config 7 options init.

Definition estate_result : HostResult :=
  Eval vm_compute in
    match fst estate_run with Ok r => r | Raise _ => empty_result end.



(** What the examples look at in a workload record. *)
Definition summary (d : pydict) : option pyval * option pyval * option pyval :=
  (lookup "container_id" d, lookup "state" d, lookup "status" d).

(** The estate again, with a container engine on the host itself whose
    listing holds the line [123]. *)
Definition estate_with_engine : World :=
  table_world estate_http
    [(ssh_key "10.0.0.1" "root" "uname -r", inr ("6.8.12-4-pve" ++ line_end));
     (ssh_key "10.0.0.1" "root" docker_check_cmd, inr ("24.0.7" ++ line_end));
     (ssh_key "10.0.0.1" "root" docker_ps_cmd, inr listing_number);
     (ssh_key "10.0.0.1" "root" "hostname", inr ("pve" ++ line_end))].

Definition estate_config : Config :=
  mkConfig [host] ssh_config (mkScanOptions None None None None [] [])
    ["10.0.0.6"] [("10.0.0.6", "no SSH")] [].

(** *** A database server

    The server keeps the identifiers of [scan_runs], newest first.  It
    numbers a new run one above the newest, answers the clean-up's
    [SELECT] with the identifiers beyond the offset, and forgets the
    identifiers a [DELETE] names.  It accepts every statement: an offset
    that is no count selects from the start. *)

Definition mentions (ps : list pyval) (id : Z) : bool :=
  existsb (fun p => key_eqb p (PInt id)) ps.

Fixpoint scan_runs (runs : list Z) (log : list Stmt) : list Z :=
  match log with
  | [] => runs
  | st :: rest =>
      scan_runs
        match stmt_sql st with
        | InsertRun => (1 + hd 0 runs) :: runs
        | DeleteRuns _ =>
            filter (fun id => negb (mentions (stmt_params st) id)) runs
        | _ => runs
        end
        rest
  end.

Definition server (runs : list Z) : Database :=
  mkDatabase
    (fun log st =>
       let now := scan_runs runs log in
       match stmt_sql st with
       | InsertRun => inr (mkReply (1 + hd 0 now) [])
       | SelectOldRuns =>
           let offset := match stmt_params st with
                         | PInt n :: _ => Z.to_nat n
                         | _ => 0%nat
                         end in
           inr (mkReply 0 (map (fun id => [PInt id]) (skipn offset now)))
       | _ => inr (mkReply 0 [])
       end).

Definition lost : exn :=
  mkExn (OtherError "OperationalError")
    "2013 (HY000): Lost connection to MySQL server during query".

(** A server that fails every statement. *)
Definition server_down : Database := mkDatabase (fun _ _ => inl lost).

(** A configuration that keeps the two newest runs. *)
Definition estate_config_keep_two : Config :=
  mkConfig [host] ssh_config
    (mkScanOptions None None None (Some 2) [] [])
    ["10.0.0.6"] [("10.0.0.6", "no SSH")] [].

(** A run over the estate against a server that holds three runs. *)
Definition estate_main : outcome Z * list Stmt :=
  Eval vm_compute in
    main_db py estate (server [3; 2; 1]) estate_config_keep_two 12 [].

(** *** Worlds in which one thing is missing or malformed *)

(** The host hands out a ticket without a token. *)
Definition ticket_only : pydict := [("ticket", PStr "PVE:root@pam:ticket")].

Definition world_no_token : World :=
  table_world [(url "/access/ticket", data (PDict ticket_only))] [].

(** The estate without one of its endpoints. *)
Definition estate_without (endpoint : string) : World :=
  table_world
    (filter (fun kv => negb (String.eqb (fst kv) (url endpoint))) estate_http)
    estate_ssh.

(** The host scan after authentication when the resource listing fails. *)
Definition no_resources_run : outcome HostResult * Store :=
  Eval vm_compute in
    scan_authenticated py (estate_without "/cluster/resources") "10.0.0.1"
      8006 ticket (PDict [("version", PStr "8.1.4")]) ssh_config 7 options
      init.

Definition no_resources_result : HostResult :=
  Eval vm_compute in
    match fst no_resources_run with Ok r => r | Raise _ => empty_result end.

(** A network listing whose second entry is a string. *)
Definition bridge : pyval :=
  PDict [("iface", PStr "vmbr0"); ("address", PStr "10.0.0.1");
         ("type", PStr "bridge"); ("active", PInt 1)].

Definition uplink : pyval :=
  PDict [("iface", PStr "eno1"); ("type", PStr "eth"); ("active", PInt 1)].

Definition world_network_garbled : World :=
  table_world
    [(url "/nodes/pve/network", data (PList [bridge; PStr "eno1"; uplink]))]
    [].

(** The resources of the estate and a cluster node, as a list, and what
    the resource loop makes of them. *)
Definition resource_list : list pyval :=
  PDict [("type", PStr "node"); ("node", PStr "pve")]
  :: match resources with PList l => l | _ => [] end.

Definition sorted_resources : Resources :=
  Eval vm_compute in
    match fst (for_fold (process_resource py estate "10.0.0.1" 8006 ticket
                           (PStr "pve"))
                 (mkResources [] [] [] []) resource_list init) with
    | Ok r => r
    | Raise _ => mkResources [] [] [] []
    end.

(** What the guest agent of the estate's virtual machine answered. *)
Definition agent_data : pydict :=
  Eval vm_compute in
    match agent_answer with
    | inr (PDict [(_, PDict d)]) => d
    | _ => []
    end.

Definition agent_interfaces : list pyval :=
  Eval vm_compute in
    match lookup "result" agent_data with
    | Some (PList l) => l
    | _ => []
    end.

(** A hub that answers the configuration request only. *)
Definition hub_config : pydict := [("location_name", PStr "Home")].

Definition hub_world_no_states : World :=
  table_world [("http://10.0.0.20:8123/api/config", inr (PDict hub_config))]
    [].

(** States with an entry that has no [entity_id]. *)
Definition nameless : pyval := PDict [("state", PStr "on")].

Definition hub_states_before : list pyval :=
  [entity "update.device_firmware" "on"
     [("title", PStr "Device"); ("installed_version", PStr "3.0");
      ("latest_version", PStr "3.1")]].

Definition hub_states_after : list pyval :=
  [entity "update.addon_foo_update" "on"
     [("title", PStr "Foo"); ("installed_version", PStr "1.0");
      ("latest_version", PStr "1.1")]].

(** *** The scanner's own machine with a container engine *)

Definition no_engine : exn :=
  mkExn (OtherError "FileNotFoundError")
    "[Errno 2] No such file or directory: 'docker'".

(** The engine answers [docker info] with the given exit code and
    [docker ps] with the given listing; nothing else can be reached. *)
Definition local_world (code : Z) (listing : string) : World :=
  mkWorld
    (fun _ _ => inl unreachable)
    (fun _ _ => inl unreachable)
    (fun _ c =>
       match c with
       | Subprocess (_ :: command :: _) _ =>
           if String.eqb command "info"
           then inr (code, "24.0.7" ++ line_end)
           else inr (0, listing)
       | _ => inl no_engine
       end)
    "scanner".

(** *** A cluster of two nodes

    The estate again, seen through the first of two nodes; the guest and
    the storage it lists run on the second. *)

Definition other_node : pyval :=
  PDict [("node", PStr "pve2"); ("status", PStr "online")].

Definition cluster_resources : pyval :=
  PList
    [PDict [("type", PStr "qemu"); ("vmid", PInt 200); ("node", PStr "pve2");
            ("name", PStr "mail"); ("status", PStr "stopped")];
     PDict [("type", PStr "storage"); ("storage", PStr "tank");
            ("node", PStr "pve2"); ("plugintype", PStr "zfspool")]].

Definition cluster : World :=
  table_world
    ((url "/nodes", data (PList [node; other_node]))
     :: (url "/cluster/resources", data cluster_resources)
     :: estate_http)
    estate_ssh.

Definition cluster_run : outcome HostResult * Store :=
  Eval vm_compute in
    scan_authenticated py cluster "10.0.0.1" 8006 ticket
      (PDict [("version", PStr "8.1.4")]) ssh_config 7 options init.

Definition cluster_result : HostResult :=
  Eval vm_compute in
    match fst cluster_run with Ok r => r | Raise _ => empty_result end.

Definition cluster_host : pydict :=
  Eval vm_compute in
    match cluster_result with
    | mkHostResult (Some h) _ _ _ _ _ => h
    | _ => []
    end.

(** *** Answers with an entry that cannot be read

    The guest agent lists a string before its interfaces, and so does
    the live-interfaces endpoint of a container guest on DHCP. *)
Definition world_junk_entries : World :=
  table_world
    [(url "/nodes/pve/qemu/100/agent/network-get-interfaces",
      data (PDict [("result", PList (PStr "junk" :: agent_interfaces))]));
     (url "/nodes/pve/lxc/102/config", data (PDict dhcp_config));
     (url "/nodes/pve/lxc/102/interfaces",
      data (PList (PStr "junk" :: live_interfaces)))]
    [].

(** *** Estates on which running guests and inventories part ways *)














End Demo.

(** ** Vocabulary of the statements *)

(** The store after further remote calls, and after a further error. *)
Definition add_calls (s : Store) (cs : list Call) : Store :=
  mkStore (errors_list s) (calls s ++ cs)%list (all_results s).

Definition add_error (s : Store) (e : ScanError) : Store :=
  mkStore (errors_list s ++ [e])%list (calls s) (all_results s).

Definition add_result (s : Store) (r : HostResult) : Store :=
  mkStore (errors_list s) (calls s) (all_results s ++ [r])%list.

(** The SSH request [try_ssh_exec] sends for one candidate user. *)
Definition ssh_request (ip : string) (ssh_config : SshConfig)
    (command user : string) : Call :=
  SshExec ip (opt_default 22 (ssh_port ssh_config)) user
    (ssh_password ssh_config) (opt_default 10 (ssh_timeout ssh_config)) command.

(** [m] only adds to the store: remote calls that satisfy [P], errors
    that satisfy [Q] and results that satisfy [R]. *)
Definition adds {A} (P : Call -> Prop) (Q : ScanError -> Prop)
    (R : HostResult -> Prop) (m : M A) : Prop :=
  forall s, exists cs es rs,
    snd (m s) = mkStore (errors_list s ++ es)%list (calls s ++ cs)%list
                  (all_results s ++ rs)%list
    /\ Forall P cs /\ Forall Q es /\ Forall R rs.

Definition never {A} (a : A) : Prop := False.

(** The address an SSH request goes to. *)
Definition ssh_target (c : Call) : option string :=
  match c with
  | SshExec ip _ _ _ _ _ => Some ip
  | _ => None
  end.

Definition is_http (c : Call) : Prop :=
  match c with
  | HttpPost _ _ _ _ | HttpGetCookie _ _ _ | HttpGetBearer _ _ _ => True
  | _ => False
  end.

(** An error without the identifier of its run. *)
Definition unlabelled (e : ScanError) : string * string * string * string :=
  (err_host_ip e, err_component e, err_message e, err_detail e).

(** Two stores that differ in the run identifiers of their errors only. *)
Definition same_but_ids (s1 s2 : Store) : Prop :=
  calls s1 = calls s2 /\ all_results s1 = all_results s2
  /\ map unlabelled (errors_list s1) = map unlabelled (errors_list s2).

(** Two programs that, from such stores, end alike in such stores. *)
Definition alike {A} (m1 m2 : M A) : Prop :=
  forall s1 s2, same_but_ids s1 s2 ->
    fst (m1 s1) = fst (m2 s2) /\ same_but_ids (snd (m1 s1)) (snd (m2 s2)).

(** An error the container inventory of [ip] records. *)
Definition docker_error (ip : string) (scan_id : Z) (e : ScanError) : Prop :=
  err_host_ip e = ip /\ err_scan_id e = scan_id
  /\ (err_component e = "Docker" \/ err_component e = "Docker-Parse").

(** The first request the resolver sends for a guest. *)
Definition guest_first_request (py : Runtime) (host_ip : string) (port : Z)
    (ticket node_name : pyval) (vmtype : string) (vmid : pyval) : Call :=
  HttpGetCookie
    (api_url py host_ip port
       (if String.eqb vmtype "qemu"
        then guest_endpoint py node_name "qemu" vmid
               "/agent/network-get-interfaces"
        else guest_endpoint py node_name "lxc" vmid "/config"))
    ticket 15.

(** The authentication request for a configured host. *)
Definition auth_request (py : Runtime) (host_cfg : HostCfg) : Call :=
  HttpPost
    (api_url py (h_ip host_cfg) (opt_default 8006 (h_port host_cfg))
       "/access/ticket")
    (h_user host_cfg) (h_password host_cfg) 15.

(** The error a failed authentication leaves in the log. *)
Definition auth_error (py : Runtime) (scan_id : Z) (host_cfg : HostCfg)
    (e : exn) : ScanError :=
  mkScanError scan_id (h_ip host_cfg) "Proxmox-Auth"
    ("Authentication failed for " ++ h_ip host_cfg ++ ": " ++ exn_str e)
    (format_exc py e).

(** *** The container path of the address resolver, in the words of its
    description

    The declared network configuration is scanned entry by entry, and an
    entry part by part; the first usable value wins. *)

Fixpoint take_until (stop : ascii -> bool) (s : string) : string :=
  match s with
  | EmptyString => EmptyString
  | String c t => if stop c then EmptyString else String c (take_until stop t)
  end.

Fixpoint drop (n : nat) (s : string) : string :=
  match n, s with
  | S k, String _ t => drop k t
  | _, _ => s
  end.

Fixpoint first_some {A B} (f : A -> option B) (l : list A) : option B :=
  match l with
  | [] => None
  | x :: r => match f x with Some b => Some b | None => first_some f r end
  end.

(** The value of an [ip=] assignment, without its CIDR suffix: the text
    after [ip=] up to the first [/] (a further [=] ends it as well). *)
Definition spec_ip_value (part : string) : option string :=
  let p := Str.strip part in
  if Str.startswith p "ip="
  then Some (take_until (fun c => Ascii.eqb c "/" || Ascii.eqb c "=")
               (drop 3 p))
  else None.

(** Non-empty and not [dhcp]. *)
Definition spec_usable (v : string) : bool :=
  negb (String.eqb v "") && negb (String.eqb v "dhcp").

(** The [ip=] values one [netN] entry declares, in order. *)
Definition spec_entry_values (py : Runtime) (kv : string * pyval) : list string :=
  if Str.startswith (fst kv) "net" && Str.contains "ip=" (py_str py (snd kv))
  then flat_map (fun part => match spec_ip_value part with
                             | Some v => [v]
                             | None => []
                             end)
         (Str.split ","%char (py_str py (snd kv)))
  else [].

Definition spec_declared_address (py : Runtime) (cfg : pydict) : option string :=
  find spec_usable (flat_map (spec_entry_values py) cfg).

(** The address a live interface reports, if it is not the loopback. *)
Definition spec_live_value (iface : pyval) : option string :=
  if eq_str (get_default iface "name" PNone) "lo" then None
  else match get_default iface "inet" (PStr "") with
       | PStr a =>
           if negb (String.eqb a "") && negb (Str.startswith a "127.")
           then Some (take_until (fun c => Ascii.eqb c "/") a)
           else None
       | _ => None
       end.

Definition spec_live_address (ifaces : list pyval) : option string :=
  first_some spec_live_value ifaces.

(** A live interface entry as the API documents it: an object whose
    [inet], when present and not empty, is a string. *)
Definition iface_ok (iface : pyval) : bool :=
  is_dict iface &&
  match get_default iface "inet" (PStr "") with
  | PStr _ => true
  | v => negb (truthy v)
  end.

(** *** The hub's update inventory, in the words of its description *)

(** A state entity as the hub's API documents it: an object with a string
    [entity_id], a [state], and [attributes] that are an object when
    present. *)
Definition entity_ok (u : pyval) : bool :=
  match u with
  | PDict d =>
      match lookup "entity_id" d with Some (PStr _) => true | _ => false end
      && match lookup "state" d with Some _ => true | None => false end
      && is_dict (opt_default (PDict []) (lookup "attributes" d))
  | _ => false
  end.

Definition entity_id_of (u : pyval) : string :=
  match get_default u "entity_id" PNone with
  | PStr s => s
  | _ => EmptyString
  end.

Definition attribute_of (u : pyval) (k : string) (default : pyval) : pyval :=
  get_default (get_default u "attributes" (PDict [])) k default.

(** An update entity with a non-empty title whose identifier has no
    firmware marker and has an update suffix. *)
Definition spec_hub_selected (u : pyval) : bool :=
  Str.startswith (entity_id_of u) "update."
  && truthy (attribute_of u "title" PNone)
  && negb (Str.contains "_firmware" (entity_id_of u))
  && Str.contains "_update" (entity_id_of u).

Definition spec_hub_state (u : pyval) : string :=
  if eq_str (get_default u "state" PNone) "unavailable" then "unavailable"
  else if eq_str (get_default u "state" PNone) "on" then "update_available"
  else "running".

(** The latest version is shown when the entity is [on] and reports a
    non-empty latest version. *)
Definition spec_shows_latest (u : pyval) : bool :=
  eq_str (get_default u "state" PNone) "on"
  && truthy (attribute_of u "latest_version" (PStr "?")).

Definition spec_hub_status (py : Runtime) (u : pyval) : string :=
  "v" ++ py_str py (attribute_of u "installed_version" (PStr "?"))
  ++ (if spec_shows_latest u
      then " -> " ++ py_str py (attribute_of u "latest_version" (PStr "?"))
      else "").

Definition spec_hub_workload (py : Runtime) (ip : string) (ha_name : pyval)
    (u : pyval) : pydict :=
  [("host_ip", PStr ip);
   ("host_name", PStr (py_str py ha_name ++ " (HAOS)"));
   ("container_id", PStr (entity_id_of u));
   ("name", attribute_of u "title" PNone);
   ("image",
    PStr ("ha-addon/"
          ++ Str.replace (Str.replace (entity_id_of u) "update." "")
               "_update" ""));
   ("status", PStr (spec_hub_status py u));
   ("state", PStr (spec_hub_state u));
   ("ports", PStr "");
   ("created_at", PStr "");
   ("networks", PStr "hassio");
   ("mounts", PStr "")].

(** The two requests [scan_homeassistant] sends to a hub. *)
Definition hub_config_request (py : Runtime) (ha_cfg : HaCfg) : Call :=
  HttpGetBearer (ha_base_url py ha_cfg ++ "/api/config") (ha_token ha_cfg) 15.

Definition hub_states_request (py : Runtime) (ha_cfg : HaCfg) : Call :=
  HttpGetBearer (ha_base_url py ha_cfg ++ "/api/states") (ha_token ha_cfg) 30.

(** [m], when it returns, has added the calls [cs] and the errors [es] for
    which [Post] holds of them and of the value returned; it leaves the
    result list alone. *)
Definition returns {A} (m : M A)
    (Post : A -> list Call -> list ScanError -> Prop) : Prop :=
  forall s a s',
    m s = (Ok a, s') ->
    exists cs es,
      s' = mkStore (errors_list s ++ es)%list (calls s ++ cs)%list
             (all_results s)
      /\ Post a cs es.

(** *** Which guests get a container inventory *)


(** Some guest record is running and carries the non-empty address [a]. *)
Definition running_at (guests : list pydict) (a : string) : Prop :=
  exists g,
    In g guests /\ lookup "status" g = Some (PStr "running")
    /\ lookup "ip_address" g = Some (PStr a) /\ a <> EmptyString.

(** The numeric identifier on a guest record. *)
Definition guest_id (g : pydict) : option Z :=
  match lookup "vmid" g with
  | Some (PInt n) => Some n
  | _ => None
  end.

(** Every guest record carries a numeric identifier of its own. *)
Definition distinct_ids (guests : list pydict) : Prop :=
  (forall g, In g guests -> guest_id g <> None)
  /\ NoDup (map guest_id guests).


(** The key under which a guest record is tracked: its identifier, or
    [None] when the resource carried none and the record says [0]. *)
Definition key_of (k : pyval) (g : pydict) : Prop :=
  exists n, guest_id g = Some n /\ (k = PInt n \/ (k = PNone /\ n = 0)).

(** The [vmid -> ip] table against the guest records built so far. *)
Definition table_ok (guests : list pydict) (table : list (pyval * string))
    : Prop :=
  (forall k a, In (k, a) table -> running_at guests a)
  /\ (distinct_ids guests ->
      (forall k a, In (k, a) table -> exists g, In g guests /\ key_of k g)
      /\ (forall a, running_at guests a -> exists k, In (k, a) table)).

(** The guest records among what the resource loop has built. *)
Definition guests_of (res : Resources) : list pydict :=
  (r_vms res ++ r_lxcs res)%list.

(** *** The container listing, line by line *)

Definition add_errors (s : Store) (es : list ScanError) : Store :=
  mkStore (errors_list s ++ es)%list (calls s) (all_results s).

(** The record of a listing line that decoded to the object [c]. *)
Definition spec_container (ip hostname : string) (c : pyval) : pydict :=
  [("host_ip", PStr ip);
   ("host_name", PStr hostname);
   ("container_id", get_default c "id" (PStr ""));
   ("name", get_default c "name" (PStr ""));
   ("image", get_default c "image" (PStr ""));
   ("status", get_default c "status" (PStr ""));
   ("state", get_default c "state" (PStr ""));
   ("ports", get_default c "ports" (PStr ""));
   ("created_at", get_default c "created" (PStr ""));
   ("networks", get_default c "networks" (PStr ""));
   ("mounts", get_default c "mounts" (PStr ""))].

(** A line that is blank, or on which [json.loads] raises a
    [JSONDecodeError], or that decodes to an object. *)
Definition line_ok (py : Runtime) (raw : string) : bool :=
  String.eqb (Str.strip raw) ""
  || match json_loads py (Str.strip raw) with
     | inr c => is_dict c
     | inl e => is_json_decode_error e
     end.

(** What a line that is not blank makes the body of the loop raise past
    its [except json.JSONDecodeError]: the exception of [json.loads]
    unless it is a [JSONDecodeError], or the [AttributeError] of [c.get]
    on a value that is no object. *)
Definition line_failure (py : Runtime) (raw : string) : option exn :=
  match json_loads py (Str.strip raw) with
  | inr c =>
      if is_dict c then None else Some (interp_exn py AttributeError c "get")
  | inl e => if is_json_decode_error e then None else Some e
  end.

Definition spec_line_records (py : Runtime) (ip hostname raw : string)
    : list pydict :=
  if String.eqb (Str.strip raw) "" then []
  else match json_loads py (Str.strip raw) with
       | inr c => [spec_container ip hostname c]
       | inl _ => []
       end.

Definition spec_line_errors (py : Runtime) (scan_id : Z) (ip raw : string)
    : list ScanError :=
  if String.eqb (Str.strip raw) "" then []
  else match json_loads py (Str.strip raw) with
       | inr _ => []
       | inl _ => [parse_failure scan_id ip (Str.strip raw)]
       end.

(** *** The rows of a run, in the words of the tables *)

(** A record that has every member its [INSERT] reads with [d['key']]. *)
Definition complete (ins : Insert) (d : pydict) : bool :=
  forallb (fun f => match f with
                    | Item k => match lookup k d with
                                | Some _ => true
                                | None => false
                                end
                    | Get _ _ => true
                    end)
    (ins_fields ins).

Definition result_complete (r : HostResult) : bool :=
  match host r with
  | Some h => complete insert_host h
  | None => true
  end
  && forallb (complete insert_vm) (vms r)
  && forallb (complete insert_lxc) (lxcs r)
  && forallb (complete insert_docker) (docker r)
  && forallb (complete insert_storage) (storage r)
  && forallb (complete insert_network) (network r).

(** What a column is bound to when the record has no member of its name:
    an absent guest address is [NULL], an absent text is empty. *)
Definition column_default (column : string) : pyval :=
  if String.eqb column "ip_address" then PNone else PStr "".

(** The row of a record: the run identifier, then for every further
    column of the table the record's member of the same name. *)
Definition spec_row (ins : Insert) (scan_id : Z) (d : pydict) : Stmt :=
  mkStmt
    (InsertInto (ins_table ins) (ins_columns ins)
       (List.length (ins_columns ins)))
    (PInt scan_id
     :: map (fun c => opt_default (column_default c) (lookup c d))
          (tl (ins_columns ins))).

(** The rows of one result, table by table. *)
Definition spec_result_rows (scan_id : Z) (r : HostResult) : list Stmt :=
  (match host r with
   | Some h => [spec_row insert_host scan_id h]
   | None => []
   end
   ++ map (spec_row insert_vm scan_id) (vms r)
   ++ map (spec_row insert_lxc scan_id) (lxcs r)
   ++ map (spec_row insert_docker scan_id) (docker r)
   ++ map (spec_row insert_storage scan_id) (storage r)
   ++ map (spec_row insert_network scan_id) (network r))%list.

(** A server that accepts every statement. *)
Definition accepting (db : Database) : Prop :=
  forall log st, exists r, db_execute db log st = inr r.



(** A statement with as many parameters as its text has placeholders. *)
Definition well_bound (st : Stmt) : Prop :=
  match stmt_sql st with
  | InsertRun => stmt_params st = []
  | InsertInto _ columns placeholders =>
      placeholders = List.length columns
      /\ List.length (stmt_params st) = placeholders
  | UpdateRun columns =>
      List.length (stmt_params st) = S (List.length columns)
  | SelectOldRuns => List.length (stmt_params st) = 1%nat
  | DeleteRuns placeholders =>
      List.length (stmt_params st) = placeholders /\ placeholders <> 0%nat
  end.

(** [m] only appends statements that satisfy [P]. *)
Definition db_adds {A} (P : Stmt -> Prop) (m : D A) : Prop :=
  forall log, exists sts, snd (m log) = (log ++ sts)%list /\ Forall P sts.

(** [m], when it returns [a], has appended statements [sts] with
    [Post a sts]. *)
Definition db_returns {A} (m : D A) (Post : A -> list Stmt -> Prop) : Prop :=
  forall log a log',
    m log = (Ok a, log') -> exists sts, log' = (log ++ sts)%list /\ Post a sts.

(** [m], when it returns, returns a value for which [V] holds. *)
Definition gives {A} (m : M A) (V : A -> Prop) : Prop :=
  forall s a s', m s = (Ok a, s') -> V a.

(** The components the scanner files its errors under. *)
Definition components : list string :=
  ["Docker"; "Docker-Parse"; "HomeAssistant-API"; "HomeAssistant-States";
   "Proxmox-Auth"; "Proxmox-Nodes"; "Proxmox-SSH"; "Proxmox-Resources";
   "Network"; "Proxmox-Scan"; "HomeAssistant"; "Docker-Local"].

(** The records the resource loop has built so far. *)
Definition resources_complete (res : Resources) : Prop :=
  forallb (complete insert_vm) (r_vms res) = true
  /\ forallb (complete insert_lxc) (r_lxcs res) = true
  /\ forallb (complete insert_storage) (r_storage res) = true.

(** The components a host scan and a hub scan file their errors under. *)
Definition host_components : list string :=
  ["Proxmox-Auth"; "Proxmox-Nodes"; "Proxmox-SSH"; "Proxmox-Resources";
   "Network"; "Docker"; "Docker-Parse"].

Definition hub_components : list string :=
  ["HomeAssistant-API"; "HomeAssistant-States"].

(** An error filed under the run [scan_id] and one of [names]. *)
Definition filed (names : list string) (scan_id : Z) (e : ScanError) : Prop :=
  err_scan_id e = scan_id /\ In (err_component e) names.

(** An error as [run_scan] files it: under the identifier of the run and
    one of the twelve component names. *)
Definition run_error (scan_id : Z) (e : ScanError) : Prop :=
  filed components scan_id e.

(** An error filed under [name]. *)
Definition is_component (name : string) (e : ScanError) : bool :=
  String.eqb (err_component e) name.

Definition field_key (f : Field) : string :=
  match f with
  | Item k => k
  | Get k _ => k
  end.

(** An [INSERT] whose tuple follows its column list: as many placeholders
    as columns, after [scan_id] each member is read under the name of its
    column, and a [.get] falls back to what the column defaults to. *)
Definition by_name (ins : Insert) : Prop :=
  ins_placeholders ins = List.length (ins_columns ins)
  /\ ins_columns ins = ("scan_id" :: map field_key (ins_fields ins))%list
  /\ Forall (fun f => match f with
                      | Item _ => True
                      | Get k default => default = column_default k
                      end)
       (ins_fields ins).

(** The statement [insert_row] hands to the server, if the record has the
    members the tuple reads. *)
Definition row_stmts (py : Runtime) (ins : Insert) (scan_id : Z) (d : pydict)
    : list Stmt :=
  match read_fields py d (ins_fields ins) with
  | inr ps =>
      [mkStmt (InsertInto (ins_table ins) (ins_columns ins)
                 (ins_placeholders ins))
         (PInt scan_id :: ps)]
  | inl _ => []
  end.




(** A statement of [cleanup_old_scans]. *)
Definition cleanup_stmt (st : Stmt) : Prop :=
  stmt_sql st = SelectOldRuns \/ exists n, stmt_sql st = DeleteRuns n.

(** An exception [m] raises is the one the server raised on the last
    statement [m] handed to it. *)
Definition raises_from {A} (db : Database) (m : D A) : Prop :=
  forall log e log',
    m log = (Raise e, log') ->
    exists pre st, log' = (pre ++ [st])%list /\ db_execute db pre st = inl e.

(** Every fetched row has a first column. *)
Definition rows_have_id (db : Database) : Prop :=
  forall log st r, db_execute db log st = inr r -> ~ In [] (fetched r).



(** A state entry with a text [entity_id]. *)
Definition has_entity_id (u : pyval) : bool :=
  match u with
  | PDict d =>
      match lookup "entity_id" d with
      | Some (PStr _) => true
      | _ => false
      end
  | _ => false
  end.

(** The error [main] files for a hub whose scan raised. *)
Definition hub_error (py : Runtime) (scan_id : Z) (ha_cfg : HaCfg) (e : exn)
    : ScanError :=
  mkScanError scan_id (ha_ip ha_cfg) "HomeAssistant"
    ("HA scan failed: " ++ exn_str e) (format_exc py e).

(** A resource of the given type: [res.get('type', '') == kind]. *)
Definition of_type (kind : string) (res : pyval) : bool :=
  eq_str (get_default res "type" (PStr "")) kind.

(** The store after further results. *)
Definition add_results (s : Store) (rs : list HostResult) : Store :=
  mkStore (errors_list s) (calls s) (all_results s ++ rs)%list.

(** The two commands of the local container scan. *)
Definition local_info : Call :=
  Subprocess ["docker"; "info"; "--format"; "{{.ServerVersion}}"] 10.

Definition local_listing : Call :=
  Subprocess ["docker"; "ps"; "-a"; "--format"; docker_ps_format] 10.

(** The error [main] files when the local container scan raises. *)
Definition local_error (py : Runtime) (scan_id : Z) (e : exn) : ScanError :=
  mkScanError scan_id "127.0.0.1" "Docker-Local"
    ("Local Docker scan failed: " ++ exn_str e) (format_exc py e).

(** *** The guest-agent path of the address resolver, in the words of its
    description *)

(** The address an entry of [ip-addresses] reports, if it is an IPv4
    address outside [127.]. *)
Definition spec_agent_value (addr : pyval) : option string :=
  if eq_str (get_default addr "ip-address-type" PNone) "ipv4"
  then match get_default addr "ip-address" PNone with
       | PStr a => if Str.startswith a "127." then None else Some a
       | _ => None
       end
  else None.

(** The first such address of an interface that is not [lo]. *)
Definition spec_agent_iface (iface : pyval) : option string :=
  if eq_str (get_default iface "name" PNone) "lo" then None
  else match get_default iface "ip-addresses" (PList []) with
       | PList addrs => first_some spec_agent_value addrs
       | _ => None
       end.

Definition spec_agent_address (ifaces : list pyval) : option string :=
  first_some spec_agent_iface ifaces.

(** An address entry as the guest agent reports it: an object whose
    [ip-address] is a string when its type is [ipv4]. *)
Definition agent_addr_ok (addr : pyval) : bool :=
  is_dict addr
  && (negb (eq_str (get_default addr "ip-address-type" PNone) "ipv4")
      || match get_default addr "ip-address" PNone with
         | PStr _ => true
         | _ => false
         end).

(** An interface entry as the guest agent reports it: an object that is
    [lo], or whose [ip-addresses], when present, is a list of such
    entries. *)
Definition agent_iface_ok (iface : pyval) : bool :=
  is_dict iface
  && (eq_str (get_default iface "name" PNone) "lo"
      || match get_default iface "ip-addresses" (PList []) with
         | PList addrs => forallb agent_addr_ok addrs
         | _ => false
         end).

(** *** The node a host scan works with *)

(** [nodes[0] if isinstance(nodes, list) else nodes] *)
Definition first_node (nodes : pyval) : pyval :=
  match nodes with
  | PList l => hd PNone l
  | _ => nodes
  end.

(** The record [g] holds [n] under [key]. *)
Definition names (key : string) (n : pyval) (g : pydict) : Prop :=
  lookup key g = Some n.

(** Every guest and storage record built so far names the host address
    [ip] and the node [n]. *)
Definition resources_name (ip : string) (n : pyval) (acc : Resources) : Prop :=
  Forall (fun g => names "host_ip" (PStr ip) g /\ names "node_name" n g)
    (r_vms acc ++ r_lxcs acc ++ r_storage acc).

(** *** Sizes *)

Definition loop_units : list string := ["B"; "KB"; "MB"; "GB"; "TB"].

Definition unit_names : list string := ["B"; "KB"; "MB"; "GB"; "TB"; "PB"].

(** [n / 1024^k] with one decimal, followed by the [k]-th unit. *)
Definition spec_size (n : Z) (k : nat) : string :=
  one_decimal (round_half_even (10 * n) (1024 ^ Z.of_nat k)) ++ " "
  ++ nth k unit_names "".

(** The double [f] holds [n / 2^t] exactly, as [n * 2^j] with 53 digits
    under the exponent [-(j + t)]. *)
Definition scaled (n t : Z) (f : spec_float) : Prop :=
  exists m j,
    f = S754_finite false m (- (j + t))
    /\ Z.pos m = n * 2 ^ j /\ 0 <= j <= 52
    /\ Z.pos (digits2_pos m) = 53.

(** *** What the address resolver meets

    While it looks for an address the resolver reads an answer entry by
    entry.  An entry gives it an address, or nothing, or makes the code
    raise; the first entry that gives an address or raises ends the
    search, and only an address found is returned. *)

Inductive event : Type :=
| Found (a : string)
| Nothing
| Broken.

Fixpoint first_event {A} (f : A -> event) (l : list A) : event :=
  match l with
  | [] => Nothing
  | x :: r =>
      match f x with
      | Nothing => first_event f r
      | ev => ev
      end
  end.

(** The address returned: none after any failure. *)
Definition address_of (ev : event) : option string :=
  match ev with
  | Found a => Some a
  | _ => None
  end.

(** A step of the search that ends as the event says, without touching
    the store. *)
Definition ends_as (r : outcome (option string) * Store) (ev : event)
    (s : Store) : Prop :=
  match ev with
  | Found a => r = (Ok (Some a), s)
  | Nothing => r = (Ok None, s)
  | Broken => exists e, r = (Raise e, s)
  end.

(** The [data] of an answer, as [proxmox_api] reads it: an answer that is
    no object cannot be read. *)
Definition answer_data (answer : exn + pyval) : option pyval :=
  match answer with
  | inr (PDict r) => Some (opt_default (PDict []) (lookup "data" r))
  | _ => None
  end.

(** An entry of [ip-addresses]: an IPv4 address outside [127.] is found;
    an entry that is no object, or an IPv4 entry without a text
    [ip-address], cannot be read. *)
Definition agent_entry_event (addr : pyval) : event :=
  match addr with
  | PDict d =>
      if eq_str (opt_default PNone (lookup "ip-address-type" d)) "ipv4" then
        match lookup "ip-address" d with
        | Some (PStr a) => if Str.startswith a "127." then Nothing else Found a
        | _ => Broken
        end
      else Nothing
  | _ => Broken
  end.

(** An interface of the guest agent: [lo] is passed over before its
    addresses are looked at. *)
Definition agent_iface_event (py : Runtime) (iface : pyval) : event :=
  match iface with
  | PDict d =>
      if eq_str (opt_default PNone (lookup "name" d)) "lo" then Nothing
      else match py_iter py (opt_default (PList []) (lookup "ip-addresses" d)) with
           | inr addrs => first_event agent_entry_event addrs
           | inl _ => Broken
           end
  | _ => Broken
  end.

(** The answer of the guest agent. *)
Definition agent_event (py : Runtime) (answer : exn + pyval) : event :=
  match answer_data answer with
  | Some (PDict d) =>
      match lookup "result" d with
      | Some result =>
          match py_iter py result with
          | inr ifaces => first_event (agent_iface_event py) ifaces
          | inl _ => Broken
          end
      | None => Nothing
      end
  | Some _ => Nothing
  | None => Broken
  end.

(** The declared configuration of a container guest. *)
Definition declared_event (py : Runtime) (answer : exn + pyval) : event :=
  match answer_data answer with
  | Some (PDict cfg) =>
      match spec_declared_address py cfg with
      | Some a => Found a
      | None => Nothing
      end
  | _ => Broken
  end.

(** A live interface: [lo] is passed over; an [inet] that is a text
    gives its address unless it is empty or starts with [127.]; any
    other [inet] that counts as true cannot be read. *)
Definition live_iface_event (iface : pyval) : event :=
  match iface with
  | PDict d =>
      if eq_str (opt_default PNone (lookup "name" d)) "lo" then Nothing
      else match opt_default (PStr "") (lookup "inet" d) with
           | PStr a =>
               if negb (String.eqb a "") && negb (Str.startswith a "127.")
               then Found (take_until (fun c => Ascii.eqb c "/") a)
               else Nothing
           | v => if truthy v then Broken else Nothing
           end
  | _ => Broken
  end.

(** The answer of the live-interfaces endpoint. *)
Definition live_event (answer : exn + pyval) : event :=
  match answer_data answer with
  | Some (PList l) => first_event live_iface_event l
  | Some _ => Nothing
  | None => Broken
  end.

(** The two requests of the container path. *)
Definition guest_config_request (py : Runtime) (host_ip : string) (port : Z)
    (ticket node_name vmid : pyval) : Call :=
  HttpGetCookie
    (api_url py host_ip port (guest_endpoint py node_name "lxc" vmid "/config"))
    ticket 15.

Definition guest_live_request (py : Runtime) (host_ip : string) (port : Z)
    (ticket node_name vmid : pyval) : Call :=
  HttpGetCookie
    (api_url py host_ip port
       (guest_endpoint py node_name "lxc" vmid "/interfaces"))
    ticket 15.

(** *** Inventories, counted

    An inventory of the machine at [a] opens with the presence check
    that the primary user sends to [a]; no other request of the scanner
    carries that command. *)



(** How often [a] stands in a list of addresses. *)
Definition occurrences (a : string) (l : list string) : nat :=
  List.length (filter (String.eqb a) l).



Definition unskipped (skip : list string) (a : string) : bool :=
  negb (existsb (String.eqb a) skip).








(** * Properties *)

Section Properties.

Local Open Scope list_scope.

Variable py : Runtime.
Variable world : World.

(** ** The monad *)

Lemma bind_raise {A B} (m : M A) (k : A -> M B) s e s' :
  m s = (Raise e, s') -> bind m k s = (Raise e, s').
Proof. intros H. unfold bind. now rewrite H. Qed.

Lemma bind_inv_ok {A B} (m : M A) (k : A -> M B) s b s2 :
  bind m k s = (Ok b, s2) ->
  exists a s1, m s = (Ok a, s1) /\ k a s1 = (Ok b, s2).
Proof.
  unfold bind. destruct (m s) as [[a | e] s1]; intros H.
  - now exists a, s1.
  - discriminate.
Qed.

Lemma try_except_never_raises {A} (m : M A) (h : exn -> M A) :
  (forall e s, exists a s', h e s = (Ok a, s')) ->
  forall s, exists a s', try_except m h s = (Ok a, s').
Proof.
  intros Hh s. unfold try_except.
  destruct (m s) as [[a | e] s1]; eauto.
Qed.

Lemma add_calls_nil s : add_calls s [] = s.
Proof. destruct s; unfold add_calls; simpl. now rewrite app_nil_r. Qed.

Lemma add_calls_app s cs ds :
  add_calls (add_calls s cs) ds = add_calls s (cs ++ ds).
Proof. unfold add_calls; simpl. now rewrite app_assoc. Qed.

(** ** [try_ssh_exec] *)

Lemma ssh_exec_run ip ssh_config command user s :
  ssh_exec world ip user (ssh_password ssh_config) command
    (opt_default 22 (ssh_port ssh_config))
    (opt_default 10 (ssh_timeout ssh_config)) s =
  match ssh_stdout world (calls s) (ssh_request ip ssh_config command user) with
  | inl e => (Raise e, add_calls s [ssh_request ip ssh_config command user])
  | inr out =>
      (Ok (Str.strip out), add_calls s [ssh_request ip ssh_config command user])
  end.
Proof.
  unfold ssh_exec, bind, ssh_call, ssh_request.
  destruct (ssh_stdout _ _ _); reflexivity.
Qed.

(** One turn of the loop: the attempt either ends it or hands the
    exception to the next candidate. *)
Lemma ssh_attempts_cons ip ssh_config command user rest last s :
  ssh_attempts world ip ssh_config command (user :: rest) last s =
  match ssh_stdout world (calls s) (ssh_request ip ssh_config command user) with
  | inl e =>
      ssh_attempts world ip ssh_config command rest (Some e)
        (add_calls s [ssh_request ip ssh_config command user])
  | inr out =>
      (Ok (inl (Str.strip out)),
       add_calls s [ssh_request ip ssh_config command user])
  end.
Proof.
  cbn [ssh_attempts]. unfold bind at 1, try_except. unfold bind at 1.
  rewrite ssh_exec_run.
  destruct (ssh_stdout _ _ _); reflexivity.
Qed.

(** The loop never raises; it returns either some candidate's output or
    the last failure, after one request per candidate it tried and
    without touching the error log. *)
Lemma ssh_attempts_cases ip ssh_config command users last s :
  (exists out tried untried,
      users = tried ++ untried /\ tried <> [] /\
      ssh_attempts world ip ssh_config command users last s =
        (Ok (inl out),
         add_calls s (map (ssh_request ip ssh_config command) tried)))
  \/ (exists last',
      ssh_attempts world ip ssh_config command users last s =
        (Ok (inr last'),
         add_calls s (map (ssh_request ip ssh_config command) users))).
Proof.
  revert last s. induction users as [| user rest IH]; intros last s.
  - right. exists last. cbn. now rewrite add_calls_nil.
  - rewrite ssh_attempts_cons.
    destruct (ssh_stdout _ _ _) as [e | out].
    + destruct (IH (Some e) (add_calls s [ssh_request ip ssh_config command user]))
        as [(out & tried & untried & Hu & Hne & Hrun) | (last' & Hrun)].
      * left. exists out, (user :: tried), untried. subst rest.
        split; [reflexivity | split; [discriminate |]].
        rewrite Hrun, add_calls_app. reflexivity.
      * right. exists last'. rewrite Hrun, add_calls_app. reflexivity.
    + left. exists (Str.strip out), [user], rest.
      split; [reflexivity | split; [discriminate | reflexivity]].
Qed.

Lemma ssh_attempts_all_fail ip ssh_config command (fails : string -> exn)
    users last s :
  (forall log user, In user users ->
     ssh_stdout world log (ssh_request ip ssh_config command user)
     = inl (fails user)) ->
  ssh_attempts world ip ssh_config command users last s =
    (Ok (inr (match users with
              | [] => last
              | _ => Some (fails (List.last users EmptyString))
              end)),
     add_calls s (map (ssh_request ip ssh_config command) users)).
Proof.
  revert last s. induction users as [| user rest IH]; intros last s Hfail.
  - cbn. now rewrite add_calls_nil.
  - rewrite ssh_attempts_cons, (Hfail _ user (or_introl eq_refl)).
    rewrite IH by (intros; apply Hfail; now right).
    rewrite add_calls_app. destruct rest; reflexivity.
Qed.

Lemma ssh_attempts_first_success ip ssh_config command (fails : string -> exn)
    before user after out last s :
  (forall log v, In v before ->
     ssh_stdout world log (ssh_request ip ssh_config command v)
     = inl (fails v)) ->
  ssh_stdout world
    (calls s ++ map (ssh_request ip ssh_config command) before)
    (ssh_request ip ssh_config command user) = inr out ->
  ssh_attempts world ip ssh_config command (before ++ user :: after) last s =
    (Ok (inl (Str.strip out)),
     add_calls s (map (ssh_request ip ssh_config command) (before ++ [user]))).
Proof.
  revert last s. induction before as [| v rest IH]; intros last s Hfail Hok.
  - cbn [app map] in *. rewrite app_nil_r in Hok.
    rewrite ssh_attempts_cons, Hok. reflexivity.
  - cbn [app]. rewrite ssh_attempts_cons, (Hfail _ v (or_introl eq_refl)).
    rewrite IH.
    + rewrite add_calls_app. reflexivity.
    + intros; apply Hfail; now right.
    + cbn [add_calls calls map app] in *. now rewrite <- app_assoc.
Qed.

Lemma try_ssh_exec_unfold ip ssh_config command scan_id component s :
  try_ssh_exec world ip ssh_config command scan_id component s =
  match ssh_attempts world ip ssh_config command (users_to_try ssh_config)
          None s with
  | (Ok (inl out), s') => (Ok (Some out), s')
  | (Ok (inr last_error), s') =>
      (Ok None,
       add_error s' (ssh_failure scan_id ip component
                       (users_to_try ssh_config) last_error))
  | (Raise e, s') => (Raise e, s')
  end.
Proof.
  unfold try_ssh_exec, bind.
  destruct (ssh_attempts _ _ _ _ _ _ _) as [[[out | last_error] | e] s'];
    reflexivity.
Qed.

(** Whatever the world answers, [try_ssh_exec] returns: with an output and
    an untouched error log, or with nothing and one more error. *)
Lemma try_ssh_exec_cases ip ssh_config command scan_id component s :
  (exists out tried untried,
      users_to_try ssh_config = tried ++ untried /\ tried <> [] /\
      try_ssh_exec world ip ssh_config command scan_id component s =
        (Ok (Some out),
         add_calls s (map (ssh_request ip ssh_config command) tried)))
  \/ (exists last_error,
      try_ssh_exec world ip ssh_config command scan_id component s =
        (Ok None,
         add_error
           (add_calls s (map (ssh_request ip ssh_config command)
                           (users_to_try ssh_config)))
           (ssh_failure scan_id ip component (users_to_try ssh_config)
              last_error))).
Proof.
  rewrite try_ssh_exec_unfold.
  destruct (ssh_attempts_cases ip ssh_config command
              (users_to_try ssh_config) None s)
    as [(out & tried & untried & Hu & Hne & Hrun) | (last' & Hrun)];
    rewrite Hrun.
  - left. now exists out, tried, untried.
  - right. now exists last'.
Qed.

(** C2. When every credential candidate fails, [try_ssh_exec] records
    exactly one [ScanError], whose message lists every attempted username
    and carries the text of the last failure, and returns nothing; when a
    candidate succeeds after the ones before it failed, the stripped
    output of that first success is returned and the error log is left
    as it was. *)
Theorem try_ssh_exec_one_aggregated_error ip ssh_config command scan_id
    component s :
  let users := users_to_try ssh_config in
  let request := ssh_request ip ssh_config command in
  (forall fails : string -> exn,
      (forall log user, In user users ->
         ssh_stdout world log (request user) = inl (fails user)) ->
      try_ssh_exec world ip ssh_config command scan_id component s =
        (Ok None,
         add_error (add_calls s (map request users))
           (mkScanError scan_id ip component
              ("SSH to " ++ ip ++ " failed (tried: "
               ++ Str.join ", " users ++ "): "
               ++ exn_str (fails (List.last users EmptyString)))%string
              no_traceback)))
  /\ (forall (fails : string -> exn) before user after out,
      users = before ++ user :: after ->
      (forall log v, In v before ->
         ssh_stdout world log (request v) = inl (fails v)) ->
      ssh_stdout world (calls s ++ map request before) (request user)
      = inr out ->
      try_ssh_exec world ip ssh_config command scan_id component s =
        (Ok (Some (Str.strip out)),
         add_calls s (map request (before ++ [user])))).
Proof.
  intros users request. split.
  - intros fails Hfail. rewrite try_ssh_exec_unfold.
    rewrite (ssh_attempts_all_fail ip ssh_config command fails) by exact Hfail.
    fold users. unfold ssh_failure.
    assert (Hne : users <> []) by (unfold users, users_to_try; discriminate).
    destruct users; [contradiction | reflexivity].
  - intros fails before user after out Hsplit Hfail Hok.
    rewrite try_ssh_exec_unfold. fold users. rewrite Hsplit.
    rewrite (ssh_attempts_first_success ip ssh_config command fails
               before user after out None s Hfail Hok).
    reflexivity.
Qed.

Lemma users_to_try_shape ssh_config :
  (users_to_try ssh_config = [ssh_username ssh_config]
   /\ forall alt, ssh_alt_username ssh_config = Some alt ->
                  alt = EmptyString \/ alt = ssh_username ssh_config)
  \/ (exists alt,
        ssh_alt_username ssh_config = Some alt /\ alt <> EmptyString
        /\ alt <> ssh_username ssh_config
        /\ users_to_try ssh_config = [ssh_username ssh_config; alt]).
Proof.
  unfold users_to_try.
  destruct (ssh_alt_username ssh_config) as [alt |].
  - destruct (String.eqb_spec alt EmptyString) as [He | He];
      destruct (String.eqb_spec alt (ssh_username ssh_config)) as [Hp | Hp];
      cbn [negb andb].
    + left. split; [reflexivity |]. intros a [= <-]. now left.
    + left. split; [reflexivity |]. intros a [= <-]. now left.
    + left. split; [reflexivity |]. intros a [= <-]. now right.
    + right. exists alt. now repeat split.
  - left. split; [reflexivity |]. intros a [=].
Qed.

(** C10. The usernames [try_ssh_exec] tries are pairwise different: the
    primary comes first, and the alternate follows exactly when it is
    configured, non-empty and different from the primary; so when the
    alternate is absent or equal to the primary, a failing execution
    makes exactly one attempt. *)
Theorem users_to_try_no_duplicates ssh_config :
  NoDup (users_to_try ssh_config)
  /\ hd_error (users_to_try ssh_config) = Some (ssh_username ssh_config)
  /\ (forall alt,
        tl (users_to_try ssh_config) = [alt] <->
        (ssh_alt_username ssh_config = Some alt /\ alt <> EmptyString
         /\ alt <> ssh_username ssh_config))
  /\ (forall ip command scan_id component s,
        ssh_alt_username ssh_config = None
        \/ ssh_alt_username ssh_config = Some (ssh_username ssh_config) ->
        fst (try_ssh_exec world ip ssh_config command scan_id component s)
        = Ok None ->
        calls (snd (try_ssh_exec world ip ssh_config command scan_id
                      component s))
        = calls s ++ [ssh_request ip ssh_config command
                        (ssh_username ssh_config)]).
Proof.
  destruct (users_to_try_shape ssh_config)
    as [[Hone Hno] | (alt & Halt & He & Hp & Htwo)].
  - rewrite Hone. cbn [hd_error tl].
    split; [| split; [| split]].
    + repeat constructor. intros [].
    + reflexivity.
    + intros alt. split; [discriminate |].
      intros (Ha & Hne & Hnp). destruct (Hno _ Ha); contradiction.
    + intros ip command scan_id component s _ Hnone.
      destruct (try_ssh_exec_cases ip ssh_config command scan_id
                  component s)
        as [(out & tried & untried & Hu & Hne & Hrun) | (last' & Hrun)];
        rewrite Hrun in *; cbn [fst snd] in *; [discriminate |].
      rewrite Hone. reflexivity.
  - rewrite Htwo. cbn [hd_error tl].
    split; [| split; [| split]].
    + repeat constructor; cbn; intuition congruence.
    + reflexivity.
    + intros a. split.
      * intros [= <-]. now repeat split.
      * intros (Ha & _). congruence.
    + intros ip command scan_id component s [Hnone | Hsame] _; congruence.
Qed.

(** ** What a program adds to the store *)

Lemma store_grow_nil s :
  s = mkStore (errors_list s ++ []) (calls s ++ []) (all_results s ++ []).
Proof. destruct s; cbn. now rewrite !app_nil_r. Qed.

Lemma adds_ret {A} P Q R (a : A) : adds P Q R (ret a).
Proof.
  intros s. exists [], [], []. cbn. split; [apply store_grow_nil | auto].
Qed.

Lemma adds_raise {A} P Q R e : adds P Q R (@raise A e).
Proof.
  intros s. exists [], [], []. cbn. split; [apply store_grow_nil | auto].
Qed.

Lemma adds_lift {A} P Q R (r : exn + A) : adds P Q R (lift r).
Proof. destruct r; [apply adds_raise | apply adds_ret]. Qed.

Lemma adds_step {A B} P Q R (m : M A) (k : outcome A -> M B) (f : M B) :
  (forall s, f s = k (fst (m s)) (snd (m s))) ->
  adds P Q R m -> (forall o, adds P Q R (k o)) -> adds P Q R f.
Proof.
  intros Hf Hm Hk s. rewrite Hf.
  destruct (Hm s) as (cs & es & rs & E & Fc & Fe & Fr).
  destruct (Hk (fst (m s)) (snd (m s))) as (cs' & es' & rs' & E' & Fc' & Fe' & Fr').
  exists (cs ++ cs'), (es ++ es'), (rs ++ rs').
  rewrite E', E. cbn. rewrite !app_assoc.
  repeat split; trivial; apply Forall_app; auto.
Qed.

Lemma adds_bind {A B} P Q R (m : M A) (k : A -> M B) :
  adds P Q R m -> (forall a, adds P Q R (k a)) -> adds P Q R (bind m k).
Proof.
  intros Hm Hk.
  apply (adds_step P Q R m
           (fun o => match o with Ok a => k a | Raise e => raise e end)).
  - intros s. unfold bind. destruct (m s) as [[a | e] s1]; reflexivity.
  - exact Hm.
  - intros [a | e]; [apply Hk | apply adds_raise].
Qed.

Lemma adds_try_except {A} P Q R (m : M A) (h : exn -> M A) :
  adds P Q R m -> (forall e, adds P Q R (h e)) ->
  adds P Q R (try_except m h).
Proof.
  intros Hm Hh.
  apply (adds_step P Q R m
           (fun o => match o with Ok a => ret a | Raise e => h e end)).
  - intros s. unfold try_except. destruct (m s) as [[a | e] s1]; reflexivity.
  - exact Hm.
  - intros [a | e]; [apply adds_ret | apply Hh].
Qed.

Lemma adds_try_except_json {A} P Q R (m h : M A) :
  adds P Q R m -> adds P Q R h -> adds P Q R (try_except_json m h).
Proof.
  intros Hm Hh.
  apply (adds_step P Q R m
           (fun o => match o with
                     | Ok a => ret a
                     | Raise e => if is_json_decode_error e then h else raise e
                     end)).
  - intros s. unfold try_except_json.
    destruct (m s) as [[a | e] s1]; [reflexivity |].
    cbn. destruct (is_json_decode_error e); reflexivity.
  - exact Hm.
  - intros [a | e]; [apply adds_ret |].
    destruct (is_json_decode_error e); [exact Hh | apply adds_raise].
Qed.

Lemma adds_one_call {A} (P : Call -> Prop) Q R (c : Call) (m : M A) :
  (forall s, snd (m s) = log_call c s) -> P c -> adds P Q R m.
Proof.
  intros Hm Hc s. exists [c], [], []. rewrite Hm. unfold log_call.
  rewrite !app_nil_r. auto.
Qed.

Lemma adds_http_call (P : Call -> Prop) Q R c :
  P c -> adds P Q R (http_call world c).
Proof.
  apply adds_one_call. intros s. unfold http_call.
  destruct (http_json _ _ _); reflexivity.
Qed.

Lemma adds_ssh_call (P : Call -> Prop) Q R c :
  P c -> adds P Q R (ssh_call world c).
Proof.
  apply adds_one_call. intros s. unfold ssh_call.
  destruct (ssh_stdout _ _ _); reflexivity.
Qed.

Lemma adds_subprocess_call (P : Call -> Prop) Q R c :
  P c -> adds P Q R (subprocess_call world c).
Proof.
  apply adds_one_call. intros s. unfold subprocess_call.
  destruct (subprocess_run _ _ _); reflexivity.
Qed.

Lemma adds_append_error P (Q : ScanError -> Prop) R e :
  Q e -> adds P Q R (append_error e).
Proof.
  intros He s. exists [], [e], []. cbn. rewrite !app_nil_r. auto.
Qed.

Lemma adds_append_result P Q (R : HostResult -> Prop) r :
  R r -> adds P Q R (append_result r).
Proof.
  intros Hr s. exists [], [], [r]. cbn. rewrite !app_nil_r. auto.
Qed.

Lemma adds_for_first {A B} P Q R (body : A -> M (option B)) l :
  (forall x, adds P Q R (body x)) -> adds P Q R (for_first body l).
Proof.
  intros Hb. induction l as [| x r IH]; cbn [for_first].
  - apply adds_ret.
  - apply adds_bind; [apply Hb |]. intros [b |]; [apply adds_ret | exact IH].
Qed.

Lemma adds_for_fold {A S} P Q R (body : S -> A -> M S) l :
  (forall acc x, adds P Q R (body acc x)) ->
  forall acc, adds P Q R (for_fold body acc l).
Proof.
  intros Hb. induction l as [| x r IH]; intros acc; cbn [for_fold].
  - apply adds_ret.
  - apply adds_bind; [apply Hb | intros; apply IH].
Qed.

Lemma adds_for_each {A} P Q R (body : A -> M unit) l :
  (forall x, adds P Q R (body x)) -> adds P Q R (for_each body l).
Proof.
  intros Hb. induction l as [| x r IH]; cbn [for_each].
  - apply adds_ret.
  - apply adds_bind; [apply Hb | intros; exact IH].
Qed.

(** Components whose additions are already known are closed by
    [adds_leaf], which grows with the development. *)
Ltac adds_leaf := fail.

Ltac adds_step_tac :=
  first
    [ adds_leaf
    | match goal with
      | |- adds _ _ _ (ret _) => apply adds_ret
      | |- adds _ _ _ (raise _) => apply adds_raise
      | |- adds _ _ _ (lift _) => apply adds_lift
      | |- adds _ _ _ (http_call _ _) => apply adds_http_call
      | |- adds _ _ _ (ssh_call _ _) => apply adds_ssh_call
      | |- adds _ _ _ (subprocess_call _ _) => apply adds_subprocess_call
      | |- adds _ _ _ (append_error _) => apply adds_append_error
      | |- adds _ _ _ (append_result _) => apply adds_append_result
      | |- adds _ _ _ (for_first _ _) => apply adds_for_first
      | |- adds _ _ _ (for_fold _ _ _) => apply adds_for_fold
      | |- adds _ _ _ (for_each _ _) => apply adds_for_each
      | |- adds _ _ _ (try_except _ _) => apply adds_try_except
      | |- adds _ _ _ (try_except_json _ _) => apply adds_try_except_json
      | |- adds _ _ _ (bind _ _) => apply adds_bind
      | |- adds _ _ _ (if ?b then _ else _) => destruct b
      | |- adds _ _ _ (match ?x with _ => _ end) => destruct x
      | |- forall _, _ => intro
      end ].

Ltac adds_tac := repeat adds_step_tac.

(** ** Which calls and errors each component adds *)

Lemma adds_proxmox_api (P : Call -> Prop) Q R host_ip port ticket endpoint :
  (forall c, is_http c -> P c) ->
  adds P Q R (proxmox_api py world host_ip port ticket endpoint).
Proof. intros HP. unfold proxmox_api. adds_tac. apply HP. exact I. Qed.

Lemma adds_proxmox_authenticate (P : Call -> Prop) Q R host_ip port user pw :
  (forall c, is_http c -> P c) ->
  adds P Q R (proxmox_authenticate py world host_ip port user pw).
Proof. intros HP. unfold proxmox_authenticate. adds_tac. apply HP. exact I. Qed.

Ltac adds_leaf ::=
  match goal with
  | |- adds _ _ _ (proxmox_api _ _ _ _ _ _) =>
      apply adds_proxmox_api; first [assumption | exact (fun c H => H) | idtac]
  | |- adds _ _ _ (proxmox_authenticate _ _ _ _ _ _) =>
      apply adds_proxmox_authenticate;
      first [assumption | exact (fun c H => H) | idtac]
  end.

(** The resolver makes HTTP requests only and records nothing. *)
Lemma adds_get_guest_ip (P : Call -> Prop) Q R host_ip port ticket node_name
    vmtype vmid :
  (forall c, is_http c -> P c) ->
  adds P Q R (get_guest_ip_from_proxmox py world host_ip port ticket node_name
                vmtype vmid).
Proof.
  intros HP. unfold get_guest_ip_from_proxmox.
  apply adds_try_except; [| adds_tac].
  unfold agent_iface, agent_address, config_entry, config_part, live_iface.
  adds_tac.
Qed.

(** [try_ssh_exec] talks to its target only, and what it records names
    that target, the given component and the given run. *)
Lemma adds_try_ssh_exec (P : Call -> Prop) (Q : ScanError -> Prop) R ip
    ssh_config command scan_id component :
  (forall c, ssh_target c = Some ip -> P c) ->
  (forall e, err_host_ip e = ip -> err_component e = component ->
             err_scan_id e = scan_id -> Q e) ->
  adds P Q R (try_ssh_exec world ip ssh_config command scan_id component).
Proof.
  intros HP HQ. unfold try_ssh_exec.
  apply adds_bind.
  - generalize (@None exn).
    induction (users_to_try ssh_config) as [| user rest IH]; intros last;
      cbn [ssh_attempts]; adds_tac.
    + unfold ssh_exec. adds_tac. now apply HP.
    + apply IH.
  - intros [out | last]; adds_tac. now apply HQ.
Qed.

Lemma adds_scan_docker_on_host (P : Call -> Prop) (Q : ScanError -> Prop) R ip
    ssh_config scan_id :
  (forall c, ssh_target c = Some ip -> P c) ->
  (forall e, docker_error ip scan_id e -> Q e) ->
  adds P Q R (scan_docker_on_host py world ip ssh_config scan_id).
Proof.
  intros HP HQ. unfold scan_docker_on_host.
  assert (Hssh : forall command,
             adds P Q R (try_ssh_exec world ip ssh_config command scan_id
                           "Docker")).
  { intros command. apply adds_try_ssh_exec; [exact HP |].
    intros e H1 H2 H3. apply HQ. unfold docker_error. auto. }
  apply adds_bind; [apply Hssh |]. intros docker_check.
  destruct (_ || _); [apply adds_ret |].
  apply adds_bind; [apply Hssh |]. intros docker_output.
  destruct (falsy docker_output); [apply adds_ret |].
  apply adds_bind; [apply Hssh |]. intros h.
  apply adds_for_fold. intros acc raw. unfold docker_line.
  destruct (String.eqb _ _); [apply adds_ret |].
  unfold container_record. adds_tac.
  apply HQ. unfold docker_error, parse_failure. cbn. auto.
Qed.

(** ** Running one step *)

Lemma try_except_raise {A} (m : M A) h s e s' :
  m s = (Raise e, s') -> try_except m h s = h e s'.
Proof. intros H. unfold try_except. now rewrite H. Qed.

Lemma adds_no_errors {A} P R (m : M A) s :
  adds P never R m -> errors_list (snd (m s)) = errors_list s.
Proof.
  intros Hm. destruct (Hm s) as (cs & es & rs & E & _ & Fe & _).
  rewrite E. cbn. destruct es as [| e es]; [apply app_nil_r |].
  inversion Fe as [| ? ? He]; destruct He.
Qed.

Lemma adds_no_results {A} P Q (m : M A) s :
  adds P Q never m -> all_results (snd (m s)) = all_results s.
Proof.
  intros Hm. destruct (Hm s) as (cs & es & rs & E & _ & _ & Fr).
  rewrite E. cbn. destruct rs as [| r rs]; [apply app_nil_r |].
  inversion Fr as [| ? ? Hr]; destruct Hr.
Qed.

Lemma proxmox_api_run host_ip port ticket endpoint s :
  proxmox_api py world host_ip port ticket endpoint s =
  let c := HttpGetCookie (api_url py host_ip port endpoint) ticket 15 in
  match http_json world (calls s) c with
  | inl e => (Raise e, add_calls s [c])
  | inr resp =>
      match py_get py resp "data" (PDict []) with
      | inl e => (Raise e, add_calls s [c])
      | inr data => (Ok data, add_calls s [c])
      end
  end.
Proof.
  unfold proxmox_api, bind, http_call. cbn zeta.
  destruct (http_json _ _ _) as [e | resp]; [reflexivity |].
  destruct (py_get _ _ _ _); reflexivity.
Qed.

Lemma proxmox_authenticate_calls host_cfg s :
  snd (proxmox_authenticate py world (h_ip host_cfg)
         (opt_default 8006 (h_port host_cfg)) (h_user host_cfg)
         (h_password host_cfg) s)
  = add_calls s [auth_request py host_cfg].
Proof.
  unfold proxmox_authenticate, bind, http_call, auth_request.
  destruct (http_json _ _ _) as [e | resp]; [reflexivity |].
  cbn. destruct (py_getitem _ resp _) as [e | data]; [reflexivity |].
  cbn. destruct (py_getitem _ data "ticket") as [e | t]; [reflexivity |].
  cbn. destruct (py_getitem _ data _) as [e | c]; reflexivity.
Qed.

(** ** The address resolver never raises *)

Lemma get_guest_ip_total host_ip port ticket node_name vmtype vmid s :
  exists address s',
    get_guest_ip_from_proxmox py world host_ip port ticket node_name
      vmtype vmid s = (Ok address, s')
    /\ errors_list s' = errors_list s
    /\ all_results s' = all_results s.
Proof.
  assert (Hadd := adds_get_guest_ip is_http never never host_ip port ticket
                    node_name vmtype vmid (fun c H => H)).
  pose proof (adds_no_errors _ _ _ s Hadd) as He.
  pose proof (adds_no_results _ _ _ s Hadd) as Hr.
  unfold get_guest_ip_from_proxmox in *.
  match goal with
  | |- context [try_except ?m ?h s] =>
      destruct (try_except_never_raises m h
                  (fun e s0 => ex_intro _ None (ex_intro _ s0 eq_refl)) s)
        as (a & s' & Hrun)
  end.
  rewrite Hrun in *. now exists a, s'.
Qed.

(** ** Host-fatal failures *)

Lemma scan_proxmox_host_auth_failed host_cfg ssh_config scan_id scan_options
    s e s1 :
  proxmox_authenticate py world (h_ip host_cfg)
    (opt_default 8006 (h_port host_cfg)) (h_user host_cfg)
    (h_password host_cfg) s = (Raise e, s1) ->
  scan_proxmox_host py world host_cfg ssh_config scan_id scan_options s
  = (Ok empty_result, add_error s1 (auth_error py scan_id host_cfg e)).
Proof.
  intros Hauth. unfold scan_proxmox_host, bind, try_except. cbn zeta.
  rewrite Hauth. reflexivity.
Qed.

(** C1. When the authentication call of a configured host fails, the scan
    of that host returns the empty result (no host snapshot and no guest,
    storage, workload or network records), the only request made is the
    authentication request, exactly one error tagged [Proxmox-Auth] is
    added to the log, and the loop over the configured hosts goes on with
    the next host. *)
Theorem auth_failure_stops_host host_cfg scan_id s e s1 :
  proxmox_authenticate py world (h_ip host_cfg)
    (opt_default 8006 (h_port host_cfg)) (h_user host_cfg)
    (h_password host_cfg) s = (Raise e, s1) ->
  s1 = add_calls s [auth_request py host_cfg]
  /\ (forall ssh_config scan_options,
        scan_proxmox_host py world host_cfg ssh_config scan_id scan_options s
        = (Ok empty_result, add_error s1 (auth_error py scan_id host_cfg e)))
  /\ err_component (auth_error py scan_id host_cfg e) = "Proxmox-Auth"
  /\ err_host_ip (auth_error py scan_id host_cfg e) = h_ip host_cfg
  /\ (forall config rest,
        for_each (scan_one_host py world config scan_id) (host_cfg :: rest) s
        = for_each (scan_one_host py world config scan_id) rest
            (add_result (add_error s1 (auth_error py scan_id host_cfg e))
               empty_result)).
Proof.
  intros Hauth. repeat split.
  - pose proof (proxmox_authenticate_calls host_cfg s) as Hc.
    rewrite Hauth in Hc. exact Hc.
  - intros. now apply scan_proxmox_host_auth_failed.
  - intros config rest. cbn [for_each].
    unfold scan_one_host, bind at 1, try_except, bind at 1.
    rewrite (scan_proxmox_host_auth_failed _ _ _ _ _ _ _ Hauth).
    reflexivity.
Qed.

Lemma scan_proxmox_host_authenticated host_cfg ssh_config scan_id scan_options
    s ticket csrf s1 version_data s2 :
  proxmox_authenticate py world (h_ip host_cfg)
    (opt_default 8006 (h_port host_cfg)) (h_user host_cfg)
    (h_password host_cfg) s = (Ok (ticket, csrf), s1) ->
  try_except
    (proxmox_api py world (h_ip host_cfg) (opt_default 8006 (h_port host_cfg))
       ticket "/version")
    (fun _ => ret (PDict [])) s1 = (Ok version_data, s2) ->
  scan_proxmox_host py world host_cfg ssh_config scan_id scan_options s
  = scan_authenticated py world (h_ip host_cfg)
      (opt_default 8006 (h_port host_cfg)) ticket version_data ssh_config
      scan_id scan_options s2.
Proof.
  intros Hauth Hver. unfold scan_proxmox_host. cbn zeta.
  unfold bind at 1, try_except at 1, bind at 1. rewrite Hauth.
  cbn iota beta. unfold ret at 1. cbn iota beta.
  unfold bind at 1. rewrite Hver. reflexivity.
Qed.

(** C4, as the code has it.  After a successful authentication, a
    topology fetch that fails ends the scan of the host with the empty
    result and exactly one more error, tagged [Proxmox-Nodes]; a topology
    fetch that succeeds with no nodes ends it with the empty result too,
    but leaves the error log as it was. *)
Theorem topology_failure_stops_host host_cfg ssh_config scan_id scan_options
    s ticket csrf s1 version_data s2 :
  let ip := h_ip host_cfg in
  let port := opt_default 8006 (h_port host_cfg) in
  proxmox_authenticate py world ip port (h_user host_cfg)
    (h_password host_cfg) s = (Ok (ticket, csrf), s1) ->
  try_except (proxmox_api py world ip port ticket "/version")
    (fun _ => ret (PDict [])) s1 = (Ok version_data, s2) ->
  (forall e s3,
      proxmox_api py world ip port ticket "/nodes" s2 = (Raise e, s3) ->
      scan_proxmox_host py world host_cfg ssh_config scan_id scan_options s
      = (Ok empty_result,
         add_error s3 (api_failure py scan_id ip "Proxmox-Nodes"
                         "Failed to get nodes from " e))
      /\ errors_list s3 = errors_list s)
  /\ (forall nodes s3,
        proxmox_api py world ip port ticket "/nodes" s2 = (Ok nodes, s3) ->
        truthy nodes = false ->
        scan_proxmox_host py world host_cfg ssh_config scan_id scan_options s
        = (Ok empty_result, s3)
        /\ errors_list s3 = errors_list s).
Proof.
  intros ip port Hauth Hver.
  assert (Hsame : forall s3 o,
             proxmox_api py world ip port ticket "/nodes" s2 = (o, s3) ->
             errors_list s3 = errors_list s).
  { intros s3 o Hn.
    pose proof (adds_no_errors is_http never
                  (proxmox_api py world ip port ticket "/nodes") s2
                  (adds_proxmox_api _ _ _ _ _ _ _ (fun c H => H))) as E3.
    rewrite Hn in E3. cbn in E3. rewrite E3.
    pose proof (adds_no_errors is_http never
                  (try_except (proxmox_api py world ip port ticket "/version")
                     (fun _ => ret (PDict []))) s1) as E2.
    rewrite Hver in E2. cbn in E2. rewrite E2 by adds_tac.
    pose proof (adds_no_errors is_http never
                  (proxmox_authenticate py world ip port (h_user host_cfg)
                     (h_password host_cfg)) s
                  (adds_proxmox_authenticate _ _ _ _ _ _ _ (fun c H => H)))
      as E1.
    rewrite Hauth in E1. exact E1. }
  split.
  - intros e s3 Hnodes. split; [| now apply (Hsame s3 (Raise e))].
    rewrite (scan_proxmox_host_authenticated _ _ _ _ _ _ _ _ _ _ Hauth Hver).
    unfold scan_authenticated. fold ip port.
    unfold bind at 1, try_except at 1, bind at 1. rewrite Hnodes.
    reflexivity.
  - intros nodes s3 Hnodes Hempty. split; [| now apply (Hsame s3 (Ok nodes))].
    rewrite (scan_proxmox_host_authenticated _ _ _ _ _ _ _ _ _ _ Hauth Hver).
    unfold scan_authenticated. fold ip port.
    unfold bind at 1, try_except at 1, bind at 1. rewrite Hnodes.
    cbn iota beta. unfold ret at 1. cbn iota beta.
    rewrite Hempty. reflexivity.
Qed.

(** ** Strings *)

Lemma split_nonempty sep s : Str.split sep s <> [].
Proof.
  destruct s as [| c t]; cbn; [discriminate |].
  destruct (Ascii.eqb c sep); [discriminate |].
  destruct (Str.split sep t); discriminate.
Qed.

Lemma split_hd sep s :
  hd EmptyString (Str.split sep s) = take_until (fun c => Ascii.eqb c sep) s.
Proof.
  induction s as [| c t IH]; cbn; [reflexivity |].
  destruct (Ascii.eqb c sep); [reflexivity |].
  pose proof (split_nonempty sep t) as Hne.
  destruct (Str.split sep t) as [| h r]; [contradiction |].
  cbn in *. now rewrite IH.
Qed.

Lemma take_until_twice s :
  take_until (fun c => Ascii.eqb c "/")
    (take_until (fun c => Ascii.eqb c "=") s)
  = take_until (fun c => Ascii.eqb c "/" || Ascii.eqb c "=") s.
Proof.
  induction s as [| c t IH]; cbn; [reflexivity |].
  destruct (Ascii.eqb c "="); cbn.
  - now rewrite orb_true_r.
  - rewrite orb_false_r. destruct (Ascii.eqb c "/"); [reflexivity |].
    now rewrite IH.
Qed.

Lemma prefix_app s1 :
  forall s2, String.prefix s1 s2 = true -> exists t, s2 = (s1 ++ t)%string.
Proof.
  induction s1 as [| a s1 IH]; intros s2 H.
  - now exists s2.
  - destruct s2 as [| b s2]; cbn [String.prefix] in H; [discriminate |].
    destruct (ascii_dec a b) as [-> |]; [| discriminate].
    destruct (IH _ H) as [t ->]. now exists t.
Qed.

Lemma startswith_ip p :
  Str.startswith p "ip=" = true -> exists t, p = ("ip=" ++ t)%string.
Proof. apply prefix_app. Qed.

(** ** The container path of the address resolver *)

Lemma config_part_run p s :
  config_part py p s =
  (Ok (match spec_ip_value p with
       | Some v => if spec_usable v then Some v else None
       | None => None
       end), s).
Proof.
  unfold config_part, spec_ip_value. cbn zeta.
  destruct (Str.startswith (Str.strip p) "ip=") eqn:Hp; [| reflexivity].
  destruct (startswith_ip _ Hp) as [t Ht]. rewrite Ht.
  cbn [drop append].
  assert (Hsplit : Str.split "=" ("ip=" ++ t)
                   = "ip"%string :: Str.split "=" t).
  { cbn. pose proof (split_nonempty "=" t).
    destruct (Str.split "=" t); [contradiction | reflexivity]. }
  cbn [append] in Hsplit. rewrite Hsplit. unfold str_index.
  pose proof (split_nonempty "=" t) as Hne.
  pose proof (split_hd "=" t) as Hhd.
  destruct (Str.split "=" t) as [| rhs r]; [contradiction |].
  cbn [nth_error lift bind hd] in *. unfold bind, ret. cbn iota beta.
  rewrite split_hd, Hhd, take_until_twice. unfold spec_usable.
  destruct (negb _ && negb _); reflexivity.
Qed.

Lemma for_first_pure {A B} (body : A -> M (option B)) (f : A -> option B) l s :
  (forall x s0, body x s0 = (Ok (f x), s0)) ->
  for_first body l s = (Ok (first_some f l), s).
Proof.
  intros Hb. induction l as [| x r IH]; cbn [for_first first_some];
    [reflexivity |].
  unfold bind. rewrite Hb. destruct (f x); [reflexivity | exact IH].
Qed.

Lemma for_first_pure_on {A B} (ok : A -> bool) (body : A -> M (option B))
    (f : A -> option B) l s :
  (forall x s0, ok x = true -> body x s0 = (Ok (f x), s0)) ->
  forallb ok l = true ->
  for_first body l s = (Ok (first_some f l), s).
Proof.
  intros Hb. induction l as [| x r IH]; cbn [for_first first_some forallb];
    [reflexivity |].
  intros [Hx Hr]%andb_prop.
  unfold bind. rewrite Hb by exact Hx.
  destruct (f x); [reflexivity | now apply IH].
Qed.

Lemma find_app {A} (p : A -> bool) l1 l2 :
  find p (l1 ++ l2) = match find p l1 with
                      | Some a => Some a
                      | None => find p l2
                      end.
Proof.
  induction l1 as [| x r IH]; cbn; [reflexivity |].
  destruct (p x); [reflexivity | exact IH].
Qed.

Lemma first_some_find {A B} (p : B -> bool) (g : A -> list B) l :
  first_some (fun x => find p (g x)) l = find p (flat_map g l).
Proof.
  induction l as [| x r IH]; cbn; [reflexivity |].
  rewrite find_app. destruct (find p (g x)); [reflexivity | exact IH].
Qed.

Lemma config_entry_run kv s :
  config_entry py kv s = (Ok (find spec_usable (spec_entry_values py kv)), s).
Proof.
  unfold config_entry, spec_entry_values. destruct kv as [key val].
  cbn [fst snd].
  destruct (Str.startswith key "net" && _); [| reflexivity].
  rewrite (for_first_pure _ _ _ _ config_part_run).
  rewrite <- first_some_find. f_equal. f_equal.
  induction (Str.split "," (py_str py val)) as [| p r IH]; cbn;
    [reflexivity |].
  rewrite IH. destruct (spec_ip_value p) as [v |]; cbn; [| reflexivity].
  destruct (spec_usable v); reflexivity.
Qed.

Lemma declared_address_run cfg s :
  for_first (config_entry py) cfg s = (Ok (spec_declared_address py cfg), s).
Proof.
  rewrite (for_first_pure _ _ _ _ config_entry_run).
  unfold spec_declared_address. now rewrite first_some_find.
Qed.

Lemma live_iface_run iface s :
  iface_ok iface = true ->
  live_iface py iface s = (Ok (spec_live_value iface), s).
Proof.
  unfold iface_ok, live_iface, spec_live_value.
  destruct iface as [| | | | | | d]; try discriminate. cbn [is_dict andb].
  unfold bind, lift, py_get, get_default, ret. cbn iota beta.
  destruct (eq_str _ "lo"); [reflexivity |].
  destruct (opt_default (PStr "") (lookup "inet" d)) as [| b | n | f | a | l | d'];
    cbn [truthy negb]; intros Hok.
  all: try (rewrite (negb_true_iff _) in Hok; rewrite Hok); try reflexivity.
  destruct (String.eqb a ""); cbn [negb andb]; [reflexivity |].
  unfold py_startswith. cbn iota beta.
  destruct (Str.startswith a "127."); cbn [negb]; [reflexivity |].
  unfold py_split_first. cbn iota beta. now rewrite split_hd.
Qed.

(** C6. For a container guest whose declared configuration was fetched,
    the resolver returns the first [ip=] value of the [netN] entries that
    is neither empty nor [dhcp], without its CIDR suffix, and then asks
    nothing else; only when the configuration declares no such value does
    it query the live interfaces, and returns the first address reported
    by an interface other than [lo] that does not start with [127.],
    without its CIDR suffix. *)
Theorem container_address_resolution host_ip port ticket node_name vmid s
    cfg s1 :
  proxmox_api py world host_ip port ticket
    (guest_endpoint py node_name "lxc" vmid "/config") s
  = (Ok (PDict cfg), s1) ->
  (forall a,
      spec_declared_address py cfg = Some a ->
      get_guest_ip_from_proxmox py world host_ip port ticket node_name "lxc"
        vmid s = (Ok (Some a), s1))
  /\ (spec_declared_address py cfg = None ->
      forall ifaces s2,
        proxmox_api py world host_ip port ticket
          (guest_endpoint py node_name "lxc" vmid "/interfaces") s1
        = (Ok (PList ifaces), s2) ->
        forallb iface_ok ifaces = true ->
        get_guest_ip_from_proxmox py world host_ip port ticket node_name
          "lxc" vmid s = (Ok (spec_live_address ifaces), s2)).
Proof.
  intros Hcfg. unfold get_guest_ip_from_proxmox.
  change (String.eqb "lxc" "qemu") with false. cbn iota.
  split.
  - intros a Ha.
    unfold try_except at 1, bind at 1. rewrite Hcfg.
    cbn [lift py_items]. unfold bind at 1, ret at 1. cbn iota beta.
    unfold bind at 1. rewrite declared_address_run, Ha. reflexivity.
  - intros Hnone ifaces s2 Hif Hok.
    unfold try_except at 1, bind at 1. rewrite Hcfg.
    cbn [lift py_items]. unfold bind at 1, ret at 1. cbn iota beta.
    unfold bind at 1. rewrite declared_address_run, Hnone.
    unfold try_except, bind. rewrite Hif.
    rewrite (for_first_pure_on iface_ok _ spec_live_value _ _
               live_iface_run Hok).
    reflexivity.
Qed.

(** ** Any failure inside the resolver yields no address *)

Lemma for_first_event {A} (body : A -> M (option string)) (f : A -> event)
    l s :
  (forall x s0, ends_as (body x s0) (f x) s0) ->
  ends_as (for_first body l s) (first_event f l) s.
Proof.
  intros Hb. induction l as [| x r IH]; cbn [for_first first_event];
    [reflexivity |].
  pose proof (Hb x s) as Hx. unfold bind.
  destruct (f x) as [a | |]; cbn [ends_as] in Hx |- *.
  - now rewrite Hx.
  - rewrite Hx. exact IH.
  - destruct Hx as (e & ->). now exists e.
Qed.

Lemma agent_address_event addr s :
  ends_as (agent_address py addr s) (agent_entry_event addr) s.
Proof.
  unfold agent_address, agent_entry_event.
  destruct addr as [| | | | | | d]; try (eexists; reflexivity).
  unfold bind at 1. cbn [py_get lift ret]. cbn iota beta.
  destruct (eq_str (opt_default PNone (lookup "ip-address-type" d)) "ipv4");
    [| reflexivity].
  unfold bind at 1, py_getitem.
  destruct (lookup "ip-address" d) as [[| | | | a | |] |];
    try (eexists; reflexivity).
  cbn [lift ret]. cbn iota beta. unfold bind. cbn [py_startswith lift ret].
  cbn iota beta. destruct (Str.startswith a "127."); reflexivity.
Qed.

Lemma agent_iface_event_run iface s :
  ends_as (agent_iface py iface s) (agent_iface_event py iface) s.
Proof.
  unfold agent_iface, agent_iface_event.
  destruct iface as [| | | | | | d]; try (eexists; reflexivity).
  unfold bind at 1. cbn [py_get lift ret]. cbn iota beta.
  destruct (eq_str (opt_default PNone (lookup "name" d)) "lo");
    [reflexivity |].
  unfold bind at 1. cbn [py_get lift ret]. cbn iota beta. unfold bind at 1.
  destruct (py_iter py (opt_default (PList []) (lookup "ip-addresses" d)))
    as [e | addrs]; cbn [lift raise ret]; [eexists; reflexivity |].
  cbn iota beta. apply for_first_event. apply agent_address_event.
Qed.

Lemma live_iface_event_run iface s :
  ends_as (live_iface py iface s) (live_iface_event iface) s.
Proof.
  unfold live_iface, live_iface_event.
  destruct iface as [| | | | | | d]; try (eexists; reflexivity).
  unfold bind at 1. cbn [py_get lift ret]. cbn iota beta.
  destruct (eq_str (opt_default PNone (lookup "name" d)) "lo");
    [reflexivity |].
  unfold bind at 1. cbn [py_get lift ret]. cbn iota beta.
  destruct (opt_default (PStr "") (lookup "inet" d))
    as [| b | n | f | a | l | d'] eqn:Hinet; cbn [truthy].
  - reflexivity.
  - destruct b; [eexists; reflexivity | reflexivity].
  - destruct (negb (n =? 0)); [eexists; reflexivity | reflexivity].
  - destruct f; try reflexivity; eexists; reflexivity.
  - destruct (String.eqb a ""); cbn [negb andb]; [reflexivity |].
    unfold bind at 1. cbn [py_startswith lift ret]. cbn iota beta.
    destruct (Str.startswith a "127."); cbn [negb]; [reflexivity |].
    unfold bind. cbn [py_split_first lift ret]. cbn iota beta.
    now rewrite split_hd.
  - destruct l; [reflexivity | eexists; reflexivity].
  - destruct d'; [reflexivity | eexists; reflexivity].
Qed.

(** What [proxmox_api] makes of an answer. *)
Lemma proxmox_api_data host_ip port ticket endpoint s :
  let c := HttpGetCookie (api_url py host_ip port endpoint) ticket 15 in
  match answer_data (http_json world (calls s) c) with
  | Some data =>
      proxmox_api py world host_ip port ticket endpoint s
      = (Ok data, add_calls s [c])
  | None =>
      exists e,
        proxmox_api py world host_ip port ticket endpoint s
        = (Raise e, add_calls s [c])
  end.
Proof.
  cbn zeta. rewrite proxmox_api_run. cbn zeta.
  destruct (http_json world (calls s) _) as [e | resp]; cbn [answer_data];
    [now exists e |].
  destruct resp; cbn [answer_data py_get]; first [reflexivity | now eexists].
Qed.

(** C8. Whatever the hypervisor answers, [get_guest_ip_from_proxmox]
    returns: an address or none, never an exception, and it records no
    error.  Any failure inside it yields no address: a request that
    fails, an answer that cannot be read, and any entry that cannot be
    read and is met before an address is found.  For a virtual machine
    the result is the first event of the guest agent's answer, an address
    if one was found and none otherwise, after that one request; for a
    container guest it is the address the configuration declares, none
    if the configuration cannot be fetched or read, and otherwise the
    first event of the live interfaces, after the second request. *)
Theorem get_guest_ip_never_raises host_ip port ticket node_name vmtype vmid s :
  (exists address s',
      get_guest_ip_from_proxmox py world host_ip port ticket node_name
        vmtype vmid s = (Ok address, s')
      /\ errors_list s' = errors_list s
      /\ all_results s' = all_results s)
  /\ (forall e,
        http_json world (calls s)
          (guest_first_request py host_ip port ticket node_name vmtype vmid)
        = inl e ->
        get_guest_ip_from_proxmox py world host_ip port ticket node_name
          vmtype vmid s
        = (Ok None,
           add_calls s [guest_first_request py host_ip port ticket node_name
                          vmtype vmid]))
  /\ (forall resp,
        http_json world (calls s)
          (guest_first_request py host_ip port ticket node_name vmtype vmid)
        = inr resp ->
        is_dict resp = false ->
        get_guest_ip_from_proxmox py world host_ip port ticket node_name
          vmtype vmid s
        = (Ok None,
           add_calls s [guest_first_request py host_ip port ticket node_name
                          vmtype vmid]))
  /\ (let request := guest_first_request py host_ip port ticket node_name
                       "qemu" vmid in
      get_guest_ip_from_proxmox py world host_ip port ticket node_name
        "qemu" vmid s
      = (Ok (address_of (agent_event py (http_json world (calls s) request))),
         add_calls s [request]))
  /\ (String.eqb vmtype "qemu" = false ->
      let config := guest_config_request py host_ip port ticket node_name
                      vmid in
      let live := guest_live_request py host_ip port ticket node_name vmid in
      get_guest_ip_from_proxmox py world host_ip port ticket node_name
        vmtype vmid s
      = match declared_event py (http_json world (calls s) config) with
        | Nothing =>
            (Ok (address_of
                   (live_event (http_json world (calls s ++ [config]) live))),
             add_calls s [config; live])
        | ev => (Ok (address_of ev), add_calls s [config])
        end).
Proof.
  split; [| split; [| split; [| split]]].
  - apply get_guest_ip_total.
  - intros e Hfail. unfold get_guest_ip_from_proxmox, guest_first_request in *.
    destruct (String.eqb vmtype "qemu");
      (erewrite try_except_raise; [reflexivity |]);
      (erewrite bind_raise; [reflexivity |]);
      rewrite proxmox_api_run; cbn zeta; rewrite Hfail; reflexivity.
  - intros resp Hresp Hnd.
    unfold get_guest_ip_from_proxmox, guest_first_request in *.
    destruct (String.eqb vmtype "qemu");
      (erewrite try_except_raise; [reflexivity |]);
      (erewrite bind_raise; [reflexivity |]);
      rewrite proxmox_api_run; cbn zeta; rewrite Hresp;
      destruct resp; try discriminate; reflexivity.
  - cbn zeta. unfold get_guest_ip_from_proxmox, guest_first_request.
    cbn [String.eqb Ascii.eqb Bool.eqb].
    pose proof (proxmox_api_data host_ip port ticket
                  (guest_endpoint py node_name "qemu" vmid
                     "/agent/network-get-interfaces") s) as Hapi.
    cbn zeta in Hapi. unfold agent_event, try_except, bind at 1.
    destruct (answer_data _) as [data |].
    2: { destruct Hapi as (e & ->). reflexivity. }
    rewrite Hapi.
    destruct data as [| | | | | | d]; try reflexivity.
    destruct (lookup "result" d) as [result |]; [| reflexivity].
    unfold bind at 1.
    destruct (py_iter py result) as [e | ifaces]; cbn [lift raise ret];
      [reflexivity |].
    cbn iota beta.
    pose proof (for_first_event (agent_iface py) (agent_iface_event py)
                  ifaces (add_calls s [HttpGetCookie
                     (api_url py host_ip port
                        (guest_endpoint py node_name "qemu" vmid
                           "/agent/network-get-interfaces")) ticket 15])
                  agent_iface_event_run) as Hloop.
    destruct (first_event (agent_iface_event py) ifaces) as [a | |];
      cbn [ends_as address_of] in Hloop |- *.
    + now rewrite Hloop.
    + now rewrite Hloop.
    + destruct Hloop as (e & ->). reflexivity.
  - intros Hkind. cbn zeta.
    unfold get_guest_ip_from_proxmox, guest_config_request,
      guest_live_request.
    rewrite Hkind.
    pose proof (proxmox_api_data host_ip port ticket
                  (guest_endpoint py node_name "lxc" vmid "/config") s)
      as Hapi.
    cbn zeta in Hapi. unfold declared_event, try_except at 1, bind at 1.
    destruct (answer_data _) as [data |].
    2: { destruct Hapi as (e & ->). reflexivity. }
    rewrite Hapi.
    destruct data as [| | | | | | cfg]; try reflexivity.
    unfold bind at 1. cbn [py_items lift ret]. cbn iota beta.
    unfold bind at 1. rewrite declared_address_run.
    destruct (spec_declared_address py cfg) as [a |]; [reflexivity |].
    cbn [address_of].
    pose proof (proxmox_api_data host_ip port ticket
                  (guest_endpoint py node_name "lxc" vmid "/interfaces")
                  (add_calls s [HttpGetCookie
                     (api_url py host_ip port
                        (guest_endpoint py node_name "lxc" vmid "/config"))
                     ticket 15])) as Hlive.
    cbn zeta in Hlive. cbn [add_calls calls] in Hlive.
    unfold live_event, try_except, bind at 1.
    destruct (answer_data _) as [data |].
    2: { destruct Hlive as (e & ->). cbn. unfold add_calls. cbn.
         now rewrite <- app_assoc. }
    rewrite Hlive.
    assert (Hstore : add_calls
                       (add_calls s [HttpGetCookie
                          (api_url py host_ip port
                             (guest_endpoint py node_name "lxc" vmid
                                "/config")) ticket 15])
                       [HttpGetCookie
                          (api_url py host_ip port
                             (guest_endpoint py node_name "lxc" vmid
                                "/interfaces")) ticket 15]
                     = add_calls s
                         [HttpGetCookie
                            (api_url py host_ip port
                               (guest_endpoint py node_name "lxc" vmid
                                  "/config")) ticket 15;
                          HttpGetCookie
                            (api_url py host_ip port
                               (guest_endpoint py node_name "lxc" vmid
                                  "/interfaces")) ticket 15]).
    { unfold add_calls. cbn. now rewrite <- app_assoc. }
    rewrite Hstore.
    destruct data as [| | | | | l |]; try reflexivity.
    pose proof (for_first_event (live_iface py) live_iface_event l
                  (add_calls s
                     [HttpGetCookie
                        (api_url py host_ip port
                           (guest_endpoint py node_name "lxc" vmid
                              "/config")) ticket 15;
                      HttpGetCookie
                        (api_url py host_ip port
                           (guest_endpoint py node_name "lxc" vmid
                              "/interfaces")) ticket 15])
                  live_iface_event_run) as Hloop.
    destruct (first_event live_iface_event l) as [a | |];
      cbn [ends_as address_of] in Hloop |- *.
    + now rewrite Hloop.
    + now rewrite Hloop.
    + destruct Hloop as (e & ->). reflexivity.
Qed.

(** ** The hub collector *)

Lemma for_fold_pure_on {A S} (ok : A -> bool) (body : S -> A -> M S)
    (g : S -> A -> S) l :
  (forall acc x s, ok x = true -> body acc x s = (Ok (g acc x), s)) ->
  forallb ok l = true ->
  forall acc s, for_fold body acc l s = (Ok (fold_left g l acc), s).
Proof.
  intros Hb. induction l as [| x r IH]; cbn [for_fold forallb fold_left];
    [reflexivity |].
  intros [Hx Hr]%andb_prop acc s.
  unfold bind. rewrite Hb by exact Hx. now apply IH.
Qed.

Lemma fold_left_collect {A B} (h : A -> list B) l :
  forall acc, fold_left (fun acc x => acc ++ h x) l acc = acc ++ flat_map h l.
Proof.
  induction l as [| x r IH]; intros acc; cbn.
  - now rewrite app_nil_r.
  - now rewrite IH, app_assoc.
Qed.

Lemma flat_map_filter_map {A B} (p : A -> bool) (f : A -> B) l :
  flat_map (fun x => if p x then [f x] else []) l = map f (filter p l).
Proof.
  induction l as [| x r IH]; cbn; [reflexivity |].
  destruct (p x); cbn; now rewrite IH.
Qed.

Lemma filter_filter {A} (p q : A -> bool) l :
  filter q (filter p l) = filter (fun x => p x && q x) l.
Proof.
  induction l as [| x r IH]; cbn; [reflexivity |].
  destruct (p x); cbn; [destruct (q x) |]; now rewrite IH.
Qed.

Lemma forallb_filter {A} (ok p : A -> bool) l :
  forallb ok l = true -> forallb ok (filter p l) = true.
Proof.
  induction l as [| x r IH]; cbn; [reflexivity |].
  intros [Hx Hr]%andb_prop. destruct (p x); cbn; [rewrite Hx |]; auto.
Qed.

Lemma ha_is_update_run acc u s :
  entity_ok u = true ->
  ha_is_update py acc u s =
  (Ok (acc ++ (if Str.startswith (entity_id_of u) "update." then [u] else [])),
   s).
Proof.
  unfold entity_ok, ha_is_update, entity_id_of.
  destruct u as [| | | | | | d]; try discriminate.
  cbn [py_getitem get_default].
  destruct (lookup "entity_id" d) as [[| | | | eid | |] |]; try discriminate.
  intros _. unfold bind, lift, ret, py_startswith. cbn iota beta.
  cbn [opt_default].
  destruct (Str.startswith eid "update."); [reflexivity |].
  now rewrite app_nil_r.
Qed.

Lemma ha_update_run ip ha_name acc u s :
  entity_ok u = true ->
  ha_update py ip ha_name acc u s =
  (Ok (acc ++ (if truthy (attribute_of u "title" PNone)
                  && negb (Str.contains "_firmware" (entity_id_of u))
                  && Str.contains "_update" (entity_id_of u)
               then [spec_hub_workload py ip ha_name u] else [])),
   s).
Proof.
  unfold entity_ok, ha_update, spec_hub_workload, spec_hub_status,
    spec_hub_state, spec_shows_latest, attribute_of, entity_id_of.
  destruct u as [| | | | | | d]; try discriminate.
  cbn [py_getitem py_get get_default].
  destruct (lookup "entity_id" d) as [[| | | | eid | |] |]; try discriminate.
  destruct (lookup "state" d) as [state |]; try discriminate.
  destruct (opt_default (PDict []) (lookup "attributes" d))
    as [| | | | | | attrs]; try discriminate.
  intros _. unfold bind, lift, ret, py_get, py_in, py_remove, get_default.
  cbn iota beta. cbn [py_str opt_default].
  destruct (truthy (opt_default PNone (lookup "title" attrs)));
    cbn [negb andb]; [| now rewrite app_nil_r].
  destruct (Str.contains "_firmware" eid);
    cbn [negb andb]; [now rewrite app_nil_r |].
  destruct (Str.contains "_update" eid);
    cbn [negb andb]; [| now rewrite app_nil_r].
  reflexivity.
Qed.

Lemma scan_homeassistant_run ha_cfg scan_id s ha_config states :
  http_json world (calls s) (hub_config_request py ha_cfg)
  = inr (PDict ha_config) ->
  http_json world (calls s ++ [hub_config_request py ha_cfg])
    (hub_states_request py ha_cfg) = inr (PList states) ->
  forallb entity_ok states = true ->
  scan_homeassistant py world ha_cfg scan_id s =
  (Ok (mkHaResult
         (map (spec_hub_workload py (ha_ip ha_cfg)
                 (opt_default (PStr "Home Assistant")
                    (lookup "location_name" ha_config)))
            (filter spec_hub_selected states))
         PNone),
   add_calls s [hub_config_request py ha_cfg; hub_states_request py ha_cfg]).
Proof.
  intros Hcfg Hstates Hok.
  unfold scan_homeassistant, hub_config_request, hub_states_request in *.
  cbn zeta.
  unfold bind at 1, try_except at 1, bind at 1, http_call at 1.
  rewrite Hcfg. cbn iota beta. unfold ret at 1. cbn iota beta.
  unfold bind at 1, try_except at 1, bind at 1, http_call at 1.
  cbn [log_call calls]. rewrite Hstates. cbn iota beta.
  unfold ret at 1. cbn iota beta.
  cbn [py_get lift py_iter]. unfold bind at 1, ret at 1. cbn iota beta.
  unfold bind at 1, ret at 1. cbn iota beta.
  unfold bind at 1.
  rewrite (for_fold_pure_on entity_ok _
             (fun acc u => acc ++ (if Str.startswith (entity_id_of u) "update."
                                   then [u] else []))
             states ha_is_update_run Hok).
  rewrite fold_left_collect. cbn [app].
  rewrite (flat_map_filter_map (fun u => Str.startswith (entity_id_of u) "update.")
             (fun u => u)), map_id.
  unfold bind at 1.
  rewrite (for_fold_pure_on entity_ok _ _ _
             (ha_update_run (ha_ip ha_cfg) _) (forallb_filter _ _ _ Hok)).
  rewrite fold_left_collect. cbn [app].
  rewrite (flat_map_filter_map
             (fun u => truthy (attribute_of u "title" PNone)
                       && negb (Str.contains "_firmware" (entity_id_of u))
                       && Str.contains "_update" (entity_id_of u))).
  rewrite filter_filter. unfold ret, add_calls, log_call. cbn.
  rewrite <- app_assoc. cbn [app].
  do 4 f_equal. apply filter_ext. intros u. unfold spec_hub_selected.
  now rewrite !andb_assoc.
Qed.

(** ** What a program has added when it returns *)

Lemma returns_weaken {A} (m : M A) (Post Post' : A -> _ -> _ -> Prop) :
  (forall a cs es, Post a cs es -> Post' a cs es) ->
  returns m Post -> returns m Post'.
Proof.
  intros Himp Hm s a s' Hrun.
  destruct (Hm s a s' Hrun) as (cs & es & E & HP). eauto.
Qed.

Lemma returns_ret {A} (a : A) (Post : A -> _ -> _ -> Prop) :
  Post a [] [] -> returns (ret a) Post.
Proof.
  intros HP s a' s' [= <- <-]. exists [], [].
  split; [| exact HP]. destruct s; cbn. now rewrite !app_nil_r.
Qed.

Lemma returns_raise {A} e (Post : A -> _ -> _ -> Prop) :
  returns (raise e) Post.
Proof. intros s a s' [=]. Qed.

Lemma returns_bind {A B} (m : M A) (k : A -> M B)
    (Mid : A -> _ -> _ -> Prop) (Post : B -> _ -> _ -> Prop) :
  returns m Mid ->
  (forall a cs es,
      Mid a cs es ->
      returns (k a) (fun b cs' es' => Post b (cs ++ cs') (es ++ es'))) ->
  returns (bind m k) Post.
Proof.
  intros Hm Hk s b s2 Hrun.
  destruct (bind_inv_ok _ _ _ _ _ Hrun) as (a & s1 & H1 & H2).
  destruct (Hm _ _ _ H1) as (cs & es & E1 & HMid).
  destruct (Hk _ _ _ HMid _ _ _ H2) as (cs' & es' & E2 & HPost).
  exists (cs ++ cs'), (es ++ es'). split; [| exact HPost].
  rewrite E2, E1. cbn. now rewrite !app_assoc.
Qed.

Lemma returns_of_adds {A} (P : Call -> Prop) (Q : ScanError -> Prop) (m : M A) :
  adds P Q never m ->
  returns m (fun _ cs es => Forall P cs /\ Forall Q es).
Proof.
  intros Hadd s a s' Hrun.
  destruct (Hadd s) as (cs & es & rs & E & Fc & Fe & Fr).
  rewrite Hrun in E. cbn in E.
  destruct rs as [| r rs]; [| inversion Fr as [| ? ? Hr]; destruct Hr].
  rewrite app_nil_r in E. exists cs, es. auto.
Qed.


(** A loop with an invariant over the items already visited. *)
Lemma returns_for_fold {A S} (body : S -> A -> M S)
    (Inv : list A -> S -> list Call -> list ScanError -> Prop) l :
  (forall visited x acc cs es,
      Inv visited acc cs es ->
      returns (body acc x)
        (fun acc' cs' es' => Inv (visited ++ [x]) acc' (cs ++ cs') (es ++ es'))) ->
  forall acc, Inv [] acc [] [] -> returns (for_fold body acc l) (Inv l).
Proof.
  intros Hbody.
  assert (G : forall rest visited acc cs es,
             Inv visited acc cs es ->
             returns (for_fold body acc rest)
               (fun acc' cs' es' =>
                  Inv (visited ++ rest) acc' (cs ++ cs') (es ++ es'))).
  { induction rest as [| x rest IH]; intros visited acc cs es HI;
      cbn [for_fold].
    - apply returns_ret. now rewrite !app_nil_r.
    - eapply returns_bind; [apply (Hbody _ _ _ _ _ HI) |].
      cbn beta. intros acc' cs' es' HI'.
      eapply returns_weaken; [| apply (IH _ _ _ _ HI')].
      cbn beta. intros a cs2 es2.
      now rewrite <- !app_assoc. }
  intros acc HI. apply (G l [] acc [] [] HI).
Qed.

(** ** The table of running guests *)

Lemma dict_set_in {V} (k k' : pyval) (v v' : V) d :
  In (k, v) (dict_set k' v' d) -> In (k, v) d \/ v = v'.
Proof.
  induction d as [| [k0 v0] r IH]; cbn.
  - intros [[= <- <-] | []]. now right.
  - destruct (key_eqb k0 k').
    + intros [[= <- <-] | H]; [now right | left; now right].
    + intros [H | H]; [left; now left |].
      destruct (IH H); [left; now right | now right].
Qed.

Lemma dict_set_fresh {V} (k' : pyval) (v' : V) d :
  (forall k v, In (k, v) d -> key_eqb k k' = false) ->
  dict_set k' v' d = d ++ [(k', v')].
Proof.
  induction d as [| [k0 v0] r IH]; cbn; [reflexivity |].
  intros Hf. rewrite (Hf k0 v0 (or_introl eq_refl)).
  rewrite IH; [reflexivity |]. intros k v H. apply (Hf k v). now right.
Qed.

Lemma running_status res :
  eq_str (get_default res "status" PNone) "running" = true <->
  get_default res "status" (PStr "") = PStr "running".
Proof.
  unfold get_default.
  destruct res as [| | | | | | d]; cbn; try (split; discriminate).
  destruct (lookup "status" d) as [v |]; cbn; [| split; discriminate].
  destruct v; cbn; try (split; discriminate).
  split.
  - intros H. apply String.eqb_eq in H. now subst.
  - intros [= ->]. reflexivity.
Qed.

Lemma tracked_key res n :
  get_default res "vmid" (PInt 0) = PInt n ->
  get_default res "vmid" PNone = PInt n
  \/ (get_default res "vmid" PNone = PNone /\ n = 0).
Proof.
  unfold get_default. destruct res as [| | | | | | d]; cbn;
    try (intros [= <-]; now right).
  destruct (lookup "vmid" d); cbn; [now left | intros [= <-]; now right].
Qed.

Lemma keys_apart k k' n n' :
  (k = PInt n \/ (k = PNone /\ n = 0)) ->
  (k' = PInt n' \/ (k' = PNone /\ n' = 0)) ->
  n <> n' -> key_eqb k k' = false.
Proof.
  intros [-> | [-> ->]] [-> | [-> ->]] Hne; cbn; try reflexivity.
  - rewrite !Z.mul_1_r. now apply Z.eqb_neq.
  - contradiction.
Qed.

Lemma running_at_mono guests guests' a :
  (forall g, In g guests -> In g guests') ->
  running_at guests a -> running_at guests' a.
Proof. intros Hsub (g & Hin & H). exists g. split; auto. Qed.

Lemma distinct_ids_cons g guests :
  distinct_ids (g :: guests) ->
  distinct_ids guests
  /\ exists n, guest_id g = Some n
               /\ forall g0, In g0 guests -> guest_id g0 <> Some n.
Proof.
  intros [Hsome Hnd]. cbn in Hnd. inversion Hnd as [| ? ? Hnotin Hnd']; subst.
  split; [split; [intros; apply Hsome; now right | exact Hnd'] |].
  destruct (guest_id g) as [n |] eqn:E.
  - exists n. split; [reflexivity |]. intros g0 Hin Heq.
    apply Hnotin. rewrite <- Heq. now apply in_map.
  - exfalso. apply (Hsome g); [now left | exact E].
Qed.

Lemma distinct_ids_perm guests guests' :
  Permutation guests' guests -> distinct_ids guests' -> distinct_ids guests.
Proof.
  intros Hp [Hsome Hnd]. split.
  - intros g Hin. apply Hsome. eapply Permutation_in; [| exact Hin].
    now apply Permutation_sym.
  - eapply Permutation_NoDup; [| exact Hnd]. now apply Permutation_map.
Qed.

(** One resource more: the record [g] joins the guests, and the table is
    what [track_running] makes of it. *)
Lemma table_ok_step res o g guests guests' table table' :
  lookup "status" g = Some (get_default res "status" (PStr "")) ->
  lookup "ip_address" g = Some (opt_str o) ->
  lookup "vmid" g = Some (get_default res "vmid" (PInt 0)) ->
  Permutation guests' (g :: guests) ->
  track_running py res o table = inr table' ->
  table_ok guests table -> table_ok guests' table'.
Proof.
  intros Hst Hip Hid Hperm Htrack [Hsound Hcomplete].
  assert (Hsub : forall g0, In g0 guests -> In g0 guests').
  { intros g0 Hin. eapply Permutation_in;
      [apply Permutation_sym; exact Hperm | now right]. }
  assert (Hnew : In g guests').
  { eapply Permutation_in; [apply Permutation_sym; exact Hperm | now left]. }
  assert (Hinv : forall g0, In g0 guests' -> g0 = g \/ In g0 guests).
  { intros g0 Hin. apply (Permutation_in _ Hperm) in Hin.
    destruct Hin; [left; congruence | now right]. }
  unfold track_running in Htrack.
  destruct o as [a' |].
  2: { injection Htrack as <-. split.
       - intros k a Hin. eapply running_at_mono; eauto.
       - intros Hd. apply (distinct_ids_perm _ _ Hperm) in Hd.
         apply distinct_ids_cons in Hd. destruct Hd as [Hd _].
         destruct (Hcomplete Hd) as [Hkeys Hall]. split.
         + intros k a Hin. destruct (Hkeys k a Hin) as (g0 & Hg0 & Hk).
           exists g0. auto.
         + intros a (g0 & Hin & Hrun & Haddr & Hne).
           destruct (Hinv _ Hin) as [-> | Hold].
           * rewrite Hip in Haddr. discriminate.
           * apply Hall. exists g0. auto. }
  destruct (negb (String.eqb a' "")
            && eq_str (get_default res "status" PNone) "running") eqn:Hcond.
  - apply andb_prop in Hcond. destruct Hcond as [Hne Hrun].
    apply negb_true_iff, String.eqb_neq in Hne.
    apply running_status in Hrun.
    destruct (hashable _); [| discriminate]. injection Htrack as <-.
    assert (Hg : running_at guests' a').
    { exists g. repeat split; trivial. now rewrite Hst, Hrun. }
    split.
    + intros k a Hin. destruct (dict_set_in _ _ _ _ _ Hin) as [Hold | ->].
      * eapply running_at_mono; eauto.
      * exact Hg.
    + intros Hd. apply (distinct_ids_perm _ _ Hperm) in Hd.
      apply distinct_ids_cons in Hd.
      destruct Hd as [Hd (n & Hn & Hfresh)].
      destruct (Hcomplete Hd) as [Hkeys Hall].
      assert (Hkey : key_of (get_default res "vmid" PNone) g).
      { exists n. split; [exact Hn |]. apply tracked_key.
        unfold guest_id in Hn. rewrite Hid in Hn.
        destruct (get_default res "vmid" (PInt 0)); congruence. }
      rewrite dict_set_fresh.
      2: { intros k v Hin. destruct (Hkeys k v Hin) as (g0 & Hg0 & n0 & Hn0 & Hk).
           destruct Hkey as (n1 & Hn1 & Hk1).
           eapply keys_apart; eauto.
           intros ->. apply (Hfresh g0 Hg0). congruence. }
      split.
      * intros k a Hin. apply in_app_or in Hin.
        destruct Hin as [Hold | [[= <- <-] | []]].
        -- destruct (Hkeys k a Hold) as (g0 & Hg0 & Hk). exists g0. auto.
        -- exists g. auto.
      * intros a (g0 & Hin & Hrun0 & Haddr & Hne0).
        destruct (Hinv _ Hin) as [-> | Hold].
        -- rewrite Hip in Haddr. injection Haddr as <-.
           exists (get_default res "vmid" PNone).
           apply in_or_app. right. now left.
        -- destruct (Hall a) as [k Hk]; [exists g0; auto |].
           exists k. apply in_or_app. now left.
  - injection Htrack as <-.
    assert (Hnot : ~ (lookup "status" g = Some (PStr "running")
                      /\ a' <> EmptyString)).
    { intros [Hrun Hne]. rewrite Hst in Hrun. injection Hrun as Hrun.
      apply running_status in Hrun. rewrite Hrun, andb_true_r in Hcond.
      apply negb_false_iff, String.eqb_eq in Hcond. contradiction. }
    split.
    + intros k a Hin. eapply running_at_mono; eauto.
    + intros Hd. apply (distinct_ids_perm _ _ Hperm) in Hd.
      apply distinct_ids_cons in Hd. destruct Hd as [Hd _].
      destruct (Hcomplete Hd) as [Hkeys Hall]. split.
      * intros k a Hin. destruct (Hkeys k a Hin) as (g0 & Hg0 & Hk).
        exists g0. auto.
      * intros a (g0 & Hin & Hrun0 & Haddr & Hne0).
        destruct (Hinv _ Hin) as [-> | Hold].
        -- rewrite Hip in Haddr. injection Haddr as <-.
           exfalso. apply Hnot. auto.
        -- apply Hall. exists g0. auto.
Qed.

Lemma adds_calls_only {A} (P : Call -> Prop) (m : M A) s o s1 :
  adds P never never m -> m s = (o, s1) ->
  exists cs, s1 = add_calls s cs /\ Forall P cs.
Proof.
  intros Hadd Hrun. destruct (Hadd s) as (cs & es & rs & E & Fc & Fe & Fr).
  rewrite Hrun in E. cbn in E.
  destruct es as [| e es]; [| inversion Fe as [| ? ? He]; destruct He].
  destruct rs as [| r rs]; [| inversion Fr as [| ? ? Hr]; destruct Hr].
  rewrite !app_nil_r in E. exists cs. now split.
Qed.

Lemma perm_vm (g : pydict) vs ls :
  Permutation ((vs ++ [g]) ++ ls) (g :: vs ++ ls).
Proof.
  rewrite <- app_assoc. cbn. apply Permutation_sym, Permutation_middle.
Qed.

Lemma perm_lxc (g : pydict) vs ls :
  Permutation (vs ++ ls ++ [g]) (g :: vs ++ ls).
Proof.
  rewrite app_assoc. apply Permutation_sym, Permutation_cons_append.
Qed.

Lemma store_same_calls s cs :
  add_calls s cs
  = mkStore (errors_list s ++ []) (calls s ++ cs) (all_results s).
Proof. unfold add_calls. now rewrite app_nil_r. Qed.

(** One turn of the resource loop asks the hypervisor only, records no
    error, and keeps the table in step with the guest records. *)
Lemma process_resource_returns ip port ticket node_name acc res :
  table_ok (guests_of acc) (guest_ips acc) ->
  returns (process_resource py world ip port ticket node_name acc res)
    (fun acc' cs es =>
       Forall is_http cs /\ es = []
       /\ table_ok (guests_of acc') (guest_ips acc')).
Proof.
  intros Hok s acc' s' Hrun. unfold process_resource in Hrun.
  unfold bind at 1 in Hrun.
  destruct (py_get py res "type" (PStr "")) as [e | res_type];
    cbn [lift raise ret] in Hrun; [discriminate |].
  assert (Hstay : forall a : Resources,
             table_ok (guests_of a) (guest_ips a) ->
             (Ok a, s) = (Ok acc', s') ->
             exists cs es,
               s' = mkStore (errors_list s ++ es) (calls s ++ cs)
                      (all_results s)
               /\ Forall is_http cs /\ es = []
               /\ table_ok (guests_of acc') (guest_ips acc')).
  { intros a Ha [= <- <-]. exists [], []. rewrite !app_nil_r.
    destruct s; cbn. auto. }
  assert (Hguest : forall kind (build : option string -> pydict)
                          (put : pydict -> list (pyval * string) -> Resources),
             (forall o, lookup "status" (build o)
                        = Some (get_default res "status" (PStr ""))) ->
             (forall o, lookup "ip_address" (build o) = Some (opt_str o)) ->
             (forall o, lookup "vmid" (build o)
                        = Some (get_default res "vmid" (PInt 0))) ->
             (forall g t, Permutation (guests_of (put g t))
                            (g :: guests_of acc)) ->
             (forall g t, guest_ips (put g t) = t) ->
             bind (get_guest_ip_from_proxmox py world ip port ticket node_name
                     kind (get_default res "vmid" PNone))
               (fun o =>
                  bind (lift (track_running py res o (guest_ips acc)))
                    (fun table => ret (put (build o) table))) s
             = (Ok acc', s') ->
             exists cs es,
               s' = mkStore (errors_list s ++ es) (calls s ++ cs)
                      (all_results s)
               /\ Forall is_http cs /\ es = []
               /\ table_ok (guests_of acc') (guest_ips acc')).
  { intros kind build put Hst Hip Hid Hperm Htab Hb.
    apply bind_inv_ok in Hb. destruct Hb as (o & s1 & H1 & H2).
    destruct (adds_calls_only is_http _ _ _ _
                (adds_get_guest_ip _ _ _ _ _ _ _ _ _ (fun c H => H)) H1)
      as (cs & -> & Fc).
    unfold bind in H2.
    destruct (track_running py res o (guest_ips acc)) as [e | table] eqn:Ht;
      cbn [lift raise ret] in H2; [discriminate |].
    injection H2 as <- <-.
    exists cs, []. split; [apply store_same_calls |].
    split; [exact Fc | split; [reflexivity |]].
    rewrite Htab.
    eapply table_ok_step; eauto. }
  destruct (eq_str res_type "qemu").
  { apply (Hguest "qemu"%string (vm_record ip node_name res)
             (fun g t => mkResources (r_vms acc ++ [g]) (r_lxcs acc)
                           (r_storage acc) t)); try reflexivity;
      [| exact Hrun].
    intros g t. apply perm_vm. }
  destruct (eq_str res_type "lxc").
  { apply (Hguest "lxc"%string (lxc_record ip node_name res)
             (fun g t => mkResources (r_vms acc) (r_lxcs acc ++ [g])
                           (r_storage acc) t)); try reflexivity;
      [| exact Hrun].
    intros g t. apply perm_lxc. }
  destruct (eq_str res_type "storage");
    (eapply Hstay; [| exact Hrun]); exact Hok.
Qed.

Lemma table_ok_empty : table_ok [] [].
Proof.
  split.
  - intros k a [].
  - intros _. split.
    + intros k a [].
    + intros a (g & [] & _).
Qed.

Lemma process_resources_returns ip port ticket node_name items :
  returns
    (for_fold (process_resource py world ip port ticket node_name)
       (mkResources [] [] [] []) items)
    (fun res cs es =>
       Forall is_http cs /\ es = []
       /\ table_ok (guests_of res) (guest_ips res)).
Proof.
  apply (returns_for_fold _
           (fun _ res cs es =>
              Forall is_http cs /\ es = []
              /\ table_ok (guests_of res) (guest_ips res))).
  - intros visited x acc cs es (Fc & -> & Hok).
    eapply returns_weaken; [| apply (process_resource_returns _ _ _ _ _ _ Hok)].
    cbn beta. intros acc' cs' es' (Fc' & -> & Hok').
    split; [now apply Forall_app | split; [reflexivity | exact Hok']].
  - split; [constructor | split; [reflexivity | apply table_ok_empty]].
Qed.

(** ** The container step of a host scan *)

Ltac adds_leaf ::=
  match goal with
  | |- adds _ _ _ (proxmox_api _ _ _ _ _ _) =>
      apply adds_proxmox_api; first [assumption | exact (fun c H => H) | idtac]
  | |- adds _ _ _ (proxmox_authenticate _ _ _ _ _ _) =>
      apply adds_proxmox_authenticate;
      first [assumption | exact (fun c H => H) | idtac]
  | |- adds _ _ _ (get_guest_ip_from_proxmox _ _ _ _ _ _ _ _) =>
      apply adds_get_guest_ip; first [assumption | exact (fun c H => H) | idtac]
  | |- adds _ _ _ (try_ssh_exec _ _ _ _ _ _) =>
      apply adds_try_ssh_exec; first [assumption | idtac]
  | |- adds _ _ _ (scan_docker_on_host _ _ _ _ _) =>
      apply adds_scan_docker_on_host; first [assumption | idtac]
  end.





Lemma skipped_spec a skip :
  existsb (String.eqb a) skip = true <-> In a skip.
Proof.
  rewrite existsb_exists. split.
  - intros (x & Hin & He). apply String.eqb_eq in He. now subst.
  - intros Hin. exists a. split; [exact Hin | apply String.eqb_refl].
Qed.



(** ** Inventories, counted *)









Lemma unskipped_spec skip a : unskipped skip a = true <-> ~ In a skip.
Proof.
  unfold unskipped. rewrite negb_true_iff. split.
  - intros H Hin. apply skipped_spec in Hin. congruence.
  - intros H. destruct (existsb (String.eqb a) skip) eqn:E; [| reflexivity].
    apply skipped_spec in E. contradiction.
Qed.



(** ** The table, counted *)









(** ** A host scan in its two phases *)




Lemma occurrences_in a l : (0 < occurrences a l)%nat <-> In a l.
Proof.
  unfold occurrences. induction l as [| x r IH]; cbn [filter In].
  - cbn. split; [lia | contradiction].
  - destruct (String.eqb_spec a x) as [-> | Hne]; cbn [List.length].
    + split; [now left | lia].
    + rewrite IH. split; [now right | intros [H | H]; congruence].
Qed.







(** ** Two runs that differ in their identifiers *)

Lemma same_but_ids_refl s : same_but_ids s s.
Proof. now repeat split. Qed.

Lemma alike_ret {A} (a : A) : alike (ret a) (ret a).
Proof. intros s1 s2 H. now split. Qed.

Lemma alike_raise {A} e : alike (@raise A e) (raise e).
Proof. intros s1 s2 H. now split. Qed.

Lemma alike_lift {A} (r : exn + A) : alike (lift r) (lift r).
Proof. destruct r; [apply alike_raise | apply alike_ret]. Qed.

Lemma alike_bind {A B} (m1 m2 : M A) (k1 k2 : A -> M B) :
  alike m1 m2 -> (forall a, alike (k1 a) (k2 a)) ->
  alike (bind m1 k1) (bind m2 k2).
Proof.
  intros Hm Hk s1 s2 H. unfold bind.
  destruct (Hm s1 s2 H) as [Ho Hs].
  destruct (m1 s1) as [[a1 | e1] t1], (m2 s2) as [[a2 | e2] t2];
    cbn [fst snd] in *; try discriminate.
  - injection Ho as <-. now apply Hk.
  - injection Ho as <-. now split.
Qed.

Lemma alike_try_except {A} (m1 m2 : M A) (h1 h2 : exn -> M A) :
  alike m1 m2 -> (forall e, alike (h1 e) (h2 e)) ->
  alike (try_except m1 h1) (try_except m2 h2).
Proof.
  intros Hm Hh s1 s2 H. unfold try_except.
  destruct (Hm s1 s2 H) as [Ho Hs].
  destruct (m1 s1) as [[a1 | e1] t1], (m2 s2) as [[a2 | e2] t2];
    cbn [fst snd] in *; try discriminate.
  - injection Ho as <-. now split.
  - injection Ho as <-. now apply Hh.
Qed.

Lemma alike_try_except_json {A} (m1 m2 h1 h2 : M A) :
  alike m1 m2 -> alike h1 h2 ->
  alike (try_except_json m1 h1) (try_except_json m2 h2).
Proof.
  intros Hm Hh s1 s2 H. unfold try_except_json.
  destruct (Hm s1 s2 H) as [Ho Hs].
  destruct (m1 s1) as [[a1 | e1] t1], (m2 s2) as [[a2 | e2] t2];
    cbn [fst snd] in *; try discriminate.
  - injection Ho as <-. now split.
  - injection Ho as <-.
    destruct (is_json_decode_error e1); [now apply Hh | now split].
Qed.

Lemma same_but_ids_log c s1 s2 :
  same_but_ids s1 s2 -> same_but_ids (log_call c s1) (log_call c s2).
Proof.
  intros (Hc & Hr & He). unfold log_call. repeat split; cbn; congruence.
Qed.

Lemma alike_http_call c : alike (http_call world c) (http_call world c).
Proof.
  intros s1 s2 H. unfold http_call. destruct H as (Hc & Hr & He).
  rewrite Hc. destruct (http_json _ _ _); cbn;
    (split; [reflexivity | now apply same_but_ids_log]).
Qed.

Lemma alike_ssh_call c : alike (ssh_call world c) (ssh_call world c).
Proof.
  intros s1 s2 H. unfold ssh_call. destruct H as (Hc & Hr & He).
  rewrite Hc. destruct (ssh_stdout _ _ _); cbn;
    (split; [reflexivity | now apply same_but_ids_log]).
Qed.

Lemma alike_subprocess_call c :
  alike (subprocess_call world c) (subprocess_call world c).
Proof.
  intros s1 s2 H. unfold subprocess_call. destruct H as (Hc & Hr & He).
  rewrite Hc. destruct (subprocess_run _ _ _); cbn;
    (split; [reflexivity | now apply same_but_ids_log]).
Qed.

Lemma alike_append_error e1 e2 :
  unlabelled e1 = unlabelled e2 ->
  alike (append_error e1) (append_error e2).
Proof.
  intros He s1 s2 (Hc & Hr & Hm). split; [reflexivity |].
  repeat split; cbn; try assumption.
  rewrite !map_app. cbn. congruence.
Qed.

Lemma alike_append_result r : alike (append_result r) (append_result r).
Proof.
  intros s1 s2 (Hc & Hr & Hm). split; [reflexivity |].
  repeat split; cbn; congruence.
Qed.

Lemma alike_for_first {A B} (b1 b2 : A -> M (option B)) l :
  (forall x, alike (b1 x) (b2 x)) -> alike (for_first b1 l) (for_first b2 l).
Proof.
  intros Hb. induction l as [| x r IH]; cbn [for_first].
  - apply alike_ret.
  - apply alike_bind; [apply Hb |]. intros [b |]; [apply alike_ret | exact IH].
Qed.

Lemma alike_for_fold {A S} (b1 b2 : S -> A -> M S) l :
  (forall acc x, alike (b1 acc x) (b2 acc x)) ->
  forall acc, alike (for_fold b1 acc l) (for_fold b2 acc l).
Proof.
  intros Hb. induction l as [| x r IH]; intros acc; cbn [for_fold].
  - apply alike_ret.
  - apply alike_bind; [apply Hb | intros; apply IH].
Qed.

Lemma alike_for_each {A} (b1 b2 : A -> M unit) l :
  (forall x, alike (b1 x) (b2 x)) -> alike (for_each b1 l) (for_each b2 l).
Proof.
  intros Hb. induction l as [| x r IH]; cbn [for_each].
  - apply alike_ret.
  - apply alike_bind; [apply Hb | intros; exact IH].
Qed.

Ltac alike_leaf := fail.

Ltac alike_step_tac :=
  first
    [ alike_leaf
    | match goal with
      | |- alike (ret _) (ret _) => apply alike_ret
      | |- alike (raise _) (raise _) => apply alike_raise
      | |- alike (lift _) (lift _) => apply alike_lift
      | |- alike (http_call _ _) (http_call _ _) => apply alike_http_call
      | |- alike (ssh_call _ _) (ssh_call _ _) => apply alike_ssh_call
      | |- alike (subprocess_call _ _) (subprocess_call _ _) =>
          apply alike_subprocess_call
      | |- alike (append_error _) (append_error _) =>
          apply alike_append_error; reflexivity
      | |- alike (append_result _) (append_result _) =>
          apply alike_append_result
      | |- alike (for_first _ _) (for_first _ _) => apply alike_for_first
      | |- alike (for_fold _ _ _) (for_fold _ _ _) => apply alike_for_fold
      | |- alike (for_each _ _) (for_each _ _) => apply alike_for_each
      | |- alike (try_except _ _) (try_except _ _) => apply alike_try_except
      | |- alike (try_except_json _ _) (try_except_json _ _) =>
          apply alike_try_except_json
      | |- alike (bind _ _) (bind _ _) => apply alike_bind
      | |- alike (if ?b then _ else _) (if ?b then _ else _) => destruct b
      | |- alike (match ?x with _ => _ end) (match ?x with _ => _ end) =>
          destruct x
      | |- forall _, _ => intro
      end ].

Ltac alike_tac := repeat alike_step_tac.

Lemma alike_proxmox_api host_ip port ticket endpoint :
  alike (proxmox_api py world host_ip port ticket endpoint)
    (proxmox_api py world host_ip port ticket endpoint).
Proof. unfold proxmox_api. alike_tac. Qed.

Lemma alike_get_guest_ip host_ip port ticket node_name vmtype vmid :
  alike
    (get_guest_ip_from_proxmox py world host_ip port ticket node_name vmtype
       vmid)
    (get_guest_ip_from_proxmox py world host_ip port ticket node_name vmtype
       vmid).
Proof.
  unfold get_guest_ip_from_proxmox, proxmox_api, agent_iface, agent_address,
    config_entry, config_part, live_iface.
  alike_tac.
Qed.

Lemma alike_try_ssh_exec ip ssh_config command id1 id2 component :
  alike (try_ssh_exec world ip ssh_config command id1 component)
    (try_ssh_exec world ip ssh_config command id2 component).
Proof.
  unfold try_ssh_exec. apply alike_bind.
  - generalize (@None exn).
    induction (users_to_try ssh_config) as [| user rest IH]; intros last;
      cbn [ssh_attempts]; [apply alike_ret |].
    apply alike_bind; [unfold ssh_exec; alike_tac |].
    intros [out | e]; [apply alike_ret | apply IH].
  - alike_tac.
Qed.

Ltac alike_leaf ::=
  match goal with
  | |- alike (proxmox_api _ _ _ _ _ _) (proxmox_api _ _ _ _ _ _) =>
      apply alike_proxmox_api
  | |- alike (get_guest_ip_from_proxmox _ _ _ _ _ _ _ _)
         (get_guest_ip_from_proxmox _ _ _ _ _ _ _ _) =>
      apply alike_get_guest_ip
  | |- alike (try_ssh_exec _ _ _ _ _ _) (try_ssh_exec _ _ _ _ _ _) =>
      apply alike_try_ssh_exec
  end.

Lemma alike_scan_docker_on_host ip ssh_config id1 id2 :
  alike (scan_docker_on_host py world ip ssh_config id1)
    (scan_docker_on_host py world ip ssh_config id2).
Proof.
  unfold scan_docker_on_host, docker_line, container_record. alike_tac.
Qed.

Lemma alike_scan_homeassistant ha_cfg id1 id2 :
  alike (scan_homeassistant py world ha_cfg id1)
    (scan_homeassistant py world ha_cfg id2).
Proof.
  unfold scan_homeassistant, ha_is_update, ha_update. cbn zeta. alike_tac.
Qed.

Ltac alike_leaf ::=
  match goal with
  | |- alike (proxmox_api _ _ _ _ _ _) (proxmox_api _ _ _ _ _ _) =>
      apply alike_proxmox_api
  | |- alike (get_guest_ip_from_proxmox _ _ _ _ _ _ _ _)
         (get_guest_ip_from_proxmox _ _ _ _ _ _ _ _) =>
      apply alike_get_guest_ip
  | |- alike (try_ssh_exec _ _ _ _ _ _) (try_ssh_exec _ _ _ _ _ _) =>
      apply alike_try_ssh_exec
  | |- alike (scan_docker_on_host _ _ _ _ _) (scan_docker_on_host _ _ _ _ _) =>
      apply alike_scan_docker_on_host
  | |- alike (scan_homeassistant _ _ _ _) (scan_homeassistant _ _ _ _) =>
      apply alike_scan_homeassistant
  end.

Lemma alike_scan_proxmox_host host_cfg ssh_config id1 id2 o :
  alike (scan_proxmox_host py world host_cfg ssh_config id1 o)
    (scan_proxmox_host py world host_cfg ssh_config id2 o).
Proof.
  unfold scan_proxmox_host, proxmox_authenticate, scan_authenticated,
    host_record, process_resource, scan_host_network, scan_host_docker,
    scan_guest_docker.
  cbn zeta. alike_tac.
Qed.

Lemma alike_run_scan config id1 id2 :
  alike (run_scan py world config id1) (run_scan py world config id2).
Proof.
  unfold run_scan, scan_one_host, scan_one_hub, scan_local_docker, local_line,
    container_record.
  alike_tac; apply alike_scan_proxmox_host.
Qed.

Lemma unlabelled_same_length (l1 l2 : list ScanError) :
  map unlabelled l1 = map unlabelled l2 -> List.length l1 = List.length l2.
Proof.
  intros H. rewrite <- (length_map unlabelled l1), H. apply length_map.
Qed.

(** C9. Two runs of [main] on the same configuration, answered by the
    same world, produce the same dataset, the same counts and the same
    exit code, and error logs that are equal once the run identifier is
    taken off every error; the identifier and the measured duration are
    all that may differ. *)
Theorem runs_differ_in_identifiers_only config id1 id2 elapsed1 elapsed2 :
  let r1 := main py world config id1 elapsed1 in
  let r2 := main py world config id2 elapsed2 in
  dataset r1 = dataset r2
  /\ map unlabelled (error_log r1) = map unlabelled (error_log r2)
  /\ hosts_scanned r1 = hosts_scanned r2
  /\ vms_found r1 = vms_found r2
  /\ lxc_found r1 = lxc_found r2
  /\ docker_found r1 = docker_found r2
  /\ errors_count r1 = errors_count r2
  /\ exit_code r1 = exit_code r2.
Proof.
  cbn zeta. unfold main. cbn [dataset error_log hosts_scanned vms_found
                               lxc_found docker_found errors_count exit_code].
  destruct (alike_run_scan config id1 id2 (mkStore [] [] []) (mkStore [] [] [])
              (same_but_ids_refl _)) as [_ (Hc & Hr & He)].
  rewrite Hr. repeat split; trivial.
  - now apply unlabelled_same_length.
  - destruct (errors_list (snd (run_scan py world config id1 _))),
      (errors_list (snd (run_scan py world config id2 _)));
      cbn in He; congruence.
Qed.

(** C5, as the code has it.  When both hub requests succeed and the state
    listing is well formed, the inventory holds one record per selected
    entity, in listing order: the entities whose identifier starts with
    [update.], whose title is non-empty, and whose identifier contains
    [_update] but not [_firmware].  The state of a record is
    [unavailable] for an unavailable entity, [update_available] for an
    entity that is [on], and [running] otherwise; its status is [v] and
    the installed version, followed by [ -> ] and the latest version
    exactly when the entity is [on] and its latest version is not empty. *)
Theorem hub_selects_update_entities ha_cfg scan_id s ha_config states :
  http_json world (calls s) (hub_config_request py ha_cfg)
  = inr (PDict ha_config) ->
  http_json world (calls s ++ [hub_config_request py ha_cfg])
    (hub_states_request py ha_cfg) = inr (PList states) ->
  forallb entity_ok states = true ->
  let ha_name :=
    opt_default (PStr "Home Assistant") (lookup "location_name" ha_config) in
  scan_homeassistant py world ha_cfg scan_id s =
    (Ok (mkHaResult
           (map (spec_hub_workload py (ha_ip ha_cfg) ha_name)
              (filter spec_hub_selected states))
           PNone),
     add_calls s [hub_config_request py ha_cfg; hub_states_request py ha_cfg])
  /\ (forall u,
        lookup "state" (spec_hub_workload py (ha_ip ha_cfg) ha_name u) =
        Some (PStr (if eq_str (get_default u "state" PNone) "unavailable"
                    then "unavailable"
                    else if eq_str (get_default u "state" PNone) "on"
                         then "update_available" else "running")))
  /\ (forall u,
        lookup "status" (spec_hub_workload py (ha_ip ha_cfg) ha_name u) =
        Some (PStr
                ("v" ++ py_str py (attribute_of u "installed_version" (PStr "?"))
                 ++ (if eq_str (get_default u "state" PNone) "on"
                        && truthy (attribute_of u "latest_version" (PStr "?"))
                     then " -> "
                          ++ py_str py
                               (attribute_of u "latest_version" (PStr "?"))
                     else ""))%string)).
Proof.
  intros Hcfg Hstates Hok ha_name. split; [| split].
  - now apply scan_homeassistant_run.
  - intros u. reflexivity.
  - intros u. reflexivity.
Qed.

(** ** The container inventory *)

Lemma container_record_run ip hostname c s :
  is_dict c = true ->
  container_record py ip hostname c s = (Ok (spec_container ip hostname c), s).
Proof. destruct c; try discriminate. reflexivity. Qed.

Lemma docker_line_run ip hostname scan_id acc raw s :
  line_ok py raw = true ->
  docker_line py ip hostname scan_id acc raw s =
  (Ok (acc ++ spec_line_records py ip hostname raw),
   add_errors s (spec_line_errors py scan_id ip raw)).
Proof.
  unfold line_ok, docker_line, spec_line_records, spec_line_errors, add_errors.
  cbn zeta.
  destruct (String.eqb (Str.strip raw) ""); cbn [orb].
  - intros _. rewrite !app_nil_r. now destruct s.
  - unfold try_except_json, bind at 1, loads.
    destruct (json_loads py (Str.strip raw)) as [e | c]; cbn [lift].
    + intros He. cbn. rewrite He. cbn. now rewrite app_nil_r.
    + intros Hd. unfold ret at 1. cbn iota beta. unfold bind.
      rewrite (container_record_run _ _ _ _ Hd).
      unfold ret. rewrite !app_nil_r. now destruct s.
Qed.

Lemma add_errors_app s es es' :
  add_errors (add_errors s es) es' = add_errors s (es ++ es').
Proof. unfold add_errors. cbn. now rewrite app_assoc. Qed.

Lemma docker_lines_run ip hostname scan_id lines :
  forallb (line_ok py) lines = true ->
  forall acc s,
    for_fold (docker_line py ip hostname scan_id) acc lines s =
    (Ok (acc ++ flat_map (spec_line_records py ip hostname) lines),
     add_errors s (flat_map (spec_line_errors py scan_id ip) lines)).
Proof.
  induction lines as [| raw rest IH]; cbn [forallb for_fold flat_map].
  - intros _ acc s. unfold ret, add_errors. rewrite !app_nil_r. now destruct s.
  - intros [Hraw Hrest]%andb_prop acc s. unfold bind.
    rewrite (docker_line_run _ _ _ _ _ _ Hraw), (IH Hrest), add_errors_app.
    now rewrite app_assoc.
Qed.

(** What the inventory does on a host whose presence check succeeded: no
    engine means an empty inventory and nothing recorded; otherwise, on a
    listing whose lines are blank, refused by the decoder with a
    [JSONDecodeError] or objects, every object line gives a record and
    every refused line one [Docker-Parse] error carrying the stripped
    line. *)
Lemma docker_inventory_of_object_lines ip ssh_config scan_id s check s1 :
  try_ssh_exec world ip ssh_config docker_check_cmd scan_id "Docker" s
  = (Ok (Some check), s1) ->
  (String.eqb check "" || Str.contains "NO_DOCKER" check = true ->
     scan_docker_on_host py world ip ssh_config scan_id s = (Ok [], s1))
  /\ (String.eqb check "" || Str.contains "NO_DOCKER" check = false ->
      forall out s2 h s3,
        try_ssh_exec world ip ssh_config docker_ps_cmd scan_id "Docker" s1
        = (Ok (Some out), s2) ->
        out <> EmptyString ->
        try_ssh_exec world ip ssh_config "hostname" scan_id "Docker" s2
        = (Ok h, s3) ->
        forallb (line_ok py) (Str.split Str.nl (Str.strip out)) = true ->
        scan_docker_on_host py world ip ssh_config scan_id s =
        (Ok (flat_map (spec_line_records py ip (str_or h ip))
               (Str.split Str.nl (Str.strip out))),
         add_errors s3
           (flat_map (spec_line_errors py scan_id ip)
              (Str.split Str.nl (Str.strip out))))).
Proof.
  intros Hcheck. unfold scan_docker_on_host.
  split; unfold bind at 1; rewrite Hcheck; cbn [falsy opt_default].
  - intros ->. reflexivity.
  - intros -> out s2 h s3 Hps Hne Hh Hlines.
    unfold bind at 1. rewrite Hps. cbn [falsy opt_default].
    destruct (String.eqb_spec out ""); [contradiction |].
    unfold bind at 1. rewrite Hh.
    now rewrite (docker_lines_run _ _ _ _ Hlines).
Qed.

(** ** What a program returns *)

Lemma gives_ret {A} (a : A) (V : A -> Prop) : V a -> gives (ret a) V.
Proof. intros HV s a' s' [= <- <-]. exact HV. Qed.

Lemma gives_raise {A} e (V : A -> Prop) : gives (@raise A e) V.
Proof. intros s a s' [=]. Qed.

Lemma gives_any {A} (m : M A) : gives m (fun _ => True).
Proof. intros s a s' _. exact I. Qed.

Lemma gives_weaken {A} (m : M A) (U V : A -> Prop) :
  (forall a, U a -> V a) -> gives m U -> gives m V.
Proof. intros Himp Hm s a s' Hrun. apply Himp, (Hm _ _ _ Hrun). Qed.

Lemma gives_bind {A B} (m : M A) (k : A -> M B) (U : A -> Prop)
    (V : B -> Prop) :
  gives m U -> (forall a, U a -> gives (k a) V) -> gives (bind m k) V.
Proof.
  intros Hm Hk s b s2 Hrun.
  destruct (bind_inv_ok _ _ _ _ _ Hrun) as (a & s1 & H1 & H2).
  exact (Hk a (Hm _ _ _ H1) _ _ _ H2).
Qed.

Lemma gives_try_except {A} (m : M A) (h : exn -> M A) (V : A -> Prop) :
  gives m V -> (forall e, gives (h e) V) -> gives (try_except m h) V.
Proof.
  intros Hm Hh s a s' Hrun. unfold try_except in Hrun.
  destruct (m s) as [[a0 | e] s1] eqn:E.
  - injection Hrun as <- <-. exact (Hm _ _ _ E).
  - exact (Hh e _ _ _ Hrun).
Qed.

Lemma gives_try_except_json {A} (m h : M A) (V : A -> Prop) :
  gives m V -> gives h V -> gives (try_except_json m h) V.
Proof.
  intros Hm Hh s a s' Hrun. unfold try_except_json in Hrun.
  destruct (m s) as [[a0 | e] s1] eqn:E.
  - injection Hrun as <- <-. exact (Hm _ _ _ E).
  - destruct (is_json_decode_error e); [| discriminate].
    exact (Hh _ _ _ Hrun).
Qed.

Lemma gives_for_fold {A S} (body : S -> A -> M S) (Inv : S -> Prop) l :
  (forall acc x, Inv acc -> gives (body acc x) Inv) ->
  forall acc, Inv acc -> gives (for_fold body acc l) Inv.
Proof.
  intros Hb. induction l as [| x r IH]; intros acc HI; cbn [for_fold].
  - now apply gives_ret.
  - eapply gives_bind; [apply (Hb _ _ HI) |]. intros acc' HI'. now apply IH.
Qed.

(** [adds] through a [bind] whose continuation relies on what the first
    part returns. *)
Lemma adds_bind_on {A B} P Q R (m : M A) (k : A -> M B) (V : A -> Prop) :
  gives m V -> adds P Q R m -> (forall a, V a -> adds P Q R (k a)) ->
  adds P Q R (bind m k).
Proof.
  intros Hv Hm Hk s. unfold bind.
  destruct (Hm s) as (cs & es & rs & E & Fc & Fe & Fr).
  destruct (m s) as [[a | e] s1] eqn:Hrun; cbn [snd] in E.
  - destruct (Hk a (Hv _ _ _ Hrun) s1)
      as (cs' & es' & rs' & E' & Fc' & Fe' & Fr').
    exists (cs ++ cs'), (es ++ es'), (rs ++ rs').
    rewrite E', E. cbn. rewrite !app_assoc.
    repeat split; trivial; apply Forall_app; auto.
  - exists cs, es, rs. cbn [snd]. auto.
Qed.

Ltac gives_step :=
  match goal with
  | |- gives (ret _) _ => apply gives_ret
  | |- gives (raise _) _ => apply gives_raise
  | |- gives (lift ?r) _ =>
      destruct r; cbn [lift]; [apply gives_raise | apply gives_ret]
  | |- gives (bind _ _) _ => eapply gives_bind; [apply gives_any | intros ? _]
  | |- gives (try_except _ _) _ => apply gives_try_except
  | |- gives (try_except_json _ _) _ => apply gives_try_except_json
  | |- gives (if ?b then _ else _) _ => destruct b
  | |- gives (match ?x with _ => _ end) _ => destruct x
  | |- forall _, _ => intro
  end.

Ltac gives_tac := repeat gives_step.

(** ** The records the collectors build fit the tables *)

Lemma lookup_app_some k d extra v :
  lookup k d = Some v -> lookup k (d ++ extra) = Some v.
Proof.
  induction d as [| [k' v'] r IH]; cbn; [discriminate |].
  destruct (String.eqb k k'); auto.
Qed.

Lemma complete_app ins d extra :
  complete ins d = true -> complete ins (d ++ extra) = true.
Proof.
  unfold complete. rewrite !forallb_forall. intros H f Hin.
  specialize (H f Hin). destruct f as [k | k default]; [| reflexivity].
  destruct (lookup k d) as [v |] eqn:E; [| discriminate].
  now rewrite (lookup_app_some _ _ extra _ E).
Qed.

Lemma forallb_snoc {A} (p : A -> bool) l x :
  forallb p l = true -> p x = true -> forallb p (l ++ [x]) = true.
Proof. intros Hl Hx. rewrite forallb_app, Hl. cbn. now rewrite Hx. Qed.

Lemma container_record_gives ip hostname c :
  gives (container_record py ip hostname c)
    (fun r => complete insert_docker r = true).
Proof. unfold container_record. gives_tac. reflexivity. Qed.

Lemma docker_line_gives ip hostname scan_id acc raw :
  forallb (complete insert_docker) acc = true ->
  gives (docker_line py ip hostname scan_id acc raw)
    (fun l => forallb (complete insert_docker) l = true).
Proof.
  intros Hacc. unfold docker_line.
  destruct (String.eqb _ _); [now apply gives_ret |].
  apply gives_try_except_json.
  - eapply gives_bind; [apply gives_any | intros c _].
    eapply gives_bind; [apply container_record_gives |].
    cbn beta. intros r Hr. apply gives_ret. now apply forallb_snoc.
  - gives_tac. exact Hacc.
Qed.

(** Every record of a container inventory has the members its row needs. *)
Lemma scan_docker_on_host_gives ip ssh_config scan_id :
  gives (scan_docker_on_host py world ip ssh_config scan_id)
    (fun l => forallb (complete insert_docker) l = true).
Proof.
  unfold scan_docker_on_host.
  eapply gives_bind; [apply gives_any | intros docker_check _].
  destruct (_ || _); [now apply gives_ret |].
  eapply gives_bind; [apply gives_any | intros docker_output _].
  destruct (falsy docker_output); [now apply gives_ret |].
  eapply gives_bind; [apply gives_any | intros h _].
  apply gives_for_fold; [| reflexivity].
  intros acc raw Hacc. now apply docker_line_gives.
Qed.

Lemma ha_update_gives ip ha_name acc u :
  forallb (complete insert_docker) acc = true ->
  gives (ha_update py ip ha_name acc u)
    (fun l => forallb (complete insert_docker) l = true).
Proof.
  intros Hacc. unfold ha_update. gives_tac; try exact Hacc.
  now apply forallb_snoc.
Qed.

Lemma scan_homeassistant_gives ha_cfg scan_id :
  gives (scan_homeassistant py world ha_cfg scan_id)
    (fun r => forallb (complete insert_docker) (ha_docker r) = true).
Proof.
  unfold scan_homeassistant. cbn zeta.
  eapply gives_bind; [apply gives_any | intros [ha_config |] _];
    [| now apply gives_ret].
  eapply gives_bind; [apply gives_any | intros [states |] _];
    [| now apply gives_ret].
  eapply gives_bind; [apply gives_any | intros ha_name _].
  eapply gives_bind; [apply gives_any | intros entities _].
  eapply gives_bind; [apply gives_any | intros updates _].
  eapply gives_bind.
  - apply (gives_for_fold _
             (fun l => forallb (complete insert_docker) l = true));
      [| reflexivity].
    intros acc u Hacc. now apply ha_update_gives.
  - cbn beta. intros found Hfound. now apply gives_ret.
Qed.

Lemma host_record_gives ip node_name version_data node :
  gives (host_record py ip node_name version_data node)
    (fun h => complete insert_host h = true).
Proof. unfold host_record. gives_tac. reflexivity. Qed.

Lemma process_resource_gives ip port ticket node_name acc res :
  resources_complete acc ->
  gives (process_resource py world ip port ticket node_name acc res)
    resources_complete.
Proof.
  intros (Hv & Hl & Hs). unfold process_resource.
  eapply gives_bind; [apply gives_any | intros res_type _].
  destruct (eq_str res_type "qemu").
  { eapply gives_bind; [apply gives_any | intros vm_ip _].
    eapply gives_bind; [apply gives_any | intros table _].
    apply gives_ret. split; [| split]; cbn; trivial.
    now apply forallb_snoc. }
  destruct (eq_str res_type "lxc").
  { eapply gives_bind; [apply gives_any | intros lxc_ip _].
    eapply gives_bind; [apply gives_any | intros table _].
    apply gives_ret. split; [| split]; cbn; trivial.
    now apply forallb_snoc. }
  destruct (eq_str res_type "storage").
  - apply gives_ret. split; [| split]; cbn; trivial.
    now apply forallb_snoc.
  - apply gives_ret. now split; [| split].
Qed.

Lemma network_loop_complete ip node_name acc l :
  forallb (complete insert_network) acc = true ->
  forallb (complete insert_network)
    (fst (network_loop py ip node_name acc l)) = true.
Proof.
  revert acc. induction l as [| iface r IH]; intros acc Hacc;
    cbn [network_loop]; [exact Hacc |].
  destruct (py_get py iface "iface" (PStr "")) as [e | name]; [exact Hacc |].
  apply IH. now apply forallb_snoc.
Qed.

Lemma scan_host_network_gives ip port ticket node_name scan_id :
  gives (scan_host_network py world ip port ticket node_name scan_id)
    (fun l => forallb (complete insert_network) l = true).
Proof.
  unfold scan_host_network. cbn zeta.
  eapply gives_bind; [apply gives_any | intros [e | net_data] _].
  - gives_tac. reflexivity.
  - destruct net_data; try (now apply gives_ret).
    pose proof (network_loop_complete ip node_name [] items eq_refl) as H.
    destruct (network_loop py ip node_name [] items) as [entries [e |]];
      cbn [fst] in H; gives_tac; exact H.
Qed.

Lemma scan_host_docker_gives ip ssh_config scan_id o table :
  gives (scan_host_docker py world ip ssh_config scan_id o table)
    (fun l => forallb (complete insert_docker) l = true).
Proof.
  unfold scan_host_docker.
  destruct (opt_default true (scan_docker o)); [| now apply gives_ret].
  eapply gives_bind; [apply scan_docker_on_host_gives |].
  cbn beta. intros found Hfound.
  destruct (opt_default true (ssh_into_guests o)); [| now apply gives_ret].
  apply gives_for_fold; [| exact Hfound].
  intros acc [k a] Hacc. unfold scan_guest_docker. cbn [snd].
  destruct (existsb _ _); [now apply gives_ret |].
  eapply gives_bind; [apply scan_docker_on_host_gives |].
  cbn beta. intros guest Hguest. apply gives_ret.
  now rewrite forallb_app, Hacc, Hguest.
Qed.

Lemma empty_result_complete : result_complete empty_result = true.
Proof. reflexivity. Qed.

Lemma complete_host_truthy h :
  complete insert_host h = true -> truthy (PDict h) = true.
Proof. destruct h; [discriminate | reflexivity]. Qed.

Lemma scan_authenticated_gives ip port ticket version_data ssh_config
    scan_id o :
  gives (scan_authenticated py world ip port ticket version_data ssh_config
           scan_id o)
    (fun r => result_complete r = true).
Proof.
  unfold scan_authenticated.
  eapply gives_bind; [apply gives_any | intros [nodes |] _];
    [| now apply gives_ret].
  destruct (negb (truthy nodes)); [now apply gives_ret |].
  eapply gives_bind; [apply gives_any | intros node_name _].
  eapply gives_bind; [apply host_record_gives |].
  cbn beta. intros host0 Hhost.
  eapply gives_bind; [apply gives_any | intros kernel _].
  eapply gives_bind; [apply gives_any | intros resources _].
  eapply gives_bind; [apply gives_any | intros items _].
  eapply gives_bind.
  { apply (gives_for_fold _ resources_complete);
      [| now split; [| split]].
    intros acc res Hacc. now apply process_resource_gives. }
  cbn beta. intros res (Hv & Hl & Hs).
  eapply gives_bind with (U := fun l => forallb (complete insert_network) l = true).
  { destruct (opt_default true (scan_network o));
      [apply scan_host_network_gives | now apply gives_ret]. }
  cbn beta. intros net Hnet.
  eapply gives_bind; [apply scan_host_docker_gives |].
  cbn beta. intros dock Hdock. apply gives_ret.
  unfold result_complete. cbn [host vms lxcs docker storage network].
  rewrite Hv, Hl, Hs, Hnet, Hdock.
  destruct (falsy kernel); [now rewrite Hhost |].
  now rewrite (complete_app _ _ _ Hhost).
Qed.

(** Whatever a host answers, the result of its scan has every member
    its rows need. *)
Lemma scan_proxmox_host_gives host_cfg ssh_config scan_id o :
  gives (scan_proxmox_host py world host_cfg ssh_config scan_id o)
    (fun r => result_complete r = true).
Proof.
  unfold scan_proxmox_host. cbn zeta.
  eapply gives_bind; [apply gives_any | intros [[ticket csrf] |] _];
    [| now apply gives_ret].
  eapply gives_bind; [apply gives_any | intros version_data _].
  apply scan_authenticated_gives.
Qed.

(** ** The collection as a whole *)

Lemma in_names names c :
  existsb (String.eqb c) names = true -> In c names.
Proof.
  rewrite existsb_exists. intros (x & Hin & He).
  apply String.eqb_eq in He. now subst.
Qed.

Lemma filed_more names names' scan_id e :
  forallb (fun c => existsb (String.eqb c) names') names = true ->
  filed names scan_id e -> filed names' scan_id e.
Proof.
  intros Hsub [Hs Hc]. split; [exact Hs |].
  rewrite forallb_forall in Hsub. now apply in_names, Hsub.
Qed.

Lemma adds_weaken {A} (P : Call -> Prop) (Q Q' : ScanError -> Prop) R
    (m : M A) :
  (forall e, Q e -> Q' e) -> adds P Q R m -> adds P Q' R m.
Proof.
  intros Himp Hm s. destruct (Hm s) as (cs & es & rs & E & Fc & Fe & Fr).
  exists cs, es, rs. repeat split; trivial.
  eapply Forall_impl; [| exact Fe]. exact Himp.
Qed.

Ltac filed_tac :=
  match goal with
  | |- True => exact I
  | H : docker_error _ _ ?e |- filed _ _ ?e =>
      let Hc := fresh "Hc" in
      let Hs := fresh "Hs" in
      destruct H as (_ & Hs & [Hc | Hc]);
      (split; [exact Hs | rewrite Hc; apply in_names; reflexivity])
  | Hc : err_component ?e = _, Hs : err_scan_id ?e = _ |- filed _ _ ?e =>
      split; [exact Hs | rewrite Hc; apply in_names; reflexivity]
  | |- filed _ _ _ => split; [reflexivity | apply in_names; reflexivity]
  | |- forall c : Call, _ => intros; exact I
  | |- forall e, err_host_ip e = _ -> err_component e = _ ->
                 err_scan_id e = _ -> filed _ _ e =>
      let e := fresh "e" in
      let Hc := fresh "Hc" in
      let Hs := fresh "Hs" in
      intros e _ Hc Hs; split;
      [exact Hs | rewrite Hc; apply in_names; reflexivity]
  | |- forall e, docker_error _ _ e -> filed _ _ e =>
      let e := fresh "e" in
      let Hc := fresh "Hc" in
      let Hs := fresh "Hs" in
      intros e (_ & Hs & [Hc | Hc]);
      (split; [exact Hs | rewrite Hc; apply in_names; reflexivity])
  end.

(** A host scan files its errors under the run and under one of seven
    components, and appends no result itself. *)
Lemma adds_scan_proxmox_host R host_cfg ssh_config scan_id o :
  adds (fun _ => True) (filed host_components scan_id) R
    (scan_proxmox_host py world host_cfg ssh_config scan_id o).
Proof.
  unfold scan_proxmox_host, scan_authenticated, host_record,
    process_resource, scan_host_network, scan_host_docker,
    scan_guest_docker.
  adds_tac; try filed_tac.
Qed.

Lemma adds_scan_homeassistant R ha_cfg scan_id :
  adds (fun _ => True) (filed hub_components scan_id) R
    (scan_homeassistant py world ha_cfg scan_id).
Proof.
  unfold scan_homeassistant, ha_is_update, ha_update.
  adds_tac; try filed_tac.
Qed.

(** What the collection adds: errors filed under the run, and results
    that have every member their rows need. *)
Lemma adds_run_scan config scan_id :
  adds (fun _ => True) (run_error scan_id)
    (fun r => result_complete r = true)
    (run_scan py world config scan_id).
Proof.
  unfold run_scan, run_error.
  apply adds_bind; [| intros _; apply adds_bind; [| intros _]].
  - apply adds_for_each. intros host_cfg. unfold scan_one_host.
    apply adds_try_except.
    + eapply adds_bind_on; [apply scan_proxmox_host_gives | |].
      * eapply adds_weaken; [| apply adds_scan_proxmox_host].
        intros e. now apply filed_more.
      * cbn beta. intros r Hr. now apply adds_append_result.
    + intros e. apply adds_append_error. filed_tac.
  - apply adds_for_each. intros ha_cfg. unfold scan_one_hub.
    apply adds_try_except.
    + eapply adds_bind_on; [apply scan_homeassistant_gives | |].
      * eapply adds_weaken; [| apply adds_scan_homeassistant].
        intros e. now apply filed_more.
      * cbn beta. intros r Hr. apply adds_append_result.
        unfold result_complete, docker_only.
        cbn [host vms lxcs docker storage network forallb andb].
        now rewrite Hr.
    + intros e. apply adds_append_error. filed_tac.
  - unfold scan_local_docker. apply adds_try_except.
    + apply adds_bind; [adds_tac; filed_tac |]. intros docker_check.
      destruct (_ =? _); [| apply adds_ret].
      apply adds_bind; [adds_tac; filed_tac |]. intros docker_ps.
      destruct (negb _); [| apply adds_ret].
      apply adds_for_each. intros raw. unfold local_line.
      destruct (negb _); [| apply adds_ret].
      apply adds_try_except_json; [| apply adds_ret].
      apply adds_bind; [apply adds_lift |]. intros c.
      eapply adds_bind_on;
        [apply container_record_gives
        | unfold container_record; adds_tac |].
      cbn beta. intros r Hr. apply adds_append_result.
      unfold result_complete, docker_only.
      cbn [host vms lxcs docker storage network forallb andb].
      now rewrite Hr.
    + intros e. apply adds_append_error. filed_tac.
Qed.

Lemma for_each_total {A} (body : A -> M unit) l :
  (forall x s, exists s', body x s = (Ok tt, s')) ->
  forall s, exists s', for_each body l s = (Ok tt, s').
Proof.
  intros Hb. induction l as [| x r IH]; intros s; cbn [for_each].
  - now exists s.
  - unfold bind. destruct (Hb x s) as (s1 & ->). apply IH.
Qed.

Lemma guarded_total (m : M unit) (h : exn -> ScanError) s :
  exists s', try_except m (fun e => append_error (h e)) s = (Ok tt, s').
Proof.
  unfold try_except. destruct (m s) as [[[] | e] s1]; [now exists s1 |].
  eexists. reflexivity.
Qed.

(** The collection returns, whatever the world answers. *)
Lemma run_scan_total config scan_id s :
  exists s', run_scan py world config scan_id s = (Ok tt, s').
Proof.
  unfold run_scan, bind.
  destruct (for_each_total (scan_one_host py world config scan_id)
              (proxmox_hosts config)
              (fun x s0 => guarded_total _ _ s0) s) as (s1 & ->).
  destruct (for_each_total (scan_one_hub py world scan_id)
              (homeassistant config)
              (fun x s0 => guarded_total _ _ s0) s1) as (s2 & ->).
  apply guarded_total.
Qed.

(** ** The database *)

Variable db : Database.

Lemma db_bind_ok {A B} (m : D A) (k : A -> D B) log a log' :
  m log = (Ok a, log') -> db_bind m k log = k a log'.
Proof. intros H. unfold db_bind. now rewrite H. Qed.

Lemma db_bind_raise {A B} (m : D A) (k : A -> D B) log e log' :
  m log = (Raise e, log') -> db_bind m k log = (Raise e, log').
Proof. intros H. unfold db_bind. now rewrite H. Qed.

(** *** Reading a tuple *)

Lemma read_fields_length d fs ps :
  read_fields py d fs = inr ps -> List.length ps = List.length fs.
Proof.
  revert ps. induction fs as [| f r IH]; cbn [read_fields]; intros ps H.
  - now injection H as <-.
  - destruct (read_field py d f) as [e | v]; [discriminate |].
    destruct (read_fields py d r) as [e | vs]; [discriminate |].
    injection H as <-. cbn. now rewrite (IH vs).
Qed.

Lemma read_fields_by_name d fs :
  forallb (fun f => match f with
                    | Item k => match lookup k d with
                                | Some _ => true
                                | None => false
                                end
                    | Get _ _ => true
                    end) fs = true ->
  Forall (fun f => match f with
                   | Item _ => True
                   | Get k default => default = column_default k
                   end) fs ->
  read_fields py d fs
  = inr (map (fun c => opt_default (column_default c) (lookup c d))
           (map field_key fs)).
Proof.
  induction fs as [| f r IH]; cbn [read_fields forallb map]; [reflexivity |].
  intros [Hf Hr]%andb_prop Hd. inversion Hd as [| ? ? Hdf Hdr]; subst.
  rewrite (IH Hr Hdr).
  destruct f as [k | k default]; cbn [read_field py_getitem field_key].
  - destruct (lookup k d) as [v |]; [reflexivity | discriminate].
  - now rewrite Hdf.
Qed.

Lemma inserts_by_name :
  by_name insert_host /\ by_name insert_vm /\ by_name insert_lxc
  /\ by_name insert_docker /\ by_name insert_storage
  /\ by_name insert_network.
Proof. repeat split; repeat constructor. Qed.

Lemma row_stmts_spec ins scan_id d :
  by_name ins -> complete ins d = true ->
  row_stmts py ins scan_id d = [spec_row ins scan_id d].
Proof.
  intros (Hp & Hc & Hd) Hcomplete. unfold row_stmts, spec_row.
  rewrite (read_fields_by_name d _ Hcomplete Hd), Hp, Hc. reflexivity.
Qed.


(** *** Running an insert *)

Lemma insert_row_run ins scan_id d log :
  insert_row py db ins scan_id d log =
  match read_fields py d (ins_fields ins) with
  | inl e => (Raise e, log)
  | inr ps =>
      let st := mkStmt (InsertInto (ins_table ins) (ins_columns ins)
                          (ins_placeholders ins))
                  (PInt scan_id :: ps) in
      match db_execute db log st with
      | inl e => (Raise e, log ++ [st])
      | inr _ => (Ok tt, log ++ [st])
      end
  end.
Proof.
  unfold insert_row, db_bind, execute.
  destruct (read_fields py d (ins_fields ins)) as [e | ps]; [reflexivity |].
  cbn. destruct (db_execute db log _); reflexivity.
Qed.

(** *** What a program hands to the server *)









Lemma total_from {A} (f : HostResult -> list A) rs n :
  fold_left (fun n r => (n + List.length (f r))%nat) rs n
  = (n + total f rs)%nat.
Proof.
  unfold total. revert n. induction rs as [| r rs IH]; intros n; cbn.
  - lia.
  - rewrite IH, (IH (List.length (f r))). lia.
Qed.

Lemma total_cons {A} (f : HostResult -> list A) r rs :
  total f (r :: rs) = (List.length (f r) + total f rs)%nat.
Proof. unfold total. cbn. now rewrite total_from. Qed.




(** *** Against a server that accepts every statement *)

Lemma insert_row_spec ins scan_id d log :
  accepting db -> by_name ins -> complete ins d = true ->
  insert_row py db ins scan_id d log
  = (Ok tt, log ++ [spec_row ins scan_id d]).
Proof.
  intros Hacc Hins Hd. rewrite insert_row_run.
  pose proof (row_stmts_spec ins scan_id d Hins Hd) as Hrow.
  unfold row_stmts in Hrow.
  destruct (read_fields py d (ins_fields ins)) as [e | ps];
    [discriminate |].
  assert (Hst : mkStmt (InsertInto (ins_table ins) (ins_columns ins)
                          (ins_placeholders ins)) (PInt scan_id :: ps)
                = spec_row ins scan_id d) by congruence.
  cbn zeta. rewrite Hst.
  destruct (Hacc log (spec_row ins scan_id d)) as [r ->]. reflexivity.
Qed.

Lemma counted_spec ins scan_id l :
  accepting db -> by_name ins -> forallb (complete ins) l = true ->
  forall n log,
    db_for_fold (insert_counted py db ins scan_id) n l log
    = (Ok (n + List.length l)%nat, log ++ map (spec_row ins scan_id) l).
Proof.
  intros Hacc Hins. induction l as [| d r IH];
    cbn [db_for_fold forallb map List.length]; intros Hl n log.
  - unfold db_ret. now rewrite Nat.add_0_r, app_nil_r.
  - apply andb_prop in Hl. destruct Hl as [Hd Hr].
    unfold db_bind at 1, insert_counted, db_bind at 1.
    rewrite (insert_row_spec _ _ _ _ Hacc Hins Hd). cbn iota beta.
    unfold db_ret at 1. cbn iota beta.
    rewrite (IH Hr), <- app_assoc. cbn [app]. do 2 f_equal. lia.
Qed.

Lemma each_spec ins scan_id l :
  accepting db -> by_name ins -> forallb (complete ins) l = true ->
  forall log,
    db_for_each (insert_row py db ins scan_id) l log
    = (Ok tt, log ++ map (spec_row ins scan_id) l).
Proof.
  intros Hacc Hins. induction l as [| d r IH];
    cbn [db_for_each forallb map]; intros Hl log.
  - unfold db_ret. now rewrite app_nil_r.
  - apply andb_prop in Hl. destruct Hl as [Hd Hr].
    unfold db_bind at 1.
    rewrite (insert_row_spec _ _ _ _ Hacc Hins Hd). cbn iota beta.
    rewrite (IH Hr), <- app_assoc. reflexivity.
Qed.

Lemma save_result_spec scan_id a b c r log :
  accepting db -> result_complete r = true ->
  save_result py db scan_id (a, b, c) r log
  = (Ok ((a + List.length (vms r))%nat, (b + List.length (lxcs r))%nat,
         (c + List.length (docker r))%nat),
     log ++ spec_result_rows scan_id r).
Proof.
  intros Hacc Hr. unfold result_complete in Hr.
  repeat (apply andb_prop in Hr; destruct Hr as [Hr ?]).
  destruct inserts_by_name as (Bh & Bv & Bl & Bd & Bs & Bn).
  unfold save_result, spec_result_rows.
  unfold db_bind at 1.
  assert (Hhost :
    match host r with
    | Some h => if truthy (PDict h) then insert_row py db insert_host scan_id h
                else db_ret tt
    | None => db_ret tt
    end log
    = (Ok tt, log ++ match host r with
                     | Some h => [spec_row insert_host scan_id h]
                     | None => []
                     end)).
  { destruct (host r) as [h |].
    - rewrite (complete_host_truthy _ Hr).
      now apply insert_row_spec.
    - unfold db_ret. now rewrite app_nil_r. }
  rewrite Hhost. cbn iota beta.
  unfold db_bind at 1. rewrite counted_spec by assumption. cbn iota beta.
  unfold db_bind at 1. rewrite counted_spec by assumption. cbn iota beta.
  unfold db_bind at 1. rewrite counted_spec by assumption. cbn iota beta.
  unfold db_bind at 1. rewrite each_spec by assumption. cbn iota beta.
  unfold db_bind at 1. rewrite each_spec by assumption. cbn iota beta.
  unfold db_ret. now rewrite <- !app_assoc.
Qed.

Lemma save_results_spec scan_id rs :
  accepting db -> forallb result_complete rs = true ->
  forall a b c log,
    db_for_fold (save_result py db scan_id) (a, b, c) rs log
    = (Ok ((a + total vms rs)%nat, (b + total lxcs rs)%nat,
           (c + total docker rs)%nat),
       log ++ flat_map (spec_result_rows scan_id) rs).
Proof.
  intros Hacc. induction rs as [| r rs IH];
    cbn [db_for_fold forallb flat_map]; intros Hrs a b c log.
  - unfold db_ret, total. cbn. now rewrite !Nat.add_0_r, app_nil_r.
  - apply andb_prop in Hrs. destruct Hrs as [Hr Hrs].
    unfold db_bind at 1. rewrite (save_result_spec _ _ _ _ _ _ Hacc Hr).
    cbn iota beta. rewrite (IH Hrs), !total_cons, <- app_assoc.
    do 2 f_equal. f_equal; [f_equal |]; lia.
Qed.

Lemma errors_spec errors :
  accepting db ->
  forall log,
    db_for_each (fun err => db_bind (execute db (error_row err))
                              (fun _ => db_ret tt)) errors log
    = (Ok tt, log ++ map error_row errors).
Proof.
  intros Hacc. induction errors as [| err r IH];
    cbn [db_for_each map]; intros log.
  - unfold db_ret. now rewrite app_nil_r.
  - unfold db_bind at 1, db_bind at 1, execute.
    destruct (Hacc log (error_row err)) as [reply ->]. cbn iota beta.
    unfold db_ret at 1. cbn iota beta.
    rewrite IH, <- app_assoc. reflexivity.
Qed.

(** X1. Against a server that accepts every statement,
    [save_to_database] returns for results whose records have the
    members their rows read: it inserts, result by result, the host row,
    then the rows of the virtual machines, the container guests, the
    workloads, the storages and the interfaces, and after all results one
    row per logged error in the order of the log.  Each row has as many
    placeholders as its table has columns and binds to every column after
    [scan_id] the record's member of the same name.  The counters
    returned are the numbers of virtual machines, container guests and
    workloads of all results. *)
Theorem save_to_database_rows scan_id results errors log :
  accepting db ->
  forallb result_complete results = true ->
  save_to_database py db scan_id results errors log
  = (Ok (total vms results, total lxcs results, total docker results),
     log ++ flat_map (spec_result_rows scan_id) results
         ++ map error_row errors).
Proof.
  intros Hacc Hrs. unfold save_to_database.
  unfold db_bind at 1. rewrite (save_results_spec _ _ Hacc Hrs).
  cbn iota beta. unfold db_bind at 1. rewrite (errors_spec _ Hacc).
  cbn iota beta. unfold db_ret. now rewrite <- app_assoc.
Qed.

(** *** What every run hands to the server *)

Lemma db_adds_ret {A} P (a : A) : db_adds P (db_ret a).
Proof. intros log. exists []. cbn. now rewrite app_nil_r. Qed.

Lemma db_adds_raise {A} P e : db_adds P (@db_raise A e).
Proof. intros log. exists []. cbn. now rewrite app_nil_r. Qed.

Lemma db_adds_lift {A} P (r : exn + A) : db_adds P (db_lift r).
Proof. destruct r; [apply db_adds_raise | apply db_adds_ret]. Qed.

Lemma db_adds_bind {A B} P (m : D A) (k : A -> D B) :
  db_adds P m -> (forall a, db_adds P (k a)) -> db_adds P (db_bind m k).
Proof.
  intros Hm Hk log. destruct (Hm log) as (sts & E & F). unfold db_bind.
  destruct (m log) as [[a | e] log1]; cbn [snd] in E; subst log1.
  - destruct (Hk a (log ++ sts)) as (sts2 & E2 & F2).
    exists (sts ++ sts2). rewrite E2, app_assoc.
    split; [reflexivity | now apply Forall_app].
  - now exists sts.
Qed.

Lemma db_adds_execute (P : Stmt -> Prop) st : P st -> db_adds P (execute db st).
Proof.
  intros HP log. exists [st]. unfold execute.
  destruct (db_execute db log st); cbn; auto.
Qed.

Lemma db_adds_for_fold {A S} P (body : S -> A -> D S) l :
  (forall acc x, db_adds P (body acc x)) ->
  forall acc, db_adds P (db_for_fold body acc l).
Proof.
  intros Hb. induction l as [| x r IH]; intros acc; cbn [db_for_fold].
  - apply db_adds_ret.
  - apply db_adds_bind; [apply Hb | intros; apply IH].
Qed.

Lemma db_adds_for_each {A} P (body : A -> D unit) l :
  (forall x, db_adds P (body x)) -> db_adds P (db_for_each body l).
Proof.
  intros Hb. induction l as [| x r IH]; cbn [db_for_each].
  - apply db_adds_ret.
  - apply db_adds_bind; [apply Hb | intros; exact IH].
Qed.

Lemma db_adds_insert_row ins scan_id d :
  by_name ins -> db_adds well_bound (insert_row py db ins scan_id d).
Proof.
  intros (Hp & Hc & _) log. rewrite insert_row_run.
  destruct (read_fields py d (ins_fields ins)) as [e | ps] eqn:Hps.
  - exists []. cbn. now rewrite app_nil_r.
  - eexists [_]. cbn zeta.
    split; [destruct (db_execute db log _); reflexivity |].
    constructor; [| constructor]. unfold well_bound. cbn.
    rewrite (read_fields_length _ _ _ Hps), Hp, Hc. cbn.
    now rewrite length_map.
Qed.

Lemma db_adds_save_to_database scan_id rs errors :
  db_adds well_bound (save_to_database py db scan_id rs errors).
Proof.
  destruct inserts_by_name as (Bh & Bv & Bl & Bd & Bs & Bn).
  unfold save_to_database.
  apply db_adds_bind; [| intros totals; apply db_adds_bind].
  - apply db_adds_for_fold. intros [[a b] c] r. unfold save_result.
    repeat first
      [ now apply db_adds_insert_row
      | apply db_adds_ret
      | apply db_adds_bind
      | apply db_adds_for_fold
      | apply db_adds_for_each
      | progress unfold insert_counted
      | match goal with
        | |- db_adds _ (match ?x with _ => _ end) => destruct x
        | |- forall _, _ => intro
        end ].
  - apply db_adds_for_each. intros err.
    apply db_adds_bind; [| intros; apply db_adds_ret].
    apply db_adds_execute. unfold well_bound. cbn. auto.
  - intros _. apply db_adds_ret.
Qed.

Lemma first_column_length rows ids :
  first_column py rows = inr ids -> List.length ids = List.length rows.
Proof.
  revert ids. induction rows as [| row r IH]; cbn [first_column]; intros ids H.
  - now injection H as <-.
  - destruct row as [| id rest]; [discriminate |].
    destruct (first_column py r) as [e | ids']; [discriminate |].
    injection H as <-. cbn. now rewrite (IH ids').
Qed.

Lemma db_adds_cleanup max_scans :
  db_adds (fun st => well_bound st /\ cleanup_stmt st)
    (cleanup_old_scans py db max_scans).
Proof.
  unfold cleanup_old_scans.
  apply db_adds_bind.
  { apply db_adds_execute. split; [reflexivity | now left]. }
  intros reply. apply db_adds_bind; [apply db_adds_lift |].
  intros [| id ids]; [apply db_adds_ret |].
  apply db_adds_bind; [| intros; apply db_adds_ret].
  apply db_adds_execute. split.
  - unfold well_bound. cbn. split; [reflexivity | discriminate].
  - right. eexists. reflexivity.
Qed.

(** The statements after the rows: the update that closes the run, then
    the clean-up. *)
Lemma closing_run st max_scans code log :
  exists cleanup,
    snd (db_bind (execute db st)
           (fun _ => db_bind (cleanup_old_scans py db max_scans)
                       (fun _ => db_ret code)) log)
    = log ++ st :: cleanup
    /\ Forall (fun st => well_bound st /\ cleanup_stmt st) cleanup
    /\ forall c : Z,
         fst (db_bind (execute db st)
                (fun _ => db_bind (cleanup_old_scans py db max_scans)
                            (fun _ => db_ret code)) log) = Ok c ->
         c = code.
Proof.
  unfold db_bind at 1 3, execute.
  destruct (db_execute db log st) as [e | reply]; cbn iota beta.
  - exists []. split; [reflexivity | split; [constructor |]]. intros c [=].
  - destruct (db_adds_cleanup max_scans (log ++ [st])) as (sts & E & F).
    exists sts. unfold db_bind.
    destruct (cleanup_old_scans py db max_scans (log ++ [st]))
      as [[[] | e] log1]; cbn [fst snd] in *; subst log1;
      rewrite <- app_assoc; cbn [app];
      (split; [reflexivity | split; [exact F |]]).
    + now intros c [= <-].
    + intros c [=].
Qed.

Lemma main_db_run config elapsed log :
  main_db py world db config elapsed log =
  match db_execute db log (mkStmt InsertRun []) with
  | inl e => (Raise e, log ++ [mkStmt InsertRun []])
  | inr created =>
      match run_scan py world config (lastrowid created) (mkStore [] [] [])
      with
      | (Raise e, _) => (Raise e, log ++ [mkStmt InsertRun []])
      | (Ok _, s) =>
          save_and_close py db config elapsed (lastrowid created) s
            (log ++ [mkStmt InsertRun []])
      end
  end.
Proof.
  unfold main_db, db_bind, execute.
  destruct (db_execute db log (mkStmt InsertRun [])) as [e | created];
    [reflexivity |].
  cbv beta iota zeta.
  destruct (run_scan py world config (lastrowid created) (mkStore [] [] []))
    as [[[] | e] s]; reflexivity.
Qed.

(** X2. Every statement a run of [main] hands to the server binds as many
    parameters as its text has placeholders, whatever the hosts answer
    and whatever the server replies: an [INSERT] names as many columns as
    it has placeholders and parameters, the closing [UPDATE] binds one
    value per column it sets and the run identifier, the [SELECT] of the
    clean-up binds its offset, and the [DELETE] is only sent with at
    least one identifier and one placeholder for each. *)
Theorem statements_well_bound config elapsed log :
  exists sts,
    snd (main_db py world db config elapsed log) = log ++ sts
    /\ Forall well_bound sts.
Proof.
  rewrite main_db_run.
  assert (Hrun : well_bound (mkStmt InsertRun [])) by reflexivity.
  destruct (db_execute db log (mkStmt InsertRun [])) as [e | created].
  { exists [mkStmt InsertRun []]. cbn. auto. }
  destruct (run_scan py world config (lastrowid created) (mkStore [] [] []))
    as [[[] | e] s].
  2: { exists [mkStmt InsertRun []]. cbn. auto. }
  unfold save_and_close, db_bind at 1.
  destruct (db_adds_save_to_database (lastrowid created) (all_results s)
              (errors_list s) (log ++ [mkStmt InsertRun []]))
    as (rows & E & F).
  destruct (save_to_database py db (lastrowid created) (all_results s)
              (errors_list s) (log ++ [mkStmt InsertRun []]))
    as [[[[a b] c] | e] log1]; cbn [snd] in E; subst log1.
  - cbv beta iota zeta.
    match goal with
    | |- context [db_bind (execute db ?st)
                    (fun _ => db_bind (cleanup_old_scans py db ?m)
                                (fun _ => db_ret ?code))] =>
        destruct (closing_run st m code
                    ((log ++ [mkStmt InsertRun []]) ++ rows))
          as (cleanup & -> & Fc & _);
        exists (mkStmt InsertRun [] :: rows ++ st :: cleanup)
    end.
    split; [now rewrite <- !app_assoc |].
    constructor; [exact Hrun |]. apply Forall_app. split; [exact F |].
    constructor; [reflexivity |].
    eapply Forall_impl; [| exact Fc]. now intros st [H _].
  - exists (mkStmt InsertRun [] :: rows). cbn [snd].
    split; [now rewrite <- app_assoc | now constructor].
Qed.

(** *** Counting rows *)










(** What the collection leaves when it starts from nothing. *)
Lemma run_scan_from_nothing config scan_id :
  exists s,
    run_scan py world config scan_id (mkStore [] [] []) = (Ok tt, s)
    /\ Forall (run_error scan_id) (errors_list s)
    /\ forallb result_complete (all_results s) = true.
Proof.
  destruct (run_scan_total config scan_id (mkStore [] [] [])) as (s & Hs).
  exists s. split; [exact Hs |].
  destruct (adds_run_scan config scan_id (mkStore [] [] []))
    as (cs & es & rs & E & _ & Fe & Fr).
  rewrite Hs in E. cbn in E. subst s. cbn. split; [exact Fe |].
  apply forallb_forall. now apply Forall_forall.
Qed.


(** *** Only the server makes a run fail *)

Lemma raises_from_ret {A} (a : A) : raises_from db (db_ret a).
Proof. intros log e log' [=]. Qed.

Lemma raises_from_execute st : raises_from db (execute db st).
Proof.
  intros log e log'. unfold execute.
  destruct (db_execute db log st) as [e0 | r] eqn:E; intros [= <- <-].
  now exists log, st.
Qed.

Lemma raises_from_bind {A B} (m : D A) (k : A -> D B) :
  raises_from db m -> (forall a, raises_from db (k a)) ->
  raises_from db (db_bind m k).
Proof.
  intros Hm Hk log e log'. unfold db_bind.
  destruct (m log) as [[a | e0] log1] eqn:E.
  - apply Hk.
  - intros [= <- <-]. exact (Hm _ _ _ E).
Qed.

Lemma raises_from_for_fold {A S} (body : S -> A -> D S) l :
  (forall acc x, In x l -> raises_from db (body acc x)) ->
  forall acc, raises_from db (db_for_fold body acc l).
Proof.
  induction l as [| x r IH]; intros Hb acc; cbn [db_for_fold].
  - apply raises_from_ret.
  - apply raises_from_bind; [apply Hb; now left |].
    intros acc'. apply IH. intros; apply Hb. now right.
Qed.

Lemma raises_from_for_each {A} (body : A -> D unit) l :
  (forall x, In x l -> raises_from db (body x)) ->
  raises_from db (db_for_each body l).
Proof.
  induction l as [| x r IH]; intros Hb; cbn [db_for_each].
  - apply raises_from_ret.
  - apply raises_from_bind; [apply Hb; now left |].
    intros _. apply IH. intros; apply Hb. now right.
Qed.

Lemma raises_from_insert_row ins scan_id d :
  by_name ins -> complete ins d = true ->
  raises_from db (insert_row py db ins scan_id d).
Proof.
  intros (_ & _ & Hd) Hc log e log'. rewrite insert_row_run.
  rewrite (read_fields_by_name d _ Hc Hd). cbn zeta.
  match goal with
  | |- context [db_execute db log ?st] =>
      destruct (db_execute db log st) as [e0 | r] eqn:E; intros [= <- <-];
      now exists log, st
  end.
Qed.

Lemma raises_from_save_to_database scan_id rs errors :
  forallb result_complete rs = true ->
  raises_from db (save_to_database py db scan_id rs errors).
Proof.
  intros Hrs. destruct inserts_by_name as (Bh & Bv & Bl & Bd & Bs & Bn).
  rewrite forallb_forall in Hrs.
  unfold save_to_database.
  apply raises_from_bind; [| intros totals; apply raises_from_bind].
  - apply raises_from_for_fold. intros [[a b] c] r Hin.
    specialize (Hrs r Hin). unfold result_complete in Hrs.
    repeat (apply andb_prop in Hrs; destruct Hrs as [Hrs ?]).
    repeat match goal with
           | H : forallb _ _ = true |- _ => rewrite forallb_forall in H
           end.
    unfold save_result.
    apply raises_from_bind.
    { destruct (host r) as [h |]; [| apply raises_from_ret].
      destruct (truthy (PDict h)); [| apply raises_from_ret].
      now apply raises_from_insert_row. }
    intros _.
    repeat first
      [ apply raises_from_ret
      | apply raises_from_bind
      | apply raises_from_for_fold;
        intros ? ? ?; unfold insert_counted;
        apply raises_from_bind;
        [apply raises_from_insert_row; auto | intros; apply raises_from_ret]
      | apply raises_from_for_each;
        intros ? ?; apply raises_from_insert_row; auto
      | intro ].
  - apply raises_from_for_each. intros err _.
    apply raises_from_bind; [apply raises_from_execute |].
    intros; apply raises_from_ret.
  - intros _. apply raises_from_ret.
Qed.

Lemma first_column_total rows :
  ~ In [] rows -> exists ids, first_column py rows = inr ids.
Proof.
  induction rows as [| row r IH]; cbn [first_column]; intros Hne.
  - now exists [].
  - destruct row as [| id rest]; [exfalso; apply Hne; now left |].
    destruct IH as (ids & ->); [intros H; apply Hne; now right |].
    now eexists.
Qed.

Lemma raises_from_cleanup max_scans :
  rows_have_id db -> raises_from db (cleanup_old_scans py db max_scans).
Proof.
  intros Hrows log e log'. unfold cleanup_old_scans, db_bind at 1, execute at 1.
  destruct (db_execute db log _) as [e0 | reply] eqn:E.
  - intros [= <- <-]. now eexists _, _.
  - destruct (first_column_total (fetched reply) (Hrows _ _ _ E))
      as (ids & Hids).
    unfold db_bind at 1. rewrite Hids. cbn [db_lift db_ret].
    destruct ids as [| id ids]; [intros [=] |].
    apply raises_from_bind; [apply raises_from_execute |].
    intros; apply raises_from_ret.
Qed.

(** X4. A run of [main] fails only if the server does.  If the rows the
    server returns all have a first column, an exception that ends
    [main] is the exception the server raised on the last statement
    handed to it: nothing a host, a guest or a hub answers makes the run
    raise, and no record the collectors build lacks a member that its
    row reads.  So against a server that accepts every statement the run
    returns an exit code. *)
Theorem main_fails_only_with_the_server config elapsed log :
  rows_have_id db ->
  (forall e log',
      main_db py world db config elapsed log = (Raise e, log') ->
      exists pre st,
        log' = pre ++ [st] /\ db_execute db pre st = inl e)
  /\ (accepting db ->
      exists code log',
        main_db py world db config elapsed log = (Ok code, log')).
Proof.
  intros Hrows.
  assert (Hfrom : raises_from db (main_db py world db config elapsed)).
  { intros log0 e log'. rewrite main_db_run.
    destruct (db_execute db log0 (mkStmt InsertRun [])) as [e0 | created]
      eqn:E.
    { intros [= <- <-]. now eexists _, _. }
    destruct (run_scan_from_nothing config (lastrowid created))
      as (s & -> & _ & Fr).
    unfold save_and_close.
    apply raises_from_bind; [now apply raises_from_save_to_database |].
    intros [[a b] c]. cbv beta iota zeta.
    apply raises_from_bind; [apply raises_from_execute |]. intros _.
    apply raises_from_bind; [now apply raises_from_cleanup |]. intros _.
    apply raises_from_ret. }
  split; [apply Hfrom |].
  intros Hacc.
  destruct (main_db py world db config elapsed log) as [[code | e] log']
    eqn:Hrun.
  - now exists code, log'.
  - destruct (Hfrom _ _ _ Hrun) as (pre & st & _ & Hfail).
    destruct (Hacc pre st) as [r Hr]. congruence.
Qed.

(** X5. Whatever the hosts, the hubs and the local engine answer, the
    collection part of [main] returns.  It only appends to the error
    log, the call log and the result list, and every error it appends is
    filed under the identifier of the run and under one of the twelve
    component names; so the error log [main] hands on holds only errors
    of its own run. *)
Theorem collection_never_raises config scan_id s :
  (exists s' cs es rs,
      run_scan py world config scan_id s = (Ok tt, s')
      /\ s' = mkStore (errors_list s ++ es) (calls s ++ cs)
                (all_results s ++ rs)
      /\ Forall (fun e => err_scan_id e = scan_id
                          /\ In (err_component e) components) es)
  /\ forall elapsed,
       Forall (fun e => err_scan_id e = scan_id
                        /\ In (err_component e) components)
         (error_log (main py world config scan_id elapsed)).
Proof.
  split.
  - destruct (run_scan_total config scan_id s) as (s' & Hrun).
    destruct (adds_run_scan config scan_id s)
      as (cs & es & rs & E & _ & Fe & _).
    rewrite Hrun in E. cbn [snd] in E.
    exists s', cs, es, rs. auto.
  - intros elapsed. unfold main. cbn [error_log].
    destruct (adds_run_scan config scan_id (mkStore [] [] []))
      as (cs & es & rs & E & _ & Fe & _).
    rewrite E. exact Fe.
Qed.

Lemma filter_none {A} (p : A -> bool) (Q : A -> Prop) l :
  (forall x, Q x -> p x = false) -> Forall Q l -> filter p l = [].
Proof.
  intros Hp. induction 1 as [| x r Hx Hr IH]; cbn; [reflexivity |].
  now rewrite (Hp x Hx).
Qed.

(** One turn of a guarded loop: the scan appends no result and files
    nothing under [name]; its result is appended, or its exception is
    filed under [name]. *)
Lemma guarded_turn {A} (m : M A) (wrap : A -> HostResult)
    (failed : exn -> ScanError) (names : list string) name scan_id s :
  adds (fun _ => True) (filed names scan_id) never m ->
  existsb (String.eqb name) names = false ->
  (forall e, err_component (failed e) = name) ->
  exists s' cs es rs,
    try_except (bind m (fun r => append_result (wrap r)))
      (fun e => append_error (failed e)) s = (Ok tt, s')
    /\ s' = mkStore (errors_list s ++ es) (calls s ++ cs)
              (all_results s ++ rs)
    /\ (List.length rs + List.length (filter (is_component name) es)
        = 1)%nat.
Proof.
  intros Hadd Hname Hfailed.
  destruct (Hadd s) as (cs & es & rs & E & _ & Fe & Fr).
  destruct rs as [| r rs]; [| inversion Fr as [| ? ? Hr]; destruct Hr].
  assert (Hnone : filter (is_component name) es = []).
  { apply (filter_none _ (filed names scan_id)); [| exact Fe].
    intros e [_ Hin]. unfold is_component.
    destruct (String.eqb_spec (err_component e) name) as [Heq |];
      [| reflexivity].
    rewrite Heq in Hin. rewrite <- Hname. symmetry. apply existsb_exists.
    exists name. split; [exact Hin | apply String.eqb_refl]. }
  unfold try_except, bind.
  destruct (m s) as [[r | e] s1]; cbn [snd] in E; subst s1.
  - eexists _, cs, es, [wrap r].
    split; [| split; [reflexivity |]].
    + unfold append_result. cbn. now rewrite app_nil_r.
    + now rewrite Hnone.
  - eexists _, cs, (es ++ [failed e]), [].
    split; [| split; [reflexivity |]].
    + unfold append_error. cbn. now rewrite !app_nil_r, <- app_assoc.
    + rewrite filter_app, Hnone. cbn. unfold is_component.
      now rewrite Hfailed, String.eqb_refl.
Qed.

Lemma guarded_loop {A} (body : A -> M unit) name l :
  (forall x s, exists s' cs es rs,
      body x s = (Ok tt, s')
      /\ s' = mkStore (errors_list s ++ es) (calls s ++ cs)
                (all_results s ++ rs)
      /\ (List.length rs + List.length (filter (is_component name) es)
          = 1)%nat) ->
  forall s, exists s' cs es rs,
    for_each body l s = (Ok tt, s')
    /\ s' = mkStore (errors_list s ++ es) (calls s ++ cs)
              (all_results s ++ rs)
    /\ (List.length rs + List.length (filter (is_component name) es)
        = List.length l)%nat.
Proof.
  intros Hb. induction l as [| x r IH]; intros s; cbn [for_each].
  - exists s, [], [], []. rewrite !app_nil_r. now destruct s.
  - destruct (Hb x s) as (s1 & cs1 & es1 & rs1 & H1 & -> & N1).
    unfold bind. rewrite H1.
    destruct (IH (mkStore (errors_list s ++ es1) (calls s ++ cs1)
                    (all_results s ++ rs1)))
      as (s2 & cs2 & es2 & rs2 & H2 & -> & N2).
    rewrite H2. eexists _, (cs1 ++ cs2), (es1 ++ es2), (rs1 ++ rs2).
    cbn. rewrite !app_assoc.
    split; [reflexivity | split; [reflexivity |]].
    rewrite filter_app, !length_app. lia.
Qed.

(** X6. Every configured host and every configured hub leaves exactly one
    trace of its own: the loop over the hosts appends, for each host,
    either one result or one error filed under [Proxmox-Scan], and the
    loop over the hubs, for each hub, either one result or one error
    filed under [HomeAssistant]; neither loop raises. *)
Theorem hosts_and_hubs_accounted_for config scan_id hosts hubs s :
  (exists s' cs es rs,
      for_each (scan_one_host py world config scan_id) hosts s = (Ok tt, s')
      /\ s' = mkStore (errors_list s ++ es) (calls s ++ cs)
                (all_results s ++ rs)
      /\ (List.length rs
          + List.length (filter (is_component "Proxmox-Scan") es)
          = List.length hosts)%nat)
  /\ (exists s' cs es rs,
        for_each (scan_one_hub py world scan_id) hubs s = (Ok tt, s')
        /\ s' = mkStore (errors_list s ++ es) (calls s ++ cs)
                  (all_results s ++ rs)
        /\ (List.length rs
            + List.length (filter (is_component "HomeAssistant") es)
            = List.length hubs)%nat).
Proof.
  split.
  - apply guarded_loop. intros host_cfg s0. unfold scan_one_host.
    apply (guarded_turn _ (fun r => r) _ host_components _ scan_id);
      [apply adds_scan_proxmox_host | reflexivity | reflexivity].
  - apply guarded_loop. intros ha_cfg s0. unfold scan_one_hub.
    apply (guarded_turn _ (fun r => docker_only (ha_docker r)) _
             hub_components _ scan_id);
      [apply adds_scan_homeassistant | reflexivity | reflexivity].
Qed.

(** ** Early ends *)

(** X7. A machine that cannot be reached over SSH, or that has no
    container engine, costs [scan_docker_on_host] the presence check
    only: when every candidate fails on the check, the inventory is empty
    after one request per candidate and exactly one error filed under
    [Docker]; when the check of the primary user prints nothing or
    mentions [NO_DOCKER], the inventory is empty after that one request
    and nothing is recorded.  In both cases the listing and the host name
    are never asked for. *)
Theorem docker_inventory_stops_early ip ssh_config scan_id s :
  let users := users_to_try ssh_config in
  let request := ssh_request ip ssh_config docker_check_cmd in
  (forall fails : string -> exn,
      (forall log user, In user users ->
         ssh_stdout world log (request user) = inl (fails user)) ->
      scan_docker_on_host py world ip ssh_config scan_id s
      = (Ok [],
         add_error (add_calls s (map request users))
           (ssh_failure scan_id ip "Docker" users
              (Some (fails (List.last users EmptyString))))))
  /\ (forall out,
        ssh_stdout world (calls s) (request (ssh_username ssh_config))
        = inr out ->
        Str.strip out = EmptyString
        \/ Str.contains "NO_DOCKER" (Str.strip out) = true ->
        scan_docker_on_host py world ip ssh_config scan_id s
        = (Ok [], add_calls s [request (ssh_username ssh_config)])).
Proof.
  intros users request. split.
  - intros fails Hfail. unfold scan_docker_on_host, bind at 1.
    rewrite try_ssh_exec_unfold.
    rewrite (ssh_attempts_all_fail ip ssh_config docker_check_cmd fails)
      by exact Hfail.
    fold users request.
    assert (Hne : users <> []) by (unfold users, users_to_try; discriminate).
    destruct users; [contradiction | reflexivity].
  - intros out Hout Hnone. unfold scan_docker_on_host, bind at 1.
    rewrite try_ssh_exec_unfold. unfold users_to_try.
    rewrite ssh_attempts_cons. fold request. rewrite Hout.
    cbn [falsy opt_default].
    destruct Hnone as [-> | ->]; [reflexivity | now rewrite orb_true_r].
Qed.

(** X8. A hub whose configuration or state request fails gets an empty
    inventory and exactly one error, filed under [HomeAssistant-API] or
    [HomeAssistant-States] with the text of the failure; after a failed
    configuration request the states are not asked for.  [main] still
    appends a result for the hub, without any workload. *)
Theorem hub_fetch_failure_ends_hub_scan ha_cfg scan_id s :
  let config_request := hub_config_request py ha_cfg in
  let states_request := hub_states_request py ha_cfg in
  let nothing := mkHaResult [] PNone in
  (forall e,
      http_json world (calls s) config_request = inl e ->
      let s' := add_error (add_calls s [config_request])
                  (ha_failure py scan_id (ha_ip ha_cfg) "HomeAssistant-API"
                     "config" e) in
      scan_homeassistant py world ha_cfg scan_id s = (Ok nothing, s')
      /\ scan_one_hub py world scan_id ha_cfg s
         = (Ok tt, add_result s' (docker_only [])))
  /\ (forall ha_config e,
        http_json world (calls s) config_request = inr ha_config ->
        http_json world (calls s ++ [config_request]) states_request
        = inl e ->
        let s' := add_error (add_calls s [config_request; states_request])
                    (ha_failure py scan_id (ha_ip ha_cfg)
                       "HomeAssistant-States" "states" e) in
        scan_homeassistant py world ha_cfg scan_id s = (Ok nothing, s')
        /\ scan_one_hub py world scan_id ha_cfg s
           = (Ok tt, add_result s' (docker_only []))).
Proof.
  intros config_request states_request nothing.
  assert (Hhub : forall s',
             scan_homeassistant py world ha_cfg scan_id s = (Ok nothing, s') ->
             scan_one_hub py world scan_id ha_cfg s
             = (Ok tt, add_result s' (docker_only []))).
  { intros s' Hrun. unfold scan_one_hub, try_except, bind.
    now rewrite Hrun. }
  subst config_request states_request.
  unfold hub_config_request, hub_states_request.
  split.
  - intros e Hcfg. cbv zeta.
    match goal with |- ?run = (_, ?st) /\ _ => set (s' := st) end.
    assert (Hrun : scan_homeassistant py world ha_cfg scan_id s
                   = (Ok nothing, s')).
    { unfold scan_homeassistant. cbn zeta.
      unfold bind at 1, try_except at 1, bind at 1, http_call at 1.
      rewrite Hcfg. reflexivity. }
    split; [exact Hrun | now apply Hhub].
  - intros ha_config e Hcfg Hstates. cbv zeta.
    match goal with |- ?run = (_, ?st) /\ _ => set (s' := st) end.
    assert (Hrun : scan_homeassistant py world ha_cfg scan_id s
                   = (Ok nothing, s')).
    { unfold scan_homeassistant. cbn zeta.
      unfold bind at 1, try_except at 1, bind at 1, http_call at 1.
      rewrite Hcfg. cbn iota beta.
      unfold ret at 1. cbn iota beta.
      unfold bind at 1, try_except at 1, bind at 1, http_call at 1.
      cbn [log_call calls]. rewrite Hstates.
      cbn. unfold s', add_error, add_calls. cbn.
      now rewrite <- app_assoc. }
    split; [exact Hrun | now apply Hhub].
Qed.

Lemma ha_is_update_good acc u s :
  has_entity_id u = true ->
  exists acc', ha_is_update py acc u s = (Ok acc', s).
Proof.
  destruct u as [| | | | | | d]; try discriminate. cbn [has_entity_id].
  unfold ha_is_update, bind. cbn [py_getitem].
  destruct (lookup "entity_id" d) as [[| | | | eid | |] |]; try discriminate.
  intros _. eexists. reflexivity.
Qed.

Lemma ha_is_update_bad acc u s :
  has_entity_id u = false ->
  exists e,
    ha_is_update py acc u s = (Raise e, s)
    /\ (exn_cls e = KeyError \/ exn_cls e = TypeError
        \/ exn_cls e = AttributeError).
Proof.
  unfold ha_is_update, bind.
  destruct u as [| | | | | | d]; cbn [has_entity_id py_getitem lift raise];
    try (intros _; eexists; split; [reflexivity | cbn; auto]).
  destruct (lookup "entity_id" d) as [[| | | | eid | |] |];
    try discriminate;
    intros _; cbn; eexists; (split; [reflexivity | cbn; auto]).
Qed.

Lemma ha_updates_stop acc good bad rest s :
  forallb has_entity_id good = true -> has_entity_id bad = false ->
  exists e,
    for_fold (ha_is_update py) acc (good ++ bad :: rest) s = (Raise e, s)
    /\ (exn_cls e = KeyError \/ exn_cls e = TypeError
        \/ exn_cls e = AttributeError).
Proof.
  intros Hgood Hbad. revert acc.
  induction good as [| u r IH]; intros acc; cbn [app for_fold].
  - destruct (ha_is_update_bad acc bad s Hbad) as (e & He & Hc).
    exists e. unfold bind. now rewrite He.
  - cbn [forallb] in Hgood. apply andb_prop in Hgood.
    destruct Hgood as [Hu Hr].
    destruct (ha_is_update_good acc u s Hu) as (acc' & Hrun).
    unfold bind. rewrite Hrun. now apply IH.
Qed.

(** X9. One state entry without a text [entity_id] loses a hub its whole
    inventory.  When the states a hub lists hold such an entry, the hub
    scan raises on it ([KeyError], [TypeError] or [AttributeError]) after
    its two requests, whatever update entities stand before or after the
    entry; [main] then appends no result for the hub and files exactly
    one error, under [HomeAssistant]. *)
Theorem hub_malformed_state_drops_inventory ha_cfg scan_id s ha_config
    good bad rest :
  let config_request := hub_config_request py ha_cfg in
  let states_request := hub_states_request py ha_cfg in
  http_json world (calls s) config_request = inr (PDict ha_config) ->
  http_json world (calls s ++ [config_request]) states_request
  = inr (PList (good ++ bad :: rest)) ->
  forallb has_entity_id good = true ->
  has_entity_id bad = false ->
  exists e,
    (exn_cls e = KeyError \/ exn_cls e = TypeError
     \/ exn_cls e = AttributeError)
    /\ scan_homeassistant py world ha_cfg scan_id s
       = (Raise e, add_calls s [config_request; states_request])
    /\ scan_one_hub py world scan_id ha_cfg s
       = (Ok tt,
          add_error (add_calls s [config_request; states_request])
            (hub_error py scan_id ha_cfg e)).
Proof.
  intros config_request states_request Hcfg Hstates Hgood Hbad.
  destruct (ha_updates_stop [] good bad rest
              (add_calls s [config_request; states_request]) Hgood Hbad)
    as (e & Hloop & Hcls).
  exists e. split; [exact Hcls |].
  assert (Hrun : scan_homeassistant py world ha_cfg scan_id s
                 = (Raise e, add_calls s [config_request; states_request])).
  { subst config_request states_request.
    unfold hub_config_request, hub_states_request in *.
    unfold scan_homeassistant. cbn zeta.
    unfold bind at 1, try_except at 1, bind at 1, http_call at 1.
    rewrite Hcfg. cbn iota beta.
    unfold ret at 1. cbn iota beta.
    unfold bind at 1, try_except at 1, bind at 1, http_call at 1.
    cbn [log_call calls]. rewrite Hstates.
    cbn iota beta. unfold ret at 1. cbn iota beta.
    cbn [py_get lift py_iter]. unfold bind at 1, ret at 1. cbn iota beta.
    unfold bind at 1, ret at 1. cbn iota beta.
    unfold bind at 1.
    match goal with
    | |- context [for_fold _ _ _ ?st] =>
        replace st
          with (add_calls s
                  [HttpGetBearer (ha_base_url py ha_cfg ++ "/api/config")
                     (ha_token ha_cfg) 15;
                   HttpGetBearer (ha_base_url py ha_cfg ++ "/api/states")
                     (ha_token ha_cfg) 30])
    end.
    - now rewrite Hloop.
    - unfold log_call, add_calls. cbn. now rewrite <- app_assoc. }
  split; [exact Hrun |].
  unfold scan_one_hub, try_except, bind. now rewrite Hrun.
Qed.

(** ** Authentication and the version *)

(** X10. [proxmox_authenticate] sends one request and returns a ticket and
    a token exactly when the answer is an object whose [data] is an
    object holding both [ticket] and [CSRFPreventionToken].  An answer that
    holds the ticket but no token is therefore an authentication failure
    for the host scan, which ends with the empty result and one error
    filed under [Proxmox-Auth] carrying the [KeyError], although the
    token is never used afterwards. *)
Theorem authentication_needs_ticket_and_token host_cfg s :
  let ip := h_ip host_cfg in
  let port := opt_default 8006 (h_port host_cfg) in
  let request := auth_request py host_cfg in
  (forall ticket csrf s1,
      proxmox_authenticate py world ip port (h_user host_cfg)
        (h_password host_cfg) s = (Ok (ticket, csrf), s1)
      <-> s1 = add_calls s [request]
          /\ exists d dd,
               http_json world (calls s) request = inr (PDict d)
               /\ lookup "data" d = Some (PDict dd)
               /\ lookup "ticket" dd = Some ticket
               /\ lookup "CSRFPreventionToken" dd = Some csrf)
  /\ (forall d dd ticket ssh_config scan_id o,
        http_json world (calls s) request = inr (PDict d) ->
        lookup "data" d = Some (PDict dd) ->
        lookup "ticket" dd = Some ticket ->
        lookup "CSRFPreventionToken" dd = None ->
        scan_proxmox_host py world host_cfg ssh_config scan_id o s
        = (Ok empty_result,
           add_error (add_calls s [request])
             (auth_error py scan_id host_cfg
                (interp_exn py KeyError (PDict dd) "CSRFPreventionToken")))).
Proof.
  intros ip port request.
  assert (Hrun : forall d dd,
             http_json world (calls s) request = inr (PDict d) ->
             lookup "data" d = Some (PDict dd) ->
             proxmox_authenticate py world ip port (h_user host_cfg)
               (h_password host_cfg) s
             = (match lookup "ticket" dd,
                      lookup "CSRFPreventionToken" dd with
                | Some t, Some c => Ok (t, c)
                | Some _, None =>
                    Raise (interp_exn py KeyError (PDict dd)
                             "CSRFPreventionToken")
                | None, _ => Raise (interp_exn py KeyError (PDict dd) "ticket")
                end,
                add_calls s [request])).
  { intros d dd Hresp Hdata.
    unfold proxmox_authenticate, bind at 1, http_call.
    fold ip port. change (HttpPost _ _ _ _) with request. rewrite Hresp.
    cbn iota beta. unfold bind at 1. cbn [py_getitem]. rewrite Hdata.
    cbn [lift ret]. cbn iota beta. unfold bind at 1. cbn [py_getitem].
    destruct (lookup "ticket" dd) as [t |]; [| reflexivity].
    cbn [lift ret]. cbn iota beta. unfold bind at 1.
    destruct (lookup "CSRFPreventionToken" dd) as [c |]; reflexivity. }
  split.
  - intros ticket csrf s1. split.
    + intros Hok.
      pose proof (proxmox_authenticate_calls host_cfg s) as Hcalls.
      fold ip port in Hcalls. rewrite Hok in Hcalls. cbn [snd] in Hcalls.
      split; [exact Hcalls |].
      unfold proxmox_authenticate, bind at 1, http_call in Hok.
      fold ip port in Hok. change (HttpPost _ _ _ _) with request in Hok.
      destruct (http_json world (calls s) request) as [e | resp];
        [discriminate |].
      cbn iota beta in Hok. unfold bind at 1 in Hok.
      destruct resp as [| | | | | | d]; try discriminate.
      cbn [py_getitem] in Hok.
      destruct (lookup "data" d) as [data |] eqn:Hdata; [| discriminate].
      cbn [lift ret] in Hok. cbn iota beta in Hok.
      unfold bind at 1 in Hok.
      destruct data as [| | | | | | dd]; try discriminate.
      cbn [py_getitem] in Hok.
      destruct (lookup "ticket" dd) as [t |] eqn:Ht; [| discriminate].
      cbn [lift ret] in Hok. cbn iota beta in Hok.
      unfold bind at 1 in Hok.
      destruct (lookup "CSRFPreventionToken" dd) as [c |] eqn:Hc;
        [| discriminate].
      cbn in Hok. injection Hok as <- <- _.
      exists d, dd. auto.
    + intros (-> & d & dd & Hresp & Hdata & Ht & Hc).
      rewrite (Hrun d dd Hresp Hdata), Ht, Hc. reflexivity.
  - intros d dd ticket ssh_config scan_id o Hresp Hdata Ht Hc.
    apply scan_proxmox_host_auth_failed. fold ip port.
    rewrite (Hrun d dd Hresp Hdata), Ht, Hc. reflexivity.
Qed.

Lemma scan_authenticated_host_gives (P : pydict -> Prop) ip port ticket
    version_data ssh_config scan_id o :
  (forall node_name node,
      gives (host_record py ip node_name version_data node) P) ->
  (forall h k, P h -> P (h ++ [("kernel_version", k)])) ->
  gives (scan_authenticated py world ip port ticket version_data ssh_config
           scan_id o)
    (fun r => forall h, host r = Some h -> P h).
Proof.
  intros Hrecord Hkernel. unfold scan_authenticated.
  eapply gives_bind; [apply gives_any | intros [nodes |] _];
    [| apply gives_ret; intros h [=]].
  destruct (negb (truthy nodes)); [apply gives_ret; intros h [=] |].
  eapply gives_bind; [apply gives_any | intros node_name _].
  eapply gives_bind; [apply Hrecord |].
  cbn beta. intros host0 Hhost.
  eapply gives_bind; [apply gives_any | intros kernel _].
  eapply gives_bind; [apply gives_any | intros resources _].
  eapply gives_bind; [apply gives_any | intros items _].
  eapply gives_bind; [apply gives_any | intros res _].
  eapply gives_bind; [apply gives_any | intros net _].
  eapply gives_bind; [apply gives_any | intros dock _].
  apply gives_ret. cbn [host]. intros h [= <-].
  destruct (falsy kernel); [exact Hhost | now apply Hkernel].
Qed.

(** X11. A version request that fails is passed over in silence: the host
    scan goes on as with an empty version answer, nothing is added to the
    error log by the authentication and the version request, and the host
    record of a scan that returns one carries the version [unknown]. *)
Theorem version_failure_is_silent host_cfg ssh_config scan_id o s ticket
    csrf s1 e s2 :
  let ip := h_ip host_cfg in
  let port := opt_default 8006 (h_port host_cfg) in
  proxmox_authenticate py world ip port (h_user host_cfg)
    (h_password host_cfg) s = (Ok (ticket, csrf), s1) ->
  proxmox_api py world ip port ticket "/version" s1 = (Raise e, s2) ->
  scan_proxmox_host py world host_cfg ssh_config scan_id o s
  = scan_authenticated py world ip port ticket (PDict []) ssh_config
      scan_id o s2
  /\ errors_list s2 = errors_list s
  /\ forall r s',
       scan_proxmox_host py world host_cfg ssh_config scan_id o s
       = (Ok r, s') ->
       forall h, host r = Some h ->
                 lookup "pve_version" h = Some (PStr "unknown").
Proof.
  intros ip port Hauth Hver.
  assert (Htry : try_except (proxmox_api py world ip port ticket "/version")
                   (fun _ => ret (PDict [])) s1 = (Ok (PDict []), s2)).
  { unfold try_except. now rewrite Hver. }
  pose proof (scan_proxmox_host_authenticated host_cfg ssh_config scan_id o
                s ticket csrf s1 (PDict []) s2 Hauth Htry) as Hscan.
  fold ip port in Hscan.
  split; [exact Hscan | split].
  - pose proof (adds_no_errors is_http never
                  (proxmox_api py world ip port ticket "/version") s1
                  (adds_proxmox_api _ _ _ _ _ _ _ (fun c H => H))) as E2.
    rewrite Hver in E2. cbn [snd] in E2. rewrite E2.
    pose proof (adds_no_errors is_http never
                  (proxmox_authenticate py world ip port (h_user host_cfg)
                     (h_password host_cfg)) s
                  (adds_proxmox_authenticate _ _ _ _ _ _ _ (fun c H => H)))
      as E1.
    now rewrite Hauth in E1.
  - intros r s' Hrun. rewrite Hscan in Hrun.
    refine (scan_authenticated_host_gives
              (fun h => lookup "pve_version" h = Some (PStr "unknown"))
              ip port ticket (PDict []) ssh_config scan_id o _ _ _ _ _ Hrun).
    + intros node_name node s0 h s0' Hrecord.
      unfold host_record, bind in Hrecord. cbn in Hrecord.
      now injection Hrecord as <- _.
    + intros h k Hh. now apply lookup_app_some.
Qed.

(** ** The resource listing *)

Lemma proxmox_api_down ip port ticket endpoint e s :
  (forall log,
      http_json world log (HttpGetCookie (api_url py ip port endpoint) ticket 15)
      = inl e) ->
  proxmox_api py world ip port ticket endpoint s
  = (Raise e,
     add_calls s [HttpGetCookie (api_url py ip port endpoint) ticket 15]).
Proof. intros Hdown. rewrite proxmox_api_run. cbn zeta. now rewrite Hdown. Qed.

Ltac other_component_tac :=
  match goal with
  | |- True => exact I
  | H : docker_error _ _ ?e |- err_component ?e <> _ =>
      let Hc := fresh "Hc" in
      destruct H as (_ & _ & [Hc | Hc]); rewrite Hc; discriminate
  | Hc : err_component ?e = _ |- err_component ?e <> _ =>
      rewrite Hc; discriminate
  | |- err_component _ <> _ => cbn; discriminate
  | |- forall c : Call, _ => intros; exact I
  | |- forall e, err_host_ip e = _ -> err_component e = _ ->
                 err_scan_id e = _ -> err_component e <> _ =>
      let e := fresh "e" in
      let Hc := fresh "Hc" in
      intros e _ Hc _; rewrite Hc; discriminate
  | |- forall e, docker_error _ _ e -> err_component e <> _ =>
      let e := fresh "e" in
      let Hc := fresh "Hc" in
      intros e (_ & _ & [Hc | Hc]); rewrite Hc; discriminate
  end.

(** X12. When the resource listing of a host fails, its scan goes on
    without guests: a scan that returns has no virtual machine, no
    container guest and no storage, and if it recorded the host it also
    filed the failure, once, under [Proxmox-Resources]. *)
Theorem resources_failure_keeps_host ip port ticket version_data ssh_config
    scan_id o e s r s' :
  let failure := api_failure py scan_id ip "Proxmox-Resources"
                   "Failed to get resources from " e in
  let other e := err_component e <> "Proxmox-Resources"%string in
  (forall log,
      http_json world log
        (HttpGetCookie (api_url py ip port "/cluster/resources") ticket 15)
      = inl e) ->
  scan_authenticated py world ip port ticket version_data ssh_config
    scan_id o s = (Ok r, s') ->
  vms r = [] /\ lxcs r = [] /\ storage r = []
  /\ (host r = None
      \/ exists before after,
           errors_list s' = errors_list s ++ before ++ failure :: after
           /\ Forall other before /\ Forall other after).
Proof.
  intros failure other Hdown Hrun.
  set (Post := fun (r : HostResult) (es : list ScanError) =>
                 vms r = [] /\ lxcs r = [] /\ storage r = []
                 /\ (host r = None
                     \/ exists before after,
                          es = before ++ failure :: after
                          /\ Forall other before /\ Forall other after)).
  assert (Hlater : forall es0 r es,
             Forall other es0 -> Post r es -> Post r (es0 ++ es)).
  { intros es0 r0 es H0 (Hv & Hl & Hs & Hh). repeat split; trivial.
    destruct Hh as [Hn | (before & after & -> & Hb & Ha)];
      [now left | right].
    exists (es0 ++ before), after. rewrite <- app_assoc.
    split; [reflexivity | split; [now apply Forall_app | exact Ha]]. }
  assert (H : returns (scan_authenticated py world ip port ticket
                         version_data ssh_config scan_id o)
                (fun r _ es => Post r es)).
  2: { destruct (H _ _ _ Hrun) as (cs & es & -> & Hv & Hl & Hs & Hh).
       cbn [errors_list]. repeat split; trivial.
       destruct Hh as [Hn | (before & after & -> & Hb & Ha)];
         [now left | right]. now exists before, after. }
  clear Hrun.
  assert (Hnone : forall es, Post empty_result es).
  { intros es. repeat split. now left. }
  assert (Hstep : forall A B (m : M A) (k : A -> M B) (Q : B -> _ -> Prop),
             adds (fun _ => True) other never m ->
             (forall es0 b es, Forall other es0 -> Q b es -> Q b (es0 ++ es)) ->
             (forall a, returns (k a) (fun b _ es => Q b es)) ->
             returns (bind m k) (fun b _ es => Q b es)).
  { intros A B m k Q Hadd HQ Hk.
    eapply (returns_bind _ _ (fun _ _ es => Forall other es)).
    - eapply returns_weaken; [| apply (returns_of_adds _ _ _ Hadd)].
      cbn beta. now intros a cs es [_ H].
    - cbn beta. intros a cs es Hes.
      eapply returns_weaken; [| apply Hk]. cbn beta.
      intros b cs' es' Hb. now apply HQ. }
  unfold scan_authenticated.
  apply Hstep; [adds_tac; try unfold other; cbv beta; other_component_tac | exact Hlater |].
  intros [nodes |]; [| apply returns_ret, Hnone].
  destruct (negb (truthy nodes)); [apply returns_ret, Hnone |].
  apply Hstep; [adds_tac | exact Hlater |]. intros node_name.
  apply Hstep; [unfold host_record; adds_tac | exact Hlater |]. intros host0.
  apply Hstep; [adds_tac; try unfold other; cbv beta; other_component_tac | exact Hlater |].
  intros kernel.
  eapply (returns_bind _ _ (fun v _ es => v = PList [] /\ es = [failure])).
  { intros s0 v s1 Hv. unfold try_except in Hv.
    rewrite (proxmox_api_down _ _ _ _ _ _ Hdown) in Hv.
    unfold bind, append_error, ret in Hv. injection Hv as <- <-.
    eexists [_], [failure]. split; [reflexivity | now split]. }
  cbn beta. intros resources cs es [-> ->].
  cbn [py_iter lift]. unfold bind at 1, ret at 1. cbn [for_fold].
  unfold bind at 1, ret at 1.
  eapply returns_weaken
    with (Post := fun r _ es' =>
                    (vms r = [] /\ lxcs r = [] /\ storage r = [])
                    /\ Forall other es').
  { cbn beta. intros r0 cs' es' [(Hv & Hl & Hs) Hes].
    repeat split; trivial. right. exists [], es'. now repeat split. }
  assert (Hshape : forall es0 (b : HostResult) (es : list ScanError),
             Forall other es0 ->
             (vms b = [] /\ lxcs b = [] /\ storage b = [])
             /\ Forall other es ->
             (vms b = [] /\ lxcs b = [] /\ storage b = [])
             /\ Forall other (es0 ++ es)).
  { intros es0 b es0' H0 [Hb He]. split; [exact Hb | now apply Forall_app]. }
  apply Hstep; [| exact Hshape |].
  { destruct (opt_default true (scan_network o)); [| apply adds_ret].
    unfold scan_host_network. adds_tac; try unfold other; cbv beta; other_component_tac. }
  intros net.
  apply Hstep; [| exact Hshape |].
  { unfold scan_host_docker, scan_guest_docker.
    adds_tac; try unfold other; cbv beta; other_component_tac. }
  intros dock. apply returns_ret. cbn. now repeat split.
Qed.

(** ** The network listing *)

Lemma network_loop_good ip node_name good tail :
  forallb is_dict good = true ->
  forall acc,
    network_loop py ip node_name acc (good ++ tail)
    = network_loop py ip node_name
        (acc ++ map (fun iface =>
                       network_record ip node_name iface
                         (get_default iface "iface" (PStr ""))) good)
        tail.
Proof.
  induction good as [| iface r IH]; cbn [app forallb map]; intros Hg acc.
  - now rewrite app_nil_r.
  - apply andb_prop in Hg. destruct Hg as [Hd Hr].
    destruct iface; try discriminate. cbn [network_loop py_get get_default].
    rewrite (IH Hr), <- app_assoc. reflexivity.
Qed.

(** X13. The interfaces of a host are recorded one by one, in the order of
    the listing, and an entry that is no object ends the listing: the
    entries before it keep their records, the entries after it get none,
    and one error is filed under [Network].  A listing of objects only
    gives one record per entry and no error, an answer that is no list
    gives no record and no error, and a request that fails gives no
    record and one error. *)
Theorem network_listing_stops_at_malformed_entry ip port ticket node_name
    scan_id s s1 :
  let fetch := proxmox_api py world ip port ticket
                 ("/nodes/" ++ py_str py node_name ++ "/network") in
  let record iface :=
    network_record ip node_name iface (get_default iface "iface" (PStr "")) in
  let failure := api_failure py scan_id ip "Network"
                   "Failed to get network info from " in
  (forall l,
      fetch s = (Ok (PList l), s1) -> forallb is_dict l = true ->
      scan_host_network py world ip port ticket node_name scan_id s
      = (Ok (map record l), s1))
  /\ (forall good bad rest,
        fetch s = (Ok (PList (good ++ bad :: rest)), s1) ->
        forallb is_dict good = true -> is_dict bad = false ->
        scan_host_network py world ip port ticket node_name scan_id s
        = (Ok (map record good),
           add_error s1 (failure (interp_exn py AttributeError bad "get"))))
  /\ (forall v,
        fetch s = (Ok v, s1) -> is_list v = false ->
        scan_host_network py world ip port ticket node_name scan_id s
        = (Ok [], s1))
  /\ (forall e,
        fetch s = (Raise e, s1) ->
        scan_host_network py world ip port ticket node_name scan_id s
        = (Ok [], add_error s1 (failure e))).
Proof.
  intros fetch record failure.
  assert (Hok : forall v,
             fetch s = (Ok v, s1) ->
             scan_host_network py world ip port ticket node_name scan_id s
             = match v with
               | PList l =>
                   match network_loop py ip node_name [] l with
                   | (entries, None) => (Ok entries, s1)
                   | (entries, Some e) =>
                       (Ok entries, add_error s1 (failure e))
                   end
               | _ => (Ok [], s1)
               end).
  { intros v Hv. unfold scan_host_network. cbn zeta.
    unfold bind at 1, try_except at 1, bind at 1. fold fetch. rewrite Hv.
    cbn iota beta. unfold ret at 1. cbn iota beta.
    destruct v; try reflexivity.
    destruct (network_loop py ip node_name [] items) as [entries [e |]];
      reflexivity. }
  split; [| split; [| split]].
  - intros l Hl Hd. rewrite (Hok _ Hl).
    rewrite <- (app_nil_r l), (network_loop_good _ _ _ _ Hd).
    cbn [network_loop app]. now rewrite app_nil_r.
  - intros good bad rest Hl Hg Hb. rewrite (Hok _ Hl).
    rewrite (network_loop_good _ _ _ _ Hg). cbn [network_loop app].
    destruct bad; try discriminate; reflexivity.
  - intros v Hv Hl. rewrite (Hok _ Hv). destruct v; try reflexivity.
    discriminate.
  - intros e He. unfold scan_host_network. cbn zeta.
    unfold bind at 1, try_except at 1, bind at 1. fold fetch. rewrite He.
    reflexivity.
Qed.

(** ** The resource loop *)

Lemma gives_for_fold_visited {A S} (body : S -> A -> M S)
    (Inv : list A -> S -> Prop) l :
  (forall visited x acc,
      Inv visited acc -> gives (body acc x) (Inv (visited ++ [x]))) ->
  forall acc, Inv [] acc -> gives (for_fold body acc l) (Inv l).
Proof.
  intros Hb.
  assert (G : forall rest visited acc,
             Inv visited acc ->
             gives (for_fold body acc rest) (Inv (visited ++ rest))).
  { induction rest as [| x rest IH]; intros visited acc HI; cbn [for_fold].
    - apply gives_ret. now rewrite app_nil_r.
    - eapply gives_bind; [apply (Hb _ _ _ HI) |]. cbn beta.
      intros acc' HI'. specialize (IH _ _ HI').
      now rewrite <- app_assoc in IH. }
  intros acc HI. exact (G l [] acc HI).
Qed.

Lemma filter_snoc {A} (p : A -> bool) l x :
  filter p (l ++ [x]) = filter p l ++ (if p x then [x] else []).
Proof. rewrite filter_app. cbn. now destruct (p x). Qed.

Lemma Forall2_snoc {A B} (R : A -> B -> Prop) l l' x y :
  Forall2 R l l' -> R x y -> Forall2 R (l ++ [x]) (l' ++ [y]).
Proof. intros H Hxy. apply Forall2_app; [exact H | now constructor]. Qed.

(** X14. The resource loop sorts the listing by type and keeps its order:
    when it returns, the virtual-machine records are those of the [qemu]
    resources, the container-guest records those of the [lxc] resources,
    and the storage records those of the [storage] resources, each in
    the order of the listing; a resource of any other type gets no
    record. *)
Theorem resources_sorted_by_type ip port ticket node_name items s res s' :
  for_fold (process_resource py world ip port ticket node_name)
    (mkResources [] [] [] []) items s = (Ok res, s') ->
  Forall2 (fun item g => exists address, g = vm_record ip node_name item address)
    (filter (of_type "qemu") items) (r_vms res)
  /\ Forall2 (fun item g =>
                exists address, g = lxc_record ip node_name item address)
       (filter (of_type "lxc") items) (r_lxcs res)
  /\ r_storage res
     = map (storage_record ip node_name) (filter (of_type "storage") items).
Proof.
  set (Inv := fun (visited : list pyval) (res : Resources) =>
                Forall2 (fun item g =>
                           exists address,
                             g = vm_record ip node_name item address)
                  (filter (of_type "qemu") visited) (r_vms res)
                /\ Forall2 (fun item g =>
                              exists address,
                                g = lxc_record ip node_name item address)
                     (filter (of_type "lxc") visited) (r_lxcs res)
                /\ r_storage res
                   = map (storage_record ip node_name)
                       (filter (of_type "storage") visited)).
  intros Hrun.
  refine (gives_for_fold_visited _ Inv items _ _ _ _ _ _ Hrun).
  2: { repeat split; constructor. }
  intros visited x acc (Hv & Hl & Hs). unfold process_resource.
  intros s0 acc' s0' Hstep. unfold bind at 1 in Hstep.
  destruct x as [| | | | | | d]; try discriminate.
  cbn [py_get lift ret] in Hstep. cbn iota beta in Hstep.
  unfold Inv. rewrite !filter_snoc. unfold of_type at 2 4 6.
  cbn [get_default].
  destruct (eq_str (opt_default (PStr "") (lookup "type" d)) "qemu") eqn:Hq.
  { assert (Hnl : eq_str (opt_default (PStr "") (lookup "type" d)) "lxc"
                  = false).
    { destruct (opt_default (PStr "") (lookup "type" d)); try reflexivity.
      cbn in *. apply String.eqb_eq in Hq. now subst. }
    assert (Hns : eq_str (opt_default (PStr "") (lookup "type" d)) "storage"
                  = false).
    { destruct (opt_default (PStr "") (lookup "type" d)); try reflexivity.
      cbn in *. apply String.eqb_eq in Hq. now subst. }
    rewrite Hnl, Hns, !app_nil_r.
    apply bind_inv_ok in Hstep. destruct Hstep as (a & s1 & _ & Hstep).
    apply bind_inv_ok in Hstep. destruct Hstep as (t & s2 & _ & Hstep).
    injection Hstep as <- _. cbn [r_vms r_lxcs r_storage].
    split; [| now split]. apply Forall2_snoc; [exact Hv | now exists a]. }
  destruct (eq_str (opt_default (PStr "") (lookup "type" d)) "lxc") eqn:Hx.
  { assert (Hns : eq_str (opt_default (PStr "") (lookup "type" d)) "storage"
                  = false).
    { destruct (opt_default (PStr "") (lookup "type" d)); try reflexivity.
      cbn in *. apply String.eqb_eq in Hx. now subst. }
    rewrite Hns, !app_nil_r.
    apply bind_inv_ok in Hstep. destruct Hstep as (a & s1 & _ & Hstep).
    apply bind_inv_ok in Hstep. destruct Hstep as (t & s2 & _ & Hstep).
    injection Hstep as <- _. cbn [r_vms r_lxcs r_storage].
    split; [exact Hv | split; [| exact Hs]].
    apply Forall2_snoc; [exact Hl | now exists a]. }
  destruct (eq_str (opt_default (PStr "") (lookup "type" d)) "storage").
  - injection Hstep as <- _. cbn [r_vms r_lxcs r_storage].
    rewrite !app_nil_r, map_app, Hs. now repeat split.
  - injection Hstep as <- _. rewrite !app_nil_r. now repeat split.
Qed.

(** ** The local container scan *)

Lemma add_results_nil s : add_results s [] = s.
Proof. destruct s; unfold add_results; cbn. now rewrite app_nil_r. Qed.

Lemma add_results_app s rs rs' :
  add_results (add_results s rs) rs' = add_results s (rs ++ rs').
Proof. unfold add_results. cbn. now rewrite app_assoc. Qed.

Lemma local_line_run hostname raw s :
  line_ok py raw = true ->
  local_line py hostname raw s
  = (Ok tt,
     add_results s
       (map (fun r => docker_only [r])
          (spec_line_records py local_ip hostname raw))).
Proof.
  unfold line_ok, local_line, spec_line_records.
  destruct (String.eqb (Str.strip raw) ""); cbn [orb negb map].
  - intros _. now rewrite add_results_nil.
  - unfold try_except_json, bind at 1, loads.
    destruct (json_loads py (Str.strip raw)) as [e | c]; cbn [lift map].
    + intros He. cbn. rewrite He. now rewrite add_results_nil.
    + intros Hd. unfold ret at 1. cbn iota beta. unfold bind.
      rewrite (container_record_run _ _ _ _ Hd). reflexivity.
Qed.

Lemma local_lines_run hostname lines :
  forallb (line_ok py) lines = true ->
  forall s,
    for_each (local_line py hostname) lines s
    = (Ok tt,
       add_results s
         (map (fun r => docker_only [r])
            (flat_map (spec_line_records py local_ip hostname) lines))).
Proof.
  induction lines as [| raw rest IH]; cbn [forallb for_each flat_map].
  - intros _ s. cbn. now rewrite add_results_nil.
  - intros [Hraw Hrest]%andb_prop s. unfold bind.
    rewrite (local_line_run _ _ _ Hraw), (IH Hrest), add_results_app.
    now rewrite map_app.
Qed.

Lemma strip_blank_lines out :
  Str.strip out = EmptyString ->
  flat_map (spec_line_records py local_ip (gethostname world))
    (Str.split Str.nl (Str.strip out)) = [].
Proof. intros ->. reflexivity. Qed.

Lemma for_each_app {A} (body : A -> M unit) l1 l2 s :
  for_each body (l1 ++ l2) s
  = bind (for_each body l1) (fun _ => for_each body l2) s.
Proof.
  revert s. induction l1 as [| x r IH]; intros s; cbn [app for_each].
  - reflexivity.
  - unfold bind. destruct (body x s) as [[[] | e] s1]; [| reflexivity].
    rewrite IH. reflexivity.
Qed.

Lemma local_line_raises hostname raw e s :
  Str.strip raw <> EmptyString ->
  line_failure py raw = Some e ->
  local_line py hostname raw s = (Raise e, s).
Proof.
  intros Hne Hf. unfold local_line.
  destruct (String.eqb_spec (Str.strip raw) ""); [contradiction |].
  cbn [negb]. unfold try_except_json, bind at 1, loads.
  unfold line_failure in Hf.
  destruct (json_loads py (Str.strip raw)) as [e0 | c]; cbn [lift].
  - cbn. destruct (is_json_decode_error e0); [discriminate |].
    now injection Hf as ->.
  - cbn [ret]. cbn iota beta. unfold bind at 1, container_record, bind.
    destruct c; try discriminate; injection Hf as <-; reflexivity.
Qed.

(** X15. The container scan of the scanner's own machine.  If the engine
    cannot be started the scan files one error under [Docker-Local] and
    adds nothing else; if the engine's presence check exits with another
    code than 0 nothing is added at all and the listing is not asked
    for.  Otherwise every line of the listing that decodes to an object
    becomes a result of its own with one workload record, under the
    fixed address [192.168.178.89] and the machine's host name, in the
    order of the listing; blank lines and lines on which [json.loads]
    raises a [JSONDecodeError] are passed over without an error.  A line
    that decodes to something else than an object, or on which
    [json.loads] raises anything but a [JSONDecodeError], ends the scan
    with one error under [Docker-Local] that carries the exception; the
    results of the lines before it stay and the lines after it are not
    read. *)
Theorem local_engine_scan scan_id s :
  (forall e,
      subprocess_run world (calls s) local_info = inl e ->
      scan_local_docker py world scan_id s
      = (Ok tt, add_error (add_calls s [local_info]) (local_error py scan_id e)))
  /\ (forall code out,
        subprocess_run world (calls s) local_info = inr (code, out) ->
        code <> 0 ->
        scan_local_docker py world scan_id s
        = (Ok tt, add_calls s [local_info]))
  /\ (forall out code listing,
        subprocess_run world (calls s) local_info = inr (0, out) ->
        subprocess_run world (calls s ++ [local_info]) local_listing
        = inr (code, listing) ->
        forallb (line_ok py) (Str.split Str.nl (Str.strip listing)) = true ->
        scan_local_docker py world scan_id s
        = (Ok tt,
           add_results (add_calls s [local_info; local_listing])
             (map (fun r => docker_only [r])
                (flat_map
                   (spec_line_records py local_ip (gethostname world))
                   (Str.split Str.nl (Str.strip listing))))))
  /\ (forall out code listing good bad rest e,
        subprocess_run world (calls s) local_info = inr (0, out) ->
        subprocess_run world (calls s ++ [local_info]) local_listing
        = inr (code, listing) ->
        Str.split Str.nl (Str.strip listing) = good ++ bad :: rest ->
        forallb (line_ok py) good = true ->
        Str.strip bad <> EmptyString ->
        line_failure py bad = Some e ->
        scan_local_docker py world scan_id s
        = (Ok tt,
           add_error
             (add_results (add_calls s [local_info; local_listing])
                (map (fun r => docker_only [r])
                   (flat_map
                      (spec_line_records py local_ip (gethostname world))
                      good)))
             (local_error py scan_id e))).
Proof.
  split; [| split; [| split]].
  - intros e Hinfo. unfold scan_local_docker, try_except, bind at 1,
      subprocess_call. fold local_info. rewrite Hinfo. reflexivity.
  - intros code out Hinfo Hcode. unfold scan_local_docker, try_except,
      bind at 1, subprocess_call at 1. fold local_info. rewrite Hinfo.
    cbn [fst]. apply Z.eqb_neq in Hcode. rewrite Hcode. reflexivity.
  - intros out code listing Hinfo Hps Hlines.
    unfold scan_local_docker, try_except, bind at 1, subprocess_call at 1.
    fold local_info. rewrite Hinfo. cbn [fst Z.eqb].
    unfold bind at 1, subprocess_call. cbn [log_call calls].
    fold local_listing. rewrite Hps. cbn [snd].
    assert (Hstore : log_call local_listing (log_call local_info s)
                     = add_calls s [local_info; local_listing]).
    { unfold log_call, add_calls. cbn. now rewrite <- app_assoc. }
    rewrite Hstore.
    destruct (String.eqb_spec (Str.strip listing) "") as [Hblank | Hne];
      cbn [negb].
    + rewrite (strip_blank_lines _ Hblank). cbn [map].
      now rewrite add_results_nil.
    + now rewrite (local_lines_run _ _ Hlines).
  - intros out code listing good bad rest e Hinfo Hps Hsplit Hgood Hne Hf.
    unfold scan_local_docker, try_except, bind at 1, subprocess_call at 1.
    fold local_info. rewrite Hinfo. cbn [fst Z.eqb].
    unfold bind at 1, subprocess_call. cbn [log_call calls].
    fold local_listing. rewrite Hps. cbn [snd].
    assert (Hstore : log_call local_listing (log_call local_info s)
                     = add_calls s [local_info; local_listing]).
    { unfold log_call, add_calls. cbn. now rewrite <- app_assoc. }
    rewrite Hstore.
    destruct (String.eqb_spec (Str.strip listing) "") as [Hblank | Hnb].
    { rewrite Hblank in Hsplit. cbn in Hsplit.
      destruct good as [| g [| g' good]]; cbn in Hsplit; try discriminate.
      injection Hsplit as <-. now contradiction Hne. }
    cbn [negb]. rewrite Hsplit, for_each_app. unfold bind at 1.
    rewrite (local_lines_run _ _ Hgood). cbn [for_each]. unfold bind at 1.
    rewrite (local_line_raises _ _ _ _ Hne Hf). reflexivity.
Qed.

(** ** The guest-agent path of the address resolver *)

Lemma agent_address_run addr s :
  agent_addr_ok addr = true ->
  agent_address py addr s = (Ok (spec_agent_value addr), s).
Proof.
  unfold agent_addr_ok, agent_address, spec_agent_value.
  destruct addr as [| | | | | | d]; try discriminate. cbn [is_dict andb].
  unfold bind, lift, py_get, get_default, ret. cbn iota beta.
  destruct (eq_str (opt_default PNone (lookup "ip-address-type" d)) "ipv4");
    cbn [negb orb]; [| reflexivity].
  unfold py_getitem.
  destruct (lookup "ip-address" d) as [[| | | | a | |] |]; try discriminate.
  intros _. cbn [opt_default py_startswith]. cbn iota beta.
  destruct (Str.startswith a "127."); reflexivity.
Qed.

Lemma agent_iface_run iface s :
  agent_iface_ok iface = true ->
  agent_iface py iface s = (Ok (spec_agent_iface iface), s).
Proof.
  unfold agent_iface_ok, agent_iface, spec_agent_iface.
  destruct iface as [| | | | | | d]; try discriminate. cbn [is_dict andb].
  unfold bind at 1, lift at 1, py_get at 1, get_default. cbn iota beta.
  unfold ret at 1. cbn iota beta.
  destruct (eq_str (opt_default PNone (lookup "name" d)) "lo");
    cbn [orb]; [reflexivity |].
  unfold bind at 1, lift at 1, py_get at 1. cbn iota beta.
  unfold ret at 1. cbn iota beta.
  destruct (opt_default (PList []) (lookup "ip-addresses" d))
    as [| | | | | addrs |]; try discriminate.
  intros Hok. unfold bind at 1. cbn [py_iter lift]. unfold ret at 1.
  cbn iota beta.
  now apply (for_first_pure_on agent_addr_ok _ _ _ _
               (fun x s0 => agent_address_run x s0)).
Qed.

(** X16. For a virtual machine whose guest agent answered, the resolver
    returns the first address of type [ipv4] that does not start with
    [127.], looking through the interfaces other than [lo] in the order
    of the answer and through the addresses of each in their order; it
    makes that one request only.  An answer without a [result] gives no
    address. *)
Theorem vm_address_resolution host_ip port ticket node_name vmid s d s1 :
  proxmox_api py world host_ip port ticket
    (guest_endpoint py node_name "qemu" vmid "/agent/network-get-interfaces")
    s = (Ok (PDict d), s1) ->
  (forall ifaces,
      lookup "result" d = Some (PList ifaces) ->
      forallb agent_iface_ok ifaces = true ->
      get_guest_ip_from_proxmox py world host_ip port ticket node_name
        "qemu" vmid s
      = (Ok (spec_agent_address ifaces), s1))
  /\ (lookup "result" d = None ->
      get_guest_ip_from_proxmox py world host_ip port ticket node_name
        "qemu" vmid s
      = (Ok None, s1))
  /\ s1 = add_calls s [guest_first_request py host_ip port ticket node_name
                         "qemu" vmid].
Proof.
  intros Hapi. split; [| split].
  - intros ifaces Hresult Hok.
    unfold get_guest_ip_from_proxmox. cbn [String.eqb Ascii.eqb Bool.eqb].
    unfold try_except, bind at 1. rewrite Hapi, Hresult.
    unfold bind at 1. cbn [py_iter lift]. unfold ret at 1. cbn iota beta.
    unfold spec_agent_address.
    now rewrite (for_first_pure_on agent_iface_ok _ _ _ _
                   (fun x s0 => agent_iface_run x s0) Hok).
  - intros Hresult.
    unfold get_guest_ip_from_proxmox. cbn [String.eqb Ascii.eqb Bool.eqb].
    unfold try_except, bind at 1. now rewrite Hapi, Hresult.
  - rewrite proxmox_api_run in Hapi. cbn zeta in Hapi.
    unfold guest_first_request. cbn [String.eqb Ascii.eqb Bool.eqb].
    destruct (http_json world (calls s) _) as [e | resp];
      [discriminate |].
    destruct (py_get py resp "data" (PDict [])); [discriminate |].
    now injection Hapi as _ <-.
Qed.

(** ** The node the records of a host name *)

Lemma process_resource_names ip port ticket node_name acc res :
  resources_name ip node_name acc ->
  gives (process_resource py world ip port ticket node_name acc res)
    (resources_name ip node_name).
Proof.
  unfold resources_name. intros Hacc.
  apply Forall_app in Hacc. destruct Hacc as (Hv & Hacc).
  apply Forall_app in Hacc. destruct Hacc as (Hl & Hs).
  unfold process_resource.
  eapply gives_bind; [apply gives_any | intros res_type _].
  destruct (eq_str res_type "qemu").
  { eapply gives_bind; [apply gives_any | intros vm_ip _].
    eapply gives_bind; [apply gives_any | intros table _].
    apply gives_ret. cbn [r_vms r_lxcs r_storage].
    rewrite !Forall_app. repeat split; trivial.
    constructor; [| constructor]. now split. }
  destruct (eq_str res_type "lxc").
  { eapply gives_bind; [apply gives_any | intros vm_ip _].
    eapply gives_bind; [apply gives_any | intros table _].
    apply gives_ret. cbn [r_vms r_lxcs r_storage].
    rewrite !Forall_app. repeat split; trivial.
    constructor; [| constructor]. now split. }
  destruct (eq_str res_type "storage").
  - apply gives_ret. cbn [r_vms r_lxcs r_storage].
    rewrite !Forall_app. repeat split; trivial.
    constructor; [| constructor]. now split.
  - apply gives_ret. rewrite !Forall_app. now repeat split.
Qed.

Lemma network_loop_names ip node_name acc l :
  Forall (fun g => names "host_ip" (PStr ip) g /\ names "host_name" node_name g)
    acc ->
  Forall (fun g => names "host_ip" (PStr ip) g /\ names "host_name" node_name g)
    (fst (network_loop py ip node_name acc l)).
Proof.
  revert acc. induction l as [| iface r IH]; intros acc Hacc;
    cbn [network_loop]; [exact Hacc |].
  destruct (py_get py iface "iface" (PStr "")) as [e | name]; [exact Hacc |].
  apply IH. rewrite Forall_app. split; [exact Hacc |].
  constructor; [| constructor]. now split.
Qed.

Lemma scan_host_network_names ip port ticket node_name scan_id :
  gives (scan_host_network py world ip port ticket node_name scan_id)
    (Forall (fun g => names "host_ip" (PStr ip) g
                      /\ names "host_name" node_name g)).
Proof.
  unfold scan_host_network. cbn zeta.
  eapply gives_bind; [apply gives_any | intros [e | net_data] _].
  - gives_tac. constructor.
  - destruct net_data; try (apply gives_ret; constructor).
    pose proof (network_loop_names ip node_name [] items (Forall_nil _)) as H.
    destruct (network_loop py ip node_name [] items) as [entries [e |]];
      cbn [fst] in H; gives_tac; exact H.
Qed.

(** X17. Every record of a host scan names one node: the first node of
    the [/nodes] answer (or the answer itself when it is no list), under
    the name [unknown] when it has none.  The host record carries that
    name as host name and node name, every virtual machine, container
    guest and storage record carries it as node name, and every network
    record as host name, whatever node the resource itself names; all of
    them carry the configured address of the host. *)
Theorem records_name_the_first_node ip port ticket version_data ssh_config
    scan_id o s nodes s1 r s' h :
  let name := get_default (first_node nodes) "node" (PStr "unknown") in
  proxmox_api py world ip port ticket "/nodes" s = (Ok nodes, s1) ->
  scan_authenticated py world ip port ticket version_data ssh_config scan_id
    o s = (Ok r, s') ->
  host r = Some h ->
  names "ip_address" (PStr ip) h /\ names "hostname" name h
  /\ names "node_name" name h
  /\ Forall (fun g => names "host_ip" (PStr ip) g /\ names "node_name" name g)
       (vms r ++ lxcs r ++ storage r)
  /\ Forall (fun g => names "host_ip" (PStr ip) g /\ names "host_name" name g)
       (network r).
Proof.
  intros name Hnodes Hrun Hhost.
  unfold scan_authenticated in Hrun.
  apply bind_inv_ok in Hrun. destruct Hrun as (fetched & s2 & Hfetch & Hrun).
  unfold try_except, bind in Hfetch. rewrite Hnodes in Hfetch.
  injection Hfetch as <- <-.
  destruct (negb (truthy nodes)).
  { injection Hrun as <- _. discriminate. }
  fold (first_node nodes) in Hrun.
  apply bind_inv_ok in Hrun. destruct Hrun as (node_name & s3 & Hname & Hrun).
  assert (node_name = name) as ->.
  { unfold name. destruct (first_node nodes); try discriminate.
    now injection Hname as <- _. }
  revert Hrun.
  match goal with
  | |- ?k s3 = _ -> _ =>
      assert (G : gives k
                    (fun r =>
                       forall h,
                         host r = Some h ->
                         names "ip_address" (PStr ip) h
                         /\ names "hostname" name h
                         /\ names "node_name" name h
                         /\ Forall (fun g => names "host_ip" (PStr ip) g
                                             /\ names "node_name" name g)
                              (vms r ++ lxcs r ++ storage r)
                         /\ Forall (fun g => names "host_ip" (PStr ip) g
                                             /\ names "host_name" name g)
                              (network r)))
  end.
  2: { intros Hrun. exact (G _ _ _ Hrun h Hhost). }
  eapply gives_bind with
    (U := fun h0 => names "ip_address" (PStr ip) h0
                    /\ names "hostname" name h0 /\ names "node_name" name h0).
  { unfold host_record. gives_tac. now repeat split. }
  cbn beta. intros host0 (Hip & Hhn & Hnn).
  eapply gives_bind; [apply gives_any | intros kernel _].
  eapply gives_bind; [apply gives_any | intros resources _].
  eapply gives_bind; [apply gives_any | intros items _].
  eapply gives_bind.
  { apply (gives_for_fold _ (resources_name ip name)); [| constructor].
    intros acc res Hacc. now apply process_resource_names. }
  cbn beta. intros res Hres.
  eapply gives_bind with
    (U := Forall (fun g => names "host_ip" (PStr ip) g
                           /\ names "host_name" name g)).
  { destruct (opt_default true (scan_network o));
      [apply scan_host_network_names | apply gives_ret; constructor]. }
  cbn beta. intros net Hnet.
  eapply gives_bind; [apply gives_any | intros dock _].
  apply gives_ret. intros h0 [= <-]. cbn [vms lxcs storage network].
  split; [| split; [| split; [| split]]]; trivial.
  all: destruct (falsy kernel); trivial; now apply lookup_app_some.
Qed.

(** ** The clean-up deletes what its [SELECT] returned *)

Lemma first_column_heads rows :
  ~ In [] rows -> first_column py rows = inr (map (hd PNone) rows).
Proof.
  induction rows as [| row r IH]; cbn [first_column map]; intros Hne;
    [reflexivity |].
  destruct row as [| id rest]; [exfalso; apply Hne; now left |].
  rewrite IH; [reflexivity |]. intros H. apply Hne. now right.
Qed.

Lemma first_column_short rows :
  In [] rows ->
  exists e, exn_cls e = IndexError /\ first_column py rows = inl e.
Proof.
  induction rows as [| row r IH]; cbn [first_column]; intros Hin;
    [destruct Hin |].
  destruct row as [| id rest].
  - eexists. split; [| reflexivity]. reflexivity.
  - destruct Hin as [Heq | Hin]; [discriminate |].
    destruct (IH Hin) as (e & Hcls & ->). now exists e.
Qed.

(** X18. The clean-up sends one [SELECT] that binds the number of runs to
    keep as its offset, and deletes exactly what that [SELECT] returned:
    if it returned no row, nothing else is sent; otherwise one [DELETE]
    follows whose parameters are the first columns of the rows, in their
    order, with one placeholder for each, and the clean-up ends as that
    [DELETE] does.  If the [SELECT] fails, or a row it returned has no
    column, the clean-up raises and no [DELETE] is sent. *)
Theorem cleanup_deletes_what_was_selected max_scans log :
  let select := mkStmt SelectOldRuns [PInt max_scans] in
  (forall e,
      db_execute db log select = inl e ->
      cleanup_old_scans py db max_scans log = (Raise e, log ++ [select]))
  /\ (forall reply,
        db_execute db log select = inr reply ->
        ~ In [] (fetched reply) ->
        let ids := map (hd PNone) (fetched reply) in
        let delete := mkStmt (DeleteRuns (List.length ids)) ids in
        cleanup_old_scans py db max_scans log
        = match fetched reply with
          | [] => (Ok tt, log ++ [select])
          | _ =>
              (match db_execute db (log ++ [select]) delete with
               | inl e => Raise e
               | inr _ => Ok tt
               end,
               log ++ [select; delete])
          end)
  /\ (forall reply,
        db_execute db log select = inr reply ->
        In [] (fetched reply) ->
        exists e,
          exn_cls e = IndexError
          /\ cleanup_old_scans py db max_scans log
             = (Raise e, log ++ [select])).
Proof.
  intros select. split; [| split].
  - intros e He. unfold cleanup_old_scans, db_bind at 1, execute at 1.
    fold select. now rewrite He.
  - intros reply Hreply Hrows ids delete.
    unfold cleanup_old_scans, db_bind at 1, execute at 1.
    fold select. rewrite Hreply.
    unfold db_bind at 1, db_lift. rewrite (first_column_heads _ Hrows).
    fold ids. subst delete.
    destruct (fetched reply) as [| row rows] eqn:Hf.
    + reflexivity.
    + subst ids. cbn [map]. unfold db_bind, execute, db_ret.
      rewrite <- app_assoc. cbn [app].
      destruct (db_execute db (log ++ [select]) _); reflexivity.
  - intros reply Hreply Hrows.
    destruct (first_column_short _ Hrows) as (e & Hcls & He).
    exists e. split; [exact Hcls |].
    unfold cleanup_old_scans, db_bind at 1, execute at 1.
    fold select. rewrite Hreply.
    unfold db_bind at 1, db_lift. now rewrite He.
Qed.

(** ** Sizes *)

Lemma digits2_pos_bounds p :
  2 ^ (Z.pos (digits2_pos p) - 1) <= Z.pos p < 2 ^ Z.pos (digits2_pos p).
Proof.
  induction p as [p IH | p IH |]; cbn [digits2_pos].
  - rewrite Pos2Z.inj_succ.
    replace (Z.succ (Z.pos (digits2_pos p)) - 1)
      with (Z.succ (Z.pos (digits2_pos p) - 1)) by lia.
    rewrite !Z.pow_succ_r by lia. lia.
  - rewrite Pos2Z.inj_succ.
    replace (Z.succ (Z.pos (digits2_pos p)) - 1)
      with (Z.succ (Z.pos (digits2_pos p) - 1)) by lia.
    rewrite !Z.pow_succ_r by lia. lia.
  - cbn. lia.
Qed.

Lemma digits2_pos_below p k :
  0 <= k -> Z.pos p < 2 ^ k -> Z.pos (digits2_pos p) <= k.
Proof.
  intros Hk Hp. destruct (Z.le_gt_cases (Z.pos (digits2_pos p)) k) as [H | H];
    [exact H |].
  pose proof (digits2_pos_bounds p) as [Hlow _].
  assert (2 ^ k <= 2 ^ (Z.pos (digits2_pos p) - 1))
    by (apply Z.pow_le_mono_r; lia).
  lia.
Qed.

Lemma iter_xO_value p d : Z.pos (Pos.iter xO p d) = Z.pos p * 2 ^ Z.pos d.
Proof.
  induction d as [| d IH] using Pos.peano_ind.
  - cbn. lia.
  - rewrite Pos.iter_succ, Pos2Z.inj_succ, Z.pow_succ_r by lia.
    rewrite Pos2Z.inj_xO, IH. lia.
Qed.

Lemma iter_xO_digits p d :
  digits2_pos (Pos.iter xO p d) = (digits2_pos p + d)%positive.
Proof.
  induction d as [| d IH] using Pos.peano_ind.
  - cbn. lia.
  - rewrite Pos.iter_succ. cbn [digits2_pos]. rewrite IH. lia.
Qed.

(** A mantissa of 53 digits with an exponent in range is kept as it is. *)
Lemma binary_round_aux_canonical s m e :
  Z.pos (digits2_pos m) = 53 -> -1074 <= e <= 971 ->
  binary_round_aux 53 1024 s (Z.pos m) e loc_Exact = S754_finite s m e.
Proof.
  intros Hd He. unfold binary_round_aux, shr_fexp, fexp, emin.
  cbn [Zdigits2 shr_record_of_loc]. rewrite Hd.
  replace (Z.max (53 + e - 53) (3 - 1024 - 53) - e) with 0 by lia.
  cbn [shr shr_m loc_of_shr_record round_nearest_even shr_record_of_loc
       Zdigits2].
  rewrite Hd.
  replace (Z.max (53 + e - 53) (3 - 1024 - 53) - e) with 0 by lia.
  cbn [shr shr_m].
  replace (e <=? 1024 - 53) with true by (symmetry; apply Z.leb_le; lia).
  reflexivity.
Qed.

(** An integer below [2^53], scaled by a power of two, is a double: its
    mantissa is the integer shifted to 53 digits. *)
Lemma binary_round_exact s p e :
  Z.pos p < 2 ^ 53 -> -1000 <= e <= 900 ->
  exists m j,
    binary_round 53 1024 s p e = S754_finite s m (e - j)
    /\ Z.pos m = Z.pos p * 2 ^ j /\ 0 <= j <= 52
    /\ Z.pos (digits2_pos m) = 53.
Proof.
  intros Hp He.
  pose proof (digits2_pos_below p 53 ltac:(lia) Hp) as Hd.
  assert (Hd0 : 0 < Z.pos (digits2_pos p)) by lia.
  unfold binary_round, shl_align, fexp, emin.
  replace (Z.max (Z.pos (digits2_pos p) + e - 53) (3 - 1024 - 53) - e)
    with (Z.pos (digits2_pos p) - 53) by lia.
  destruct (Z.pos (digits2_pos p) - 53) as [| d | d] eqn:Hdiff; [| lia |].
  - exists p, 0. rewrite binary_round_aux_canonical by lia.
    rewrite Z.sub_0_r. repeat split; lia.
  - exists (Pos.iter xO p d), (Z.pos d).
    rewrite binary_round_aux_canonical.
    + replace (Z.max (Z.pos (digits2_pos p) + e - 53) (3 - 1024 - 53))
        with (e - Z.pos d) by lia.
      repeat split; try lia.
      * apply iter_xO_value.
      * rewrite iter_xO_digits. lia.
    + rewrite iter_xO_digits. lia.
    + lia.
Qed.

Lemma div_eucl_exact a b q : 0 < b -> a = b * q -> Z.div_eucl a b = (q, 0).
Proof.
  intros Hb ->. pose proof (Z.div_eucl_eq (b * q) b ltac:(lia)) as Heq.
  pose proof (Z.mod_pos_bound (b * q) b Hb) as Hmod.
  unfold Z.modulo in Hmod.
  destruct (Z.div_eucl (b * q) b) as [q' r].
  assert (r = 0 /\ q' = q) as [-> ->]; [| reflexivity].
  assert (b * (q - q') = r) by lia.
  assert (q - q' = 0) by nia. split; nia.
Qed.

(** Dividing a double by 1024 lowers its exponent by ten. *)
Lemma SFdiv_1024 m e :
  Z.pos (digits2_pos m) = 53 -> -1000 <= e <= 900 ->
  SFdiv 53 1024 (S754_finite false m e) float_1024
  = S754_finite false m (e - 10).
Proof.
  intros Hd He. unfold SFdiv, float_1024, SFdiv_core_binary, fexp, emin.
  cbn [Zdigits2 xorb]. rewrite Hd.
  change (Z.pos (digits2_pos 4503599627370496)) with 53.
  replace (Z.min (Z.max (53 + e - (53 + -42) - 53) (3 - 1024 - 53)) (e - -42))
    with (e - 11) by lia.
  replace (e - -42 - (e - 11)) with 53 by lia.
  rewrite (div_eucl_exact _ _ (Z.pos m~0)).
  2: reflexivity.
  2: { rewrite Z.shiftl_mul_pow2 by lia.
       change (2 ^ 53) with (4503599627370496 * 2). lia. }
  change (new_location 4503599627370496 0) with loc_Exact.
  unfold binary_round_aux, shr_fexp, fexp, emin.
  cbn [Zdigits2 digits2_pos shr_record_of_loc]. rewrite Pos2Z.inj_succ, Hd.
  replace (Z.max (Z.succ 53 + (e - 11) - 53) (3 - 1024 - 53) - (e - 11))
    with 1 by lia.
  cbn [shr iter_pos shr_1 orb shr_m loc_of_shr_record round_nearest_even
       shr_record_of_loc Zdigits2].
  rewrite Hd.
  replace (Z.max (53 + (e - 11 + 1) - 53) (3 - 1024 - 53) - (e - 11 + 1))
    with 0 by lia.
  cbn [shr shr_m].
  replace (e - 11 + 1 <=? 1024 - 53) with true
    by (symmetry; apply Z.leb_le; lia).
  f_equal. lia.
Qed.

Lemma round_half_even_scale a b c :
  0 < b -> 0 < c -> round_half_even (a * c) (b * c) = round_half_even a b.
Proof.
  intros Hb Hc. unfold round_half_even.
  rewrite Z.div_mul_cancel_r by lia.
  rewrite Zmult_mod_distr_r.
  replace (2 * (a mod b * c)) with (2 * (a mod b) * c) by lia.
  replace (2 * (a mod b) * c ?= b * c) with (2 * (a mod b) ?= b).
  - reflexivity.
  - symmetry. rewrite <- Zmult_compare_compat_r by lia. reflexivity.
Qed.

Lemma round_half_even_whole a : round_half_even a 1 = a.
Proof.
  unfold round_half_even. rewrite Z.div_1_r, Z.mod_1_r. reflexivity.
Qed.

(** The tenths of [n * 2^j * 2^-(j + t)] are those of [n / 2^t]. *)
Lemma tenths_scaled m n j t :
  Z.pos m = n * 2 ^ j -> 0 <= j -> 0 <= t ->
  tenths m (- (j + t)) = round_half_even (10 * n) (2 ^ t).
Proof.
  intros Hm Hj Ht. unfold tenths. rewrite Hm.
  destruct (0 <=? - (j + t)) eqn:He.
  - apply Z.leb_le in He. assert (j = 0) by lia. assert (t = 0) by lia.
    subst. cbn [Z.add Z.opp Z.pow]. rewrite round_half_even_whole. lia.
  - rewrite Z.opp_involutive, Z.pow_add_r by lia.
    replace (10 * (n * 2 ^ j)) with (10 * n * 2 ^ j) by lia.
    rewrite (Z.mul_comm (2 ^ j) (2 ^ t)).
    apply round_half_even_scale; apply Z.pow_pos_nonneg; lia.
Qed.

Lemma scaled_1f n t f :
  0 <= t -> scaled n t f ->
  float_1f f = one_decimal (round_half_even (10 * n) (2 ^ t)).
Proof.
  intros Ht (m & j & -> & Hm & Hj & _). cbn [float_1f minus append].
  now rewrite (tenths_scaled m n j t) by lia.
Qed.

Lemma scaled_lt_1024 n t f :
  0 <= t -> scaled n t f -> float_lt_1024 f = (n <? 1024 * 2 ^ t).
Proof.
  intros Ht (m & j & -> & Hm & Hj & _). cbn [float_lt_1024].
  rewrite Hm.
  assert (Hj2 : 0 < 2 ^ j) by (apply Z.pow_pos_nonneg; lia).
  assert (Ht2 : 0 < 2 ^ t) by (apply Z.pow_pos_nonneg; lia).
  destruct (0 <=? - (j + t)) eqn:He.
  - apply Z.leb_le in He. assert (j = 0) by lia. assert (t = 0) by lia.
    subst. cbn [Z.add Z.opp Z.pow]. now rewrite !Z.mul_1_r.
  - rewrite Z.opp_involutive, Z.pow_add_r by lia.
    destruct (n <? 1024 * 2 ^ t) eqn:Hn.
    + apply Z.ltb_lt in Hn. apply Z.ltb_lt. nia.
    + apply Z.ltb_ge in Hn. apply Z.ltb_ge. nia.
Qed.

Lemma scaled_div n t f :
  0 <= t <= 100 -> scaled n t f ->
  scaled n (t + 10) (SFdiv 53 1024 f float_1024).
Proof.
  intros Ht (m & j & -> & Hm & Hj & Hd).
  exists m, j. rewrite SFdiv_1024 by (trivial; lia).
  repeat split; trivial; try lia. f_equal. lia.
Qed.

Lemma int_div_1024_scaled n :
  0 < n < 2 ^ 53 -> exists f, int_div_1024 n = inr f /\ scaled n 10 f.
Proof.
  intros Hn. destruct n as [| p |]; try lia.
  destruct (binary_round_exact false p (-10) ltac:(lia) ltac:(lia))
    as (m & j & Hf & Hm & Hj & Hd).
  exists (S754_finite false m (-10 - j)).
  unfold int_div_1024, binary_normalize. rewrite Hf.
  split; [reflexivity |]. exists m, j. repeat split; trivial; try lia.
  f_equal. lia.
Qed.

Lemma float_of_int_scaled n :
  0 < n < 2 ^ 53 -> exists f, float_of_int n = inr f /\ scaled n 0 f.
Proof.
  intros Hn. destruct n as [| p |]; try lia.
  destruct (binary_round_exact false p 0 ltac:(lia) ltac:(lia))
    as (m & j & Hf & Hm & Hj & Hd).
  exists (S754_finite false m (0 - j)).
  unfold float_of_int, binary_normalize. rewrite Hf.
  split; [reflexivity |]. exists m, j. repeat split; trivial; try lia.
  f_equal. lia.
Qed.

Lemma skipn_units i :
  (i < 5)%nat ->
  skipn i loop_units = nth i unit_names EmptyString :: skipn (S i) loop_units.
Proof.
  intros Hi. do 5 (destruct i as [| i]; [reflexivity |]). lia.
Qed.

Lemma pow_1024 i : 1024 ^ Z.of_nat i = 2 ^ (10 * Z.of_nat i).
Proof.
  change 1024 with (2 ^ 10). rewrite <- Z.pow_mul_r by lia. reflexivity.
Qed.

(** The loop from its [i]-th turn on, when the value left is
    [n / 1024^i]. *)
Lemma format_loop_scaled n k d :
  forall i f,
    (i + d = 5)%nat -> (i <= k <= 5)%nat ->
    scaled n (10 * Z.of_nat i) f ->
    1024 ^ Z.of_nat k <= n ->
    (k = 5%nat \/ n < 1024 ^ Z.of_nat (S k)) ->
    format_loop py (skipn i loop_units) (PFloat f) = inr (spec_size n k).
Proof.
  induction d as [| d IH]; intros i f Hid Hik Hf Hlow Hhigh.
  - assert (i = 5%nat) by lia. assert (k = 5%nat) by lia. subst.
    cbn [skipn loop_units format_loop format_1f].
    rewrite (scaled_1f n (10 * Z.of_nat 5) f ltac:(lia) Hf). unfold spec_size.
    rewrite pow_1024. reflexivity.
  - rewrite skipn_units by lia. cbn [format_loop lt_1024 format_1f div_1024].
    rewrite (scaled_lt_1024 n (10 * Z.of_nat i) f ltac:(lia) Hf).
    replace (1024 * 2 ^ (10 * Z.of_nat i)) with (1024 ^ Z.of_nat (S i)).
    2: { rewrite Nat2Z.inj_succ, Z.pow_succ_r, pow_1024 by lia. reflexivity. }
    destruct (Nat.eq_dec i k) as [-> | Hne].
    + destruct Hhigh as [-> | Hhigh]; [lia |].
      apply Z.ltb_lt in Hhigh. rewrite Hhigh.
      rewrite (scaled_1f n (10 * Z.of_nat k) f ltac:(lia) Hf).
      unfold spec_size. rewrite pow_1024. reflexivity.
    + assert (Hge : 1024 ^ Z.of_nat (S i) <= n).
      { transitivity (1024 ^ Z.of_nat k); [| exact Hlow].
        apply Z.pow_le_mono_r; lia. }
      apply Z.ltb_ge in Hge. rewrite Hge.
      apply (IH (S i)); try lia; trivial.
      replace (10 * Z.of_nat (S i)) with (10 * Z.of_nat i + 10) by lia.
      apply scaled_div; [lia | exact Hf].
Qed.

(** X19. [format_bytes] on a whole number of bytes below [2^53] prints the
    number divided by [1024^k] with one decimal, a tie rounded to the
    even digit, and the [k]-th of the units B, KB, MB, GB, TB and PB,
    where [k] is the largest power of 1024 that does not exceed the
    number and at most 5: the unit is chosen before the rounding, so a
    number just below a power of 1024 prints as [1024.0] of the smaller
    unit.  A negative number is never scaled: it prints in bytes. *)
Theorem format_bytes_scales n :
  (forall k,
      0 <= n < 2 ^ 53 -> (k <= 5)%nat ->
      (k = 0%nat \/ 1024 ^ Z.of_nat k <= n) ->
      (k = 5%nat \/ n < 1024 ^ Z.of_nat (S k)) ->
      format_bytes py (PInt n) = inr (spec_size n k))
  /\ (- 2 ^ 53 < n < 0 ->
      format_bytes py (PInt n)
      = inr ("-" ++ one_decimal (10 * - n) ++ " B")%string).
Proof.
  split.
  - intros k Hn Hk Hlow Hhigh. unfold format_bytes.
    change ["B"; "KB"; "MB"; "GB"; "TB"]%string
      with ("B"%string :: skipn 1 loop_units).
    cbn [format_loop lt_1024 format_1f div_1024].
    destruct k as [| k].
    + destruct Hhigh as [Hk5 | Hhigh]; [discriminate |].
      change (1024 ^ Z.of_nat 1) with 1024 in Hhigh.
      apply Z.ltb_lt in Hhigh. rewrite Hhigh.
      destruct (Z.eq_dec n 0) as [-> | Hn0]; [reflexivity |].
      destruct (float_of_int_scaled n ltac:(lia)) as (f & -> & Hf).
      rewrite (scaled_1f n 0 f ltac:(lia) Hf). reflexivity.
    + destruct Hlow as [Hk0 | Hlow]; [discriminate |].
      assert (Hge : 1024 <= n).
      { transitivity (1024 ^ Z.of_nat (S k)); [| exact Hlow].
        change 1024 with (1024 ^ 1) at 1. apply Z.pow_le_mono_r; lia. }
      destruct (int_div_1024_scaled n ltac:(lia)) as (f & Hdiv & Hf).
      apply Z.ltb_ge in Hge. rewrite Hge, Hdiv.
      apply (format_loop_scaled n (S k) 4 1 f); trivial; lia.
  - intros Hn. destruct n as [| p | p]; try lia.
    unfold format_bytes. cbn [format_loop lt_1024 format_1f].
    replace (Z.neg p <? 1024) with true by (symmetry; apply Z.ltb_lt; lia).
    destruct (binary_round_exact true p 0 ltac:(lia) ltac:(lia))
      as (m & j & Hf & Hm & Hj & Hd).
    unfold float_of_int, binary_normalize. rewrite Hf.
    cbn [float_1f minus].
    replace (0 - j) with (- (j + 0)) by lia.
    rewrite (tenths_scaled m (Z.pos p) j 0) by lia.
    change (2 ^ 0) with 1. rewrite round_half_even_whole.
    replace (10 * - Z.neg p) with (10 * Z.pos p) by lia.
    reflexivity.
Qed.

End Properties.

(** * The properties on concrete runs *)

Section Examples.

Local Open Scope list_scope.

Import Demo.

(** Both candidates are refused: one error naming both; only the
    alternate may log in: its stripped output and no error. *)
Lemma try_ssh_exec_one_aggregated_error_witness :
  try_ssh_exec world_down "10.0.0.9" ssh_config "uname -r" 7 "Proxmox-SSH" init
  = (Ok None,
     mkStore
       [mkScanError 7 "10.0.0.9" "Proxmox-SSH"
          "SSH to 10.0.0.9 failed (tried: root, admin): connection refused"
          no_traceback]
       [ssh_request "10.0.0.9" ssh_config "uname -r" "root";
        ssh_request "10.0.0.9" ssh_config "uname -r" "admin"]
       [])
  /\ try_ssh_exec world_alt_only "10.0.0.9" ssh_config "uname -r" 7
       "Proxmox-SSH" init
     = (Ok (Some "6.8.12-4-pve"),
        mkStore []
          [ssh_request "10.0.0.9" ssh_config "uname -r" "root";
           ssh_request "10.0.0.9" ssh_config "uname -r" "admin"]
          []).
Proof.
  split.
  - apply (proj1 (try_ssh_exec_one_aggregated_error world_down "10.0.0.9"
                    ssh_config "uname -r" 7 "Proxmox-SSH" init)
             (fun _ => unreachable)).
    intros log user _. reflexivity.
  - apply (proj2 (try_ssh_exec_one_aggregated_error world_alt_only "10.0.0.9"
                    ssh_config "uname -r" 7 "Proxmox-SSH" init)
             (fun _ => unreachable) ["root"%string] "admin"%string []
             ("  6.8.12-4-pve " ++ line_end)%string).
    + reflexivity.
    + intros log v [<- | []]. reflexivity.
    + reflexivity.
Defined.

(** The alternate equals the primary: a failing execution asks once. *)
Lemma users_to_try_no_duplicates_witness :
  calls (snd (try_ssh_exec world_down "10.0.0.9" ssh_same_user "uname -r" 7
                "Proxmox-SSH" init))
  = [ssh_request "10.0.0.9" ssh_same_user "uname -r" "root"].
Proof.
  apply (proj2 (proj2 (proj2 (users_to_try_no_duplicates world_down
                                ssh_same_user)))).
  - right. reflexivity.
  - reflexivity.
Defined.

(** An unreachable hypervisor, a garbled answer, and an entry that cannot
    be read before the entries that hold an address: all give no
    address. *)
Lemma get_guest_ip_never_raises_witness :
  fst (get_guest_ip_from_proxmox py world_down "10.0.0.1" 8006 ticket
         (PStr "pve") "qemu" (PInt 100) init) = Ok None
  /\ fst (get_guest_ip_from_proxmox py world_garbled "10.0.0.1" 8006 ticket
            (PStr "pve") "lxc" (PInt 101) init) = Ok None
  /\ get_guest_ip_from_proxmox py world_junk_entries "10.0.0.1" 8006 ticket
       (PStr "pve") "qemu" (PInt 100) init
     = (Ok None,
        add_calls init
          [guest_first_request py "10.0.0.1" 8006 ticket (PStr "pve") "qemu"
             (PInt 100)])
  /\ get_guest_ip_from_proxmox py world_junk_entries "10.0.0.1" 8006 ticket
       (PStr "pve") "lxc" (PInt 102) init
     = (Ok None,
        add_calls init
          [guest_config_request py "10.0.0.1" 8006 ticket (PStr "pve")
             (PInt 102);
           guest_live_request py "10.0.0.1" 8006 ticket (PStr "pve")
             (PInt 102)]).
Proof.
  split; [| split; [| split]].
  - rewrite (proj1 (proj2 (get_guest_ip_never_raises py world_down "10.0.0.1"
                             8006 ticket (PStr "pve") "qemu" (PInt 100) init))
               unreachable eq_refl).
    reflexivity.
  - rewrite (proj1 (proj2 (proj2 (get_guest_ip_never_raises py world_garbled
                                    "10.0.0.1" 8006 ticket (PStr "pve") "lxc"
                                    (PInt 101) init)))
               (PList []) eq_refl eq_refl).
    reflexivity.
  - exact (proj1 (proj2 (proj2 (proj2
             (get_guest_ip_never_raises py world_junk_entries "10.0.0.1" 8006
                ticket (PStr "pve") "qemu" (PInt 100) init))))).
  - exact (proj2 (proj2 (proj2 (proj2
             (get_guest_ip_never_raises py world_junk_entries "10.0.0.1" 8006
                ticket (PStr "pve") "lxc" (PInt 102) init)))) eq_refl).
Defined.

(** A host that refuses the connection: the empty result, one request,
    one [Proxmox-Auth] error. *)
Lemma auth_failure_stops_host_witness :
  scan_proxmox_host py world_down host ssh_config 7 options init
  = (Ok empty_result,
     mkStore [auth_error py 7 host unreachable] [auth_request py host] []).
Proof.
  destruct (auth_failure_stops_host py world_down host 7 init unreachable
              (add_calls init [auth_request py host]) eq_refl)
    as (_ & Hscan & _).
  exact (Hscan ssh_config options).
Defined.

(** A failing topology fetch leaves one [Proxmox-Nodes] error; an empty
    topology leaves none. *)
Lemma topology_failure_stops_host_witness :
  (fst (scan_proxmox_host py world_nodes_down host ssh_config 7 options init)
   = Ok empty_result
   /\ map err_component
        (errors_list (snd (scan_proxmox_host py world_nodes_down host
                             ssh_config 7 options init)))
      = ["Proxmox-Nodes"%string])
  /\ (fst (scan_proxmox_host py world_no_nodes host ssh_config 7 options init)
      = Ok empty_result
      /\ errors_list (snd (scan_proxmox_host py world_no_nodes host ssh_config
                             7 options init)) = []).
Proof.
  split.
  - edestruct (topology_failure_stops_host py world_nodes_down host ssh_config
                 7 options init) as [Hfail _];
      [reflexivity | reflexivity |].
    edestruct Hfail as [Hrun _]; [reflexivity |].
    rewrite Hrun. split; reflexivity.
  - edestruct (topology_failure_stops_host py world_no_nodes host ssh_config
                 7 options init) as [_ Hnone];
      [reflexivity | reflexivity |].
    edestruct Hnone as [Hrun _]; [reflexivity | reflexivity |].
    rewrite Hrun. split; reflexivity.
Defined.

(** C4 fails as stated: this host authenticates and its topology fetch
    returns no nodes; the scan stops with the empty result, and the error
    log stays empty. *)
Lemma topology_no_nodes_logs_nothing :
  proxmox_api py world_no_nodes "10.0.0.1" 8006 ticket "/nodes"
    (mkStore [] [auth_request py host;
                 HttpGetCookie (url "/version") ticket 15] [])
  = (Ok (PList []),
     mkStore [] [auth_request py host;
                 HttpGetCookie (url "/version") ticket 15;
                 HttpGetCookie (url "/nodes") ticket 15] [])
  /\ scan_proxmox_host py world_no_nodes host ssh_config 7 options init
     = (Ok empty_result,
        mkStore [] [auth_request py host;
                    HttpGetCookie (url "/version") ticket 15;
                    HttpGetCookie (url "/nodes") ticket 15] []).
Proof. split; vm_compute; reflexivity. Qed.

(** The declared address of container 101 is [10.0.0.5]; container 102
    declares [dhcp], and its address comes from the live interfaces. *)
Lemma container_address_resolution_witness :
  get_guest_ip_from_proxmox py estate "10.0.0.1" 8006 ticket (PStr "pve")
    "lxc" (PInt 101) init
  = (Ok (Some "10.0.0.5"%string),
     add_calls init [HttpGetCookie (url "/nodes/pve/lxc/101/config") ticket 15])
  /\ get_guest_ip_from_proxmox py estate "10.0.0.1" 8006 ticket (PStr "pve")
       "lxc" (PInt 102) init
     = (Ok (Some "10.0.0.6"%string),
        add_calls init
          [HttpGetCookie (url "/nodes/pve/lxc/102/config") ticket 15;
           HttpGetCookie (url "/nodes/pve/lxc/102/interfaces") ticket 15]).
Proof.
  split.
  - refine (proj1 (container_address_resolution py estate "10.0.0.1" 8006
                     ticket (PStr "pve") (PInt 101) init static_config _ _)
              "10.0.0.5"%string _); reflexivity.
  - refine (proj2 (container_address_resolution py estate "10.0.0.1" 8006
                     ticket (PStr "pve") (PInt 102) init dhcp_config _ _)
              _ live_interfaces _ _ _); reflexivity.
Defined.

(** The hub of the description: the firmware entity and the sensor are
    left out, the add-on with a pending update and the up-to-date core
    are kept. *)
Lemma hub_selects_update_entities_witness :
  map summary
    (match fst (scan_homeassistant py (hub_world hub_states) hub 7 init) with
     | Ok r => ha_docker r
     | Raise _ => []
     end)
  = [(Some (PStr "update.addon_foo_update"), Some (PStr "update_available"),
      Some (PStr "v1.0 -> 1.1"));
     (Some (PStr "update.home_assistant_core_update"), Some (PStr "running"),
      Some (PStr "v2024.6.1"))].
Proof.
  rewrite (proj1 (hub_selects_update_entities py (hub_world hub_states) hub 7
                    init [("location_name", PStr "Home")] hub_states
                    eq_refl eq_refl eq_refl)).
  reflexivity.
Defined.

(** C5 fails as stated: this entity is [on], so its update is pending and
    its record says [update_available]; its latest version is empty, and
    the status is the installed version alone. *)
Lemma hub_status_without_latest :
  map summary
    (match fst (scan_homeassistant py (hub_world hub_states_no_latest) hub 7
                  init) with
     | Ok r => ha_docker r
     | Raise _ => []
     end)
  = [(Some (PStr "update.addon_bar_update"), Some (PStr "update_available"),
      Some (PStr "v1.0"))].
Proof. vm_compute. reflexivity. Qed.



(** The listing of the description: two records, and one parse error
    carrying the line that is not JSON. *)
Lemma docker_listing_mixed_example :
  (match scan_docker_on_host py (engine_world listing_mixed) "10.0.0.9"
           ssh_config 7 init with
   | (Ok found, s) =>
       (map (lookup "container_id") found,
        map (fun e => (err_component e, err_detail e)) (errors_list s))
   | (Raise _, _) => ([], [])
   end)
  = ([Some (PStr "a1"); Some (PStr "b2")],
     [("Docker-Parse"%string, "not-json"%string)]).
Proof. vm_compute. reflexivity. Qed.

(** C3 on a listing with the line [123], which is JSON but not an
    object: the inventory raises [AttributeError] out of the loop; the
    object lines around it yield no record and nothing is recorded for
    the line. *)
Theorem docker_listing_number_line_raises :
  scan_docker_on_host py (engine_world listing_number) "10.0.0.9" ssh_config 7
    init
  = (Raise (mkExn AttributeError "'int' object has no attribute 'get'"),
     mkStore []
       [ssh_request "10.0.0.9" ssh_config docker_check_cmd "root";
        ssh_request "10.0.0.9" ssh_config docker_ps_cmd "root";
        ssh_request "10.0.0.9" ssh_config "hostname" "root"]
       []).
Proof. vm_compute. reflexivity. Qed.

(** The same line in the listing of a hypervisor host: the exception
    leaves [scan_proxmox_host], [main] records it as [Proxmox-Scan], and
    the run keeps nothing of that host, neither its snapshot nor its three
    guests. *)
Lemma number_line_drops_host_result :
  dataset (main py estate_with_engine estate_config 7 12) = []
  /\ map (fun e => (err_host_ip e, err_component e, err_message e))
       (error_log (main py estate_with_engine estate_config 7 12))
     = [("10.0.0.1"%string, "Proxmox-Scan"%string,
         "Fatal error scanning 10.0.0.1: 'int' object has no attribute 'get'"%string);
        ("127.0.0.1"%string, "Docker-Local"%string,
         "Local Docker scan failed: [Errno 2] No such file or directory: 'docker'"%string)].
Proof. split; vm_compute; reflexivity. Qed.

(** The rows of the estate, saved under run 4 on a server that accepts
    them: one host, one virtual machine, two container guests, one
    storage and one interface. *)
Lemma save_to_database_rows_witness :
  accepting (server [3; 2; 1])
  /\ forallb result_complete [estate_result] = true
  /\ save_to_database py (server [3; 2; 1]) 4 [estate_result] []
       [mkStmt InsertRun []]
     = (Ok (1, 2, 0)%nat,
        mkStmt InsertRun [] :: spec_result_rows 4 estate_result)
  /\ map (fun st => hd PNone (tl (stmt_params st)))
       (spec_result_rows 4 estate_result)
     = [PStr "10.0.0.1"; PStr "10.0.0.1"; PStr "10.0.0.1"; PStr "10.0.0.1";
        PStr "10.0.0.1"; PStr "10.0.0.1"].
Proof.
  assert (Hacc : accepting (server [3; 2; 1])).
  { intros log [[] ps]; cbn; eauto. }
  split; [exact Hacc | split; [reflexivity | split; [| reflexivity]]].
  rewrite (save_to_database_rows py (server [3; 2; 1]) 4 [estate_result] []
             [mkStmt InsertRun []] Hacc eq_refl).
  reflexivity.
Defined.

(** A server that is down ends the run with its own exception on the
    first statement; a server that accepts every statement lets the run
    over the estate return, here with exit code 1 for the error of the
    local container scan. *)
Lemma main_fails_only_with_the_server_witness :
  rows_have_id server_down
  /\ main_db py estate server_down estate_config 12 []
     = (Raise lost, [mkStmt InsertRun []])
  /\ (exists pre st,
        [mkStmt InsertRun []] = pre ++ [st]
        /\ db_execute server_down pre st = inl lost)
  /\ rows_have_id (server [3; 2; 1])
  /\ accepting (server [3; 2; 1])
  /\ exists code log',
       main_db py estate (server [3; 2; 1]) estate_config_keep_two 12 []
       = (Ok code, log').
Proof.
  assert (Hdown : rows_have_id server_down).
  { intros log st r [=]. }
  assert (Hrows : rows_have_id (server [3; 2; 1])).
  { intros log [[] ps] r; cbn; intros [= <-]; cbn; try tauto.
    rewrite in_map_iff. intros (id & [=] & _). }
  assert (Hacc : accepting (server [3; 2; 1])).
  { intros log [[] ps]; cbn; eauto. }
  split; [exact Hdown | split; [reflexivity | split]].
  - destruct (main_fails_only_with_the_server py estate server_down
                estate_config 12 [] Hdown) as [Hraise _].
    apply (Hraise lost [mkStmt InsertRun []]). reflexivity.
  - split; [exact Hrows | split; [exact Hacc |]].
    destruct (main_fails_only_with_the_server py estate (server [3; 2; 1])
                estate_config_keep_two 12 [] Hrows) as [_ Hreturns].
    exact (Hreturns Hacc).
Defined.

(** The statements of the run over the estate, on a server that holds
    the runs 3, 2 and 1 and is to keep two: the run becomes run 4, seven
    rows are inserted under it, the run is closed with their counts, and
    the runs 2 and 1 are removed. *)
Lemma estate_main_statements :
  fst estate_main = Ok 1
  /\ map (fun st => (stmt_sql st, hd PNone (stmt_params st)))
       (firstn 1 (snd estate_main))
     = [(InsertRun, PNone)]
  /\ map (fun st => hd PNone (stmt_params st))
       (firstn 7 (skipn 1 (snd estate_main)))
     = repeat (PInt 4) 7
  /\ skipn 8 (snd estate_main)
     = [update_run 1 1 2 0 1 12 4;
        mkStmt SelectOldRuns [PInt 2];
        mkStmt (DeleteRuns 2) [PInt 2; PInt 1]].
Proof. repeat split. Qed.


(** A machine nobody can log in to, and the host of the estate, which has
    no container engine. *)
Lemma docker_inventory_stops_early_witness :
  scan_docker_on_host py world_down "10.0.0.9" ssh_config 7 init
  = (Ok [],
     add_error
       (add_calls init
          (map (ssh_request "10.0.0.9" ssh_config docker_check_cmd)
             ["root"; "admin"]%string))
       (ssh_failure 7 "10.0.0.9" "Docker" ["root"; "admin"]%string
          (Some unreachable)))
  /\ scan_docker_on_host py estate "10.0.0.1" ssh_config 7 init
     = (Ok [],
        add_calls init
          [ssh_request "10.0.0.1" ssh_config docker_check_cmd "root"]).
Proof.
  split.
  - apply (proj1 (docker_inventory_stops_early py world_down "10.0.0.9"
                    ssh_config 7 init) (fun _ => unreachable)).
    intros log user _. reflexivity.
  - apply (proj2 (docker_inventory_stops_early py estate "10.0.0.1"
                    ssh_config 7 init) ("NO_DOCKER" ++ line_end)%string).
    + reflexivity.
    + right. reflexivity.
Defined.

(** A hub that cannot be reached, and a hub that answers the
    configuration request only. *)
Lemma hub_fetch_failure_ends_hub_scan_witness :
  scan_one_hub py world_down 7 hub init
  = (Ok tt,
     add_result
       (add_error (add_calls init [hub_config_request py hub])
          (ha_failure py 7 "10.0.0.20" "HomeAssistant-API" "config"
             unreachable))
       (docker_only []))
  /\ scan_homeassistant py hub_world_no_states hub 7 init
     = (Ok (mkHaResult [] PNone),
        add_error
          (add_calls init [hub_config_request py hub;
                           hub_states_request py hub])
          (ha_failure py 7 "10.0.0.20" "HomeAssistant-States" "states"
             unreachable)).
Proof.
  split.
  - apply (proj2 (proj1 (hub_fetch_failure_ends_hub_scan py world_down hub 7
                           init) unreachable eq_refl)).
  - apply (proj1 (proj2 (hub_fetch_failure_ends_hub_scan py
                           hub_world_no_states hub 7 init)
                    (PDict hub_config) unreachable eq_refl eq_refl)).
Defined.

(** A hub whose states hold an entry without [entity_id] between two
    pending updates. *)
Lemma hub_malformed_state_drops_inventory_witness :
  exists e,
    scan_one_hub py
      (hub_world (hub_states_before ++ nameless :: hub_states_after)) 7 hub
      init
    = (Ok tt,
       add_error
         (add_calls init [hub_config_request py hub;
                          hub_states_request py hub])
         (hub_error py 7 hub e)).
Proof.
  destruct (hub_malformed_state_drops_inventory py
              (hub_world (hub_states_before ++ nameless :: hub_states_after))
              hub 7 init hub_config hub_states_before nameless
              hub_states_after eq_refl eq_refl eq_refl eq_refl)
    as (e & _ & _ & Hhub).
  exists e. exact Hhub.
Defined.

(** A ticket without a token. *)
Lemma authentication_needs_ticket_and_token_witness :
  scan_proxmox_host py world_no_token host ssh_config 7 options init
  = (Ok empty_result,
     add_error (add_calls init [auth_request py host])
       (auth_error py 7 host
          (interp_exn py KeyError (PDict ticket_only) "CSRFPreventionToken"))).
Proof.
  apply (proj2 (authentication_needs_ticket_and_token py world_no_token host
                  init)
           [("data", PDict ticket_only)] ticket_only ticket ssh_config 7
           options);
    reflexivity.
Defined.

(** The estate without its version endpoint. *)
Lemma version_failure_is_silent_witness :
  scan_proxmox_host py (estate_without "/version") host ssh_config 7 options
    init
  = scan_authenticated py (estate_without "/version") "10.0.0.1" 8006 ticket
      (PDict []) ssh_config 7 options
      (add_calls init [auth_request py host;
                       HttpGetCookie (url "/version") ticket 15]).
Proof.
  apply (proj1 (version_failure_is_silent py (estate_without "/version") host
                  ssh_config 7 options init ticket (PStr "csrf")
                  (add_calls init [auth_request py host]) unreachable
                  (add_calls init [auth_request py host;
                                   HttpGetCookie (url "/version") ticket 15])
                  eq_refl eq_refl)).
Defined.

(** The estate without its resource listing: the host is recorded, with
    no guest and no storage. *)
Lemma resources_failure_keeps_host_witness :
  vms no_resources_result = [] /\ lxcs no_resources_result = []
  /\ storage no_resources_result = [].
Proof.
  destruct (resources_failure_keeps_host py
              (estate_without "/cluster/resources") "10.0.0.1" 8006 ticket
              (PDict [("version", PStr "8.1.4")]) ssh_config 7 options
              unreachable init no_resources_result (snd no_resources_run)
              (fun _ => eq_refl) eq_refl)
    as (Hvms & Hlxcs & Hstorage & _).
  auto.
Defined.

(** A network listing whose second entry is a string: the bridge before
    it is recorded, the uplink after it is not. *)
Lemma network_listing_stops_at_malformed_entry_witness :
  scan_host_network py world_network_garbled "10.0.0.1" 8006 ticket
    (PStr "pve") 7 init
  = (Ok [network_record "10.0.0.1" (PStr "pve") bridge (PStr "vmbr0")],
     add_error
       (add_calls init [HttpGetCookie (url "/nodes/pve/network") ticket 15])
       (api_failure py 7 "10.0.0.1" "Network"
          "Failed to get network info from "
          (interp_exn py AttributeError (PStr "eno1") "get"))).
Proof.
  apply (proj1 (proj2 (network_listing_stops_at_malformed_entry py
                         world_network_garbled "10.0.0.1" 8006 ticket
                         (PStr "pve") 7 init
                         (add_calls init
                            [HttpGetCookie (url "/nodes/pve/network") ticket
                               15])))
           [bridge] (PStr "eno1") [uplink]);
    reflexivity.
Defined.

(** The resources of the estate: the node gets no record, the storage
    one. *)
Lemma resources_sorted_by_type_witness :
  r_storage sorted_resources
  = map (storage_record "10.0.0.1" (PStr "pve"))
      (filter (of_type "storage") resource_list)
  /\ List.length (r_vms sorted_resources) = 1%nat
  /\ List.length (r_lxcs sorted_resources) = 2%nat.
Proof.
  destruct (resources_sorted_by_type py estate "10.0.0.1" 8006 ticket
              (PStr "pve") resource_list init sorted_resources
              (snd (for_fold (process_resource py estate "10.0.0.1" 8006
                                ticket (PStr "pve"))
                      (mkResources [] [] [] []) resource_list init))
              eq_refl)
    as (Hvms & Hlxcs & Hstorage).
  split; [exact Hstorage |].
  split.
  - now rewrite <- (Forall2_length Hvms).
  - now rewrite <- (Forall2_length Hlxcs).
Defined.

(** A machine without an engine, an engine that reports a failure, an
    engine whose listing holds two objects around a line that is not
    JSON, and two whose middle line is a number: [123], which is no
    object, and a number of 4301 digits, which the decoder refuses with
    a [ValueError]. *)
Lemma local_engine_scan_witness :
  scan_local_docker py world_down 7 init
  = (Ok tt, add_error (add_calls init [local_info])
              (local_error py 7 no_engine))
  /\ scan_local_docker py (local_world 1 listing_mixed) 7 init
     = (Ok tt, add_calls init [local_info])
  /\ scan_local_docker py (local_world 0 listing_mixed) 7 init
     = (Ok tt,
        add_results (add_calls init [local_info; local_listing])
          (map (fun r => docker_only [r])
             (flat_map (spec_line_records py local_ip "scanner")
                (Str.split Str.nl (Str.strip listing_mixed)))))
  /\ scan_local_docker py (local_world 0 listing_number) 7 init
     = (Ok tt,
        add_error
          (add_results (add_calls init [local_info; local_listing])
             (map (fun r => docker_only [r])
                (flat_map (spec_line_records py local_ip "scanner")
                   [line_a1])))
          (local_error py 7
             (interp_exn py AttributeError (PInt 123) "get")))
  /\ scan_local_docker py (local_world 0 listing_long_number) 7 init
     = (Ok tt,
        add_error
          (add_results (add_calls init [local_info; local_listing])
             (map (fun r => docker_only [r])
                (flat_map (spec_line_records py local_ip "scanner")
                   [line_a1])))
          (local_error py 7 too_long)).
Proof.
  split; [| split; [| split; [| split]]].
  - apply (proj1 (local_engine_scan py world_down 7 init) no_engine).
    reflexivity.
  - apply (proj1 (proj2 (local_engine_scan py (local_world 1 listing_mixed)
                           7 init))
             1 ("24.0.7" ++ line_end)%string).
    + reflexivity.
    + discriminate.
  - apply (proj1 (proj2 (proj2 (local_engine_scan py
                                  (local_world 0 listing_mixed) 7 init)))
             ("24.0.7" ++ line_end)%string 0 listing_mixed);
      reflexivity.
  - apply (proj2 (proj2 (proj2 (local_engine_scan py
                                  (local_world 0 listing_number) 7 init)))
             ("24.0.7" ++ line_end)%string 0 listing_number [line_a1]
             "123"%string [line_b2]
             (interp_exn py AttributeError (PInt 123) "get"));
      try reflexivity.
    discriminate.
  - apply (proj2 (proj2 (proj2 (local_engine_scan py
                                  (local_world 0 listing_long_number) 7
                                  init)))
             ("24.0.7" ++ line_end)%string 0 listing_long_number [line_a1]
             long_number [line_b2] too_long).
    + reflexivity.
    + reflexivity.
    + vm_compute. reflexivity.
    + reflexivity.
    + vm_compute. discriminate.
    + vm_compute. reflexivity.
Defined.

(** The virtual machine of the estate: the loopback interface and the
    IPv6 address are passed over. *)
Lemma vm_address_resolution_witness :
  get_guest_ip_from_proxmox py estate "10.0.0.1" 8006 ticket (PStr "pve")
    "qemu" (PInt 100) init
  = (Ok (Some "10.0.0.4"%string),
     add_calls init
       [guest_first_request py "10.0.0.1" 8006 ticket (PStr "pve") "qemu"
          (PInt 100)]).
Proof.
  apply (proj1 (vm_address_resolution py estate "10.0.0.1" 8006 ticket
                  (PStr "pve") (PInt 100) init agent_data
                  (add_calls init
                     [guest_first_request py "10.0.0.1" 8006 ticket
                        (PStr "pve") "qemu" (PInt 100)])
                  eq_refl)
           agent_interfaces);
    reflexivity.
Defined.

(** A cluster of two nodes: the guest and the storage of the second node
    are recorded under the name of the first. *)
Lemma records_name_the_first_node_witness :
  names "hostname" (PStr "pve") cluster_host
  /\ Forall (fun g => names "host_ip" (PStr "10.0.0.1") g
                      /\ names "node_name" (PStr "pve") g)
       (vms cluster_result ++ lxcs cluster_result ++ storage cluster_result)
  /\ List.length (vms cluster_result ++ storage cluster_result) = 2%nat.
Proof.
  destruct (records_name_the_first_node py cluster "10.0.0.1" 8006 ticket
              (PDict [("version", PStr "8.1.4")]) ssh_config 7 options init
              (PList [node; other_node])
              (add_calls init [HttpGetCookie (url "/nodes") ticket 15])
              cluster_result (snd cluster_run) cluster_host
              eq_refl eq_refl eq_refl)
    as (_ & Hname & _ & Hguests & _).
  split; [exact Hname |]. split; [exact Hguests | reflexivity].
Defined.

(** A server that holds three runs, two of which are kept. *)
Lemma cleanup_deletes_what_was_selected_witness :
  cleanup_old_scans py (server [3; 2; 1]) 2 []
  = (Ok tt,
     [mkStmt SelectOldRuns [PInt 2]; mkStmt (DeleteRuns 1) [PInt 1]]).
Proof.
  apply (proj1 (proj2 (cleanup_deletes_what_was_selected py
                         (server [3; 2; 1]) 2 []))
           (mkReply 0 [[PInt 1]]) eq_refl).
  intros [H | []]. discriminate.
Defined.

(** A size in the megabytes, a size one byte below a megabyte, and a
    negative size. *)
Lemma format_bytes_scales_witness :
  format_bytes py (PInt 123456789) = inr "117.7 MB"%string
  /\ format_bytes py (PInt 1048575) = inr "1024.0 KB"%string
  /\ format_bytes py (PInt (-5)) = inr "-5.0 B"%string.
Proof.
  split; [| split].
  - apply (proj1 (format_bytes_scales py 123456789) 2%nat).
    + lia.
    + lia.
    + right. vm_compute. discriminate.
    + right. vm_compute. reflexivity.
  - apply (proj1 (format_bytes_scales py 1048575) 1%nat).
    + lia.
    + lia.
    + right. vm_compute. discriminate.
    + right. vm_compute. reflexivity.
  - apply (proj2 (format_bytes_scales py (-5))). lia.
Defined.

End Examples.
